(** * Verification of the audio-extraction pipeline of [extract_audio.py]

    A shallow embedding of the quality parser, the metadata prober, the
    adaptive quality resolver, the conversion worker, the completion ledger
    and the scheduler of [src/extract_audio.py], followed by the properties
    the specification states about them.

    Conventions of the embedding.
    - Python [str] is [string]; the model covers ASCII text (code points
      below 128): [str.lower], [\d] and [int()] are modelled on ASCII.
    - Python [int] is [Z] (unbounded).  [int()] of a string refuses a
      literal of more than 4300 digits with a [ValueError]: the interpreter's
      default limit ([sys.int_info.default_max_str_digits]), which the
      program leaves as it is.
    - A Python exception is a value [Raise e] of [result]; [try/except] is
      [catch].  Functions that spawn processes run in the monad [Eff], whose
      state is the list of command lines handed to [subprocess.run].
    - JSON documents are values of [json]; Python [dict]s keep insertion
      order and are association lists with distinct keys.  JSON numbers with
      a fraction or an exponent are not modelled.
    - [print] and [logging] calls produce no value and are left out, except
      the one [logging.info] call that raises.  The model covers the runs
      in which the integers the program writes as text, in its messages and
      in the quality [<n>k], have at most 4300 digits, the interpreter's
      limit for that conversion as well. *)

From Stdlib Require Import ZArith String Ascii List Bool Lia Permutation.
Import ListNotations.

Open Scope string_scope.
Open Scope list_scope.
Open Scope Z_scope.

Set Implicit Arguments.
Set Warnings "-register-all".

Infix "+++" := String.append (at level 60, right associativity).

(* ================================================================= *)
(** ** Exceptions *)

(** An exception: its class name and its message ([str(e)]). *)
Inductive exn : Type := Exn (kind : string) (msg : string).

Definition exn_str (e : exn) : string := let 'Exn _ m := e in m.

Definition TypeError : exn := Exn "TypeError" "".
Definition ValueError : exn := Exn "ValueError" "".
Definition KeyError : exn := Exn "KeyError" "".
Definition IndexError : exn := Exn "IndexError" "".
Definition AttributeError : exn := Exn "AttributeError" "".

Inductive result (A : Type) : Type :=
| Ok (a : A)
| Raise (e : exn).
Arguments Ok {A} a.
Arguments Raise {A} e.

Definition rbind {A B} (r : result A) (k : A -> result B) : result B :=
  match r with
  | Ok a => k a
  | Raise e => Raise e
  end.

(** [try: body except: handler] *)
Definition catch {A} (body : result A) (handler : exn -> result A) : result A :=
  match body with
  | Ok a => Ok a
  | Raise e => handler e
  end.

Declare Scope result_scope.
Delimit Scope result_scope with res.
Notation "x <- r ;; k" := (rbind r (fun x => k))
  (at level 61, r at next level, right associativity) : result_scope.

(* ================================================================= *)
(** ** Strings *)

Module PyStr.

Definition code (c : ascii) : Z := Z.of_N (N_of_ascii c).

(** [\d] and [str.isdigit] on ASCII *)
Definition is_digit (c : ascii) : bool := (48 <=? code c) && (code c <=? 57).

Definition digit_value (c : ascii) : Z := code c - 48.

Definition digit_char (d : Z) : ascii := ascii_of_N (Z.to_N (48 + d)).

Definition is_upper (c : ascii) : bool := (65 <=? code c) && (code c <=? 90).

Definition lower_ascii (c : ascii) : ascii :=
  if is_upper c then ascii_of_N (Z.to_N (code c + 32)) else c.

(** [s.lower()] *)
Fixpoint lower (s : string) : string :=
  match s with
  | EmptyString => EmptyString
  | String c r => String (lower_ascii c) (lower r)
  end.

(** The whitespace [int()] and [str.strip] remove: tab, LF, VT, FF, CR, space. *)
Definition is_space (c : ascii) : bool :=
  ((9 <=? code c) && (code c <=? 13)) || (code c =? 32).

Fixpoint lstrip (s : string) : string :=
  match s with
  | EmptyString => EmptyString
  | String c r => if is_space c then lstrip r else s
  end.

Fixpoint rstrip (s : string) : string :=
  match s with
  | EmptyString => EmptyString
  | String c r =>
      match rstrip r with
      | EmptyString => if is_space c then EmptyString else String c EmptyString
      | r' => String c r'
      end
  end.

Definition strip (s : string) : string := rstrip (lstrip s).

Definition is_empty (s : string) : bool :=
  match s with EmptyString => true | _ => false end.

(** [s.endswith(suffix)] *)
Fixpoint endswith (s suffix : string) : bool :=
  String.eqb s suffix ||
  match s with
  | EmptyString => false
  | String _ r => endswith r suffix
  end.

(** [k in s] for two strings: substring test *)
Fixpoint contains (k s : string) : bool :=
  String.prefix k s ||
  match s with
  | EmptyString => false
  | String _ r => contains k r
  end.

(** The longest prefix of ASCII digits and what follows it. *)
Fixpoint span_digits (s : string) : string * string :=
  match s with
  | EmptyString => (EmptyString, EmptyString)
  | String c r =>
      if is_digit c
      then let '(ds, rest) := span_digits r in (String c ds, rest)
      else (EmptyString, s)
  end.

(** The digits of an [int()] literal after its sign: decimal digits, with
    single underscores allowed between two digits.  [prev] tells whether
    the previous character was a digit. *)
Fixpoint int_digits (s : string) (acc : Z) (prev : bool) : option Z :=
  match s with
  | EmptyString => if prev then Some acc else None
  | String c r =>
      if is_digit c then int_digits r (10 * acc + digit_value c) true
      else if Ascii.eqb c "_" && prev then
        match r with
        | String d _ => if is_digit d then int_digits r acc false else None
        | EmptyString => None
        end
      else None
  end.

(** [sys.int_info.default_max_str_digits]: the longest decimal literal, in
    digits, that [int()] converts. *)
Definition int_max_str_digits : Z := 4300.

(** The digits [int()] counts before it converts: those of the leading run
    of digits and underscores, leading zeros included. *)
Fixpoint scan_digits (s : string) : nat :=
  match s with
  | EmptyString => O
  | String c r =>
      if is_digit c then S (scan_digits r)
      else if Ascii.eqb c "_" then scan_digits r
      else O
  end.

(** [int(s)] for a string: surrounding whitespace, an optional sign,
    digits; anything else is a [ValueError], and so is a literal of more
    than [int_max_str_digits] digits. *)
Definition int_of_str (s : string) : result Z :=
  let t := strip s in
  let '(neg, body) :=
    match t with
    | String "-" r => (true, r)
    | String "+" r => (false, r)
    | _ => (false, t)
    end in
  if int_max_str_digits <? Z.of_nat (scan_digits body) then Raise ValueError
  else
    match int_digits body 0 false with
    | Some v => Ok (if neg then - v else v)
    | None => Raise ValueError
    end.

(** The decimal digits of [n >= 0], most significant first, put in front
    of [acc]. *)
Fixpoint str_nonneg (fuel : nat) (n : Z) (acc : string) : string :=
  match fuel with
  | O => acc
  | S f =>
      let acc' := String (digit_char (n mod 10)) acc in
      if n <? 10 then acc' else str_nonneg f (n / 10) acc'
  end.

(** [str(z)] for an integer *)
Definition str_of_int (z : Z) : string :=
  if z <? 0
  then String "-" (str_nonneg (S (Z.to_nat (Z.log2 (- z)))) (- z) EmptyString)
  else str_nonneg (S (Z.to_nat (Z.log2 z))) z EmptyString.

(** The value a run of decimal digits denotes, by position. *)
Fixpoint decimal_value (ds : string) : Z :=
  match ds with
  | EmptyString => 0
  | String c r => digit_value c * 10 ^ Z.of_nat (String.length r) + decimal_value r
  end.

Fixpoint all_digits (s : string) : bool :=
  match s with
  | EmptyString => true
  | String c r => is_digit c && all_digits r
  end.

(** Whether the string starts with a decimal digit. *)
Definition starts_with_digit (s : string) : bool :=
  match s with
  | EmptyString => false
  | String c _ => is_digit c
  end.

End PyStr.

(* ================================================================= *)
(** ** The quality parser *)

(** [re.match(r'(\d+)k?', s)]: the match object's [group(1)], or [None].
    [\d+] is greedy and [k?] may match nothing, so the pattern matches
    exactly when [s] starts with a digit, and group 1 is the whole run of
    leading digits. *)
Definition re_match_quality (s : string) : option string :=
  let '(ds, _) := PyStr.span_digits s in
  if PyStr.is_empty ds then None else Some ds.

(** [parse_quality_to_bps(quality_str)], lines 174-187.  Both branches of
    the [endswith('k')] test return [value * 1000]. *)
Definition parse_quality_to_bps (quality_str : string) : result (option Z) :=
  catch
    (match re_match_quality (PyStr.lower quality_str) with
     | Some group1 =>
         (value <- PyStr.int_of_str group1 ;;
          if PyStr.endswith (PyStr.lower quality_str) "k"
          then Ok (Some (value * 1000))
          else Ok (Some (value * 1000)))%res
     | None => Ok None
     end)
    (fun _ => Ok None).

(* ================================================================= *)
(** ** JSON values and the Python operations the code applies to them *)

Inductive json : Type :=
| JNull
| JBool (b : bool)
| JInt (z : Z)
| JStr (s : string)
| JList (l : list json)
| JDict (d : list (string * json)).

(** Insertion-ordered dictionaries with string keys. *)
Module Dict.
Section Ops.
Variable V : Type.

Definition t := list (string * V).

Fixpoint get (k : string) (d : t) : option V :=
  match d with
  | [] => None
  | (k', v) :: d' => if String.eqb k k' then Some v else get k d'
  end.

Definition mem (k : string) (d : t) : bool :=
  match get k d with Some _ => true | None => false end.

(** [d[k] = v]: replaces the value in place, or appends a new key. *)
Fixpoint set (k : string) (v : V) (d : t) : t :=
  match d with
  | [] => [(k, v)]
  | (k', v') :: d' =>
      if String.eqb k k' then (k, v) :: d' else (k', v') :: set k v d'
  end.
End Ops.
End Dict.

Definition is_str (k : string) (j : json) : bool :=
  match j with JStr s => String.eqb s k | _ => false end.

(** [k in j] for a string [k] *)
Definition py_contains (k : string) (j : json) : result bool :=
  match j with
  | JDict d => Ok (Dict.mem k d)
  | JList l => Ok (existsb (is_str k) l)
  | JStr s => Ok (PyStr.contains k s)
  | _ => Raise TypeError
  end.

(** [j[k]] for a string [k] *)
Definition py_getitem (k : string) (j : json) : result json :=
  match j with
  | JDict d => match Dict.get k d with Some v => Ok v | None => Raise KeyError end
  | _ => Raise TypeError
  end.

(** [j[k] = v] for a string [k] *)
Definition py_setitem (k : string) (v : json) (j : json) : result json :=
  match j with
  | JDict d => Ok (JDict (Dict.set k v d))
  | _ => Raise TypeError
  end.

(** [len(j)] *)
Definition py_len (j : json) : result Z :=
  match j with
  | JDict d => Ok (Z.of_nat (List.length d))
  | JList l => Ok (Z.of_nat (List.length l))
  | JStr s => Ok (Z.of_nat (String.length s))
  | _ => Raise TypeError
  end.

(** [j[0]] *)
Definition py_getitem0 (j : json) : result json :=
  match j with
  | JList (x :: _) => Ok x
  | JList [] => Raise IndexError
  | JStr (String c _) => Ok (JStr (String c EmptyString))
  | JStr EmptyString => Raise IndexError
  | JDict _ => Raise KeyError
  | _ => Raise TypeError
  end.

(** [int(j)] *)
Definition py_int (j : json) : result Z :=
  match j with
  | JInt z => Ok z
  | JBool b => Ok (if b then 1 else 0)
  | JStr s => PyStr.int_of_str s
  | _ => Raise TypeError
  end.

(** [j.copy()] *)
Definition py_copy (j : json) : result json :=
  match j with
  | JDict _ | JList _ => Ok j
  | _ => Raise AttributeError
  end.

(** [j == s] for a string [s] *)
Definition py_eq_str (j : json) (s : string) : bool := is_str s j.

(* ================================================================= *)
(** ** The environment of a run *)

(** What [subprocess.run(..., capture_output=True, text=True)] returns. *)
Record CompletedProcess : Type := {
  returncode : Z;
  stdout : string;
  stderr : string
}.

(** A file: its size, [str(st_mtime)], and what opening and reading it as
    UTF-8 text gives. *)
Record File : Type := {
  st_size : Z;
  st_mtime_str : string;
  read_text : result string
}.

(** The argument tuple of a conversion job:
    [(video_path, output_dir, audio_format, quality, record_file, worker_id,
      original_dir, use_adaptive)]. *)
Record Task : Type := {
  t_video_path : string;
  t_output_dir : string;
  t_audio_format : string;
  t_quality : string;
  t_record_file : option string;
  t_worker_id : Z;
  t_original_dir : string;
  t_use_adaptive : bool
}.

Record World : Type := {
  (** the external tools: the outcome of running a command line; a tool that
      cannot be started raises *)
  subprocess_run : list string -> result CompletedProcess;
  (** [json.loads] *)
  json_loads : string -> result json;
  (** the file system *)
  fs : string -> option File;
  (** [multiprocessing.cpu_count()] *)
  cpu_count : Z;
  (** [str(time.time())] when the result for this input file is recorded *)
  time_str : string -> string;
  (** the order in which the futures of the process pool complete *)
  as_completed : list Task -> list Task;
  (** a failure of the pool to deliver a job's result, raised by
      [future.result()] *)
  pool_failure : Task -> option exn
}.

(** Computations that spawn processes: the state is the list of command
    lines passed to [subprocess.run] so far, oldest first. *)
Definition trace := list (list string).
Definition Eff (A : Type) : Type := trace -> result A * trace.

Definition eret {A} (a : A) : Eff A := fun tr => (Ok a, tr).

Definition ebind {A B} (m : Eff A) (k : A -> Eff B) : Eff B :=
  fun tr =>
    match m tr with
    | (Ok a, tr') => k a tr'
    | (Raise e, tr') => (Raise e, tr')
    end.

Definition elift {A} (r : result A) : Eff A := fun tr => (r, tr).

Definition ecatch {A} (body : Eff A) (handler : exn -> Eff A) : Eff A :=
  fun tr =>
    match body tr with
    | (Ok a, tr') => (Ok a, tr')
    | (Raise e, tr') => handler e tr'
    end.

Definition run_subprocess (w : World) (cmd : list string) : Eff CompletedProcess :=
  fun tr => (subprocess_run w cmd, tr ++ [cmd]).

Declare Scope eff_scope.
Delimit Scope eff_scope with eff.
Notation "x <- m ;; k" := (ebind m (fun x => k))
  (at level 61, m at next level, right associativity) : eff_scope.

(* ================================================================= *)
(** ** The metadata prober *)

Definition ffprobe_cmd (video_path : string) : list string :=
  ["ffprobe"; "-v"; "quiet"; "-print_format"; "json";
   "-show_streams"; "-select_streams"; "a:0"; video_path].

(** ['tags' in stream and key in stream['tags']] *)
Definition has_tag (key : string) (stream : json) : result bool :=
  (has_tags <- py_contains "tags" stream ;;
   if has_tags
   then (tags <- py_getitem "tags" stream ;; py_contains key tags)
   else Ok false)%res.

(** [int(stream['tags'][key])] *)
Definition int_of_tag (key : string) (stream : json) : result Z :=
  (tags <- py_getitem "tags" stream ;;
   v <- py_getitem key tags ;;
   py_int v)%res.

(** Lines 82-102: the bitrate of one stream. *)
Definition stream_bitrate (stream : json) : result (option Z) :=
  (has_bit_rate <- py_contains "bit_rate" stream ;;
   if has_bit_rate then
     (v <- py_getitem "bit_rate" stream ;;
      bitrate <- py_int v ;;
      Ok (Some bitrate))
   else
     has_bps <- has_tag "BPS" stream ;;
     if has_bps then
       (bitrate <- int_of_tag "BPS" stream ;; Ok (Some bitrate))
     else
       has_tag_bit_rate <- has_tag "bit_rate" stream ;;
       if has_tag_bit_rate then
         (bitrate <- int_of_tag "bit_rate" stream ;; Ok (Some bitrate))
       else
         has_sample_rate <- py_contains "sample_rate" stream ;;
         has_channels <-
           (if has_sample_rate then py_contains "channels" stream else Ok false) ;;
         if has_channels then
           (s <- py_getitem "sample_rate" stream ;;
            sample_rate <- py_int s ;;
            c <- py_getitem "channels" stream ;;
            channels <- py_int c ;;
            Ok (Some (sample_rate * channels * 16)))
         else Ok None)%res.

(** Lines 77-105: what the prober makes of the inspection tool's answer. *)
Definition bitrate_of_probe (w : World) (res : CompletedProcess) : result (option Z) :=
  if returncode res =? 0 then
    (data <- json_loads w (stdout res) ;;
     has_streams <- py_contains "streams" data ;;
     if has_streams then
       (streams <- py_getitem "streams" data ;;
        n <- py_len streams ;;
        if n >? 0 then
          (stream <- py_getitem0 streams ;; stream_bitrate stream)
        else Ok None)
     else Ok None)%res
  else Ok None.

(** [get_video_audio_bitrate(video_path)], lines 66-109 *)
Definition get_video_audio_bitrate (w : World) (video_path : string) : Eff (option Z) :=
  ecatch
    (res <- run_subprocess w (ffprobe_cmd video_path) ;;
     elift (bitrate_of_probe w res))%eff
    (fun _ => eret None).

(** The integer [int(v)] gives, or [None] when [int(v)] raises. *)
Definition int_or_none (v : json) : option Z :=
  match py_int v with
  | Ok z => Some z
  | Raise _ => None
  end.

(** The entry [key] of a stream's tag metadata, when the stream has a tag
    object with that entry. *)
Definition tag_of (stream : Dict.t json) (key : string) : option json :=
  match Dict.get "tags" stream with
  | Some (JDict tags) => Dict.get key tags
  | _ => None
  end.

(** The stream's [tags] entry, when present, is an object (as the
    inspection tool writes it). *)
Definition tags_well_formed (stream : Dict.t json) : Prop :=
  Dict.get "tags" stream = None
  \/ exists tags, Dict.get "tags" stream = Some (JDict tags).

(* ================================================================= *)
(** ** The quality resolver *)

(** Lines 141-150 (mp3) and 153-162 (aac): the two cascades are the same. *)
Definition lossy_bucket (original_bitrate : Z) : string :=
  if original_bitrate <=? 66000 then "64k"
  else if original_bitrate <=? 98000 then "96k"
  else if original_bitrate <=? 130000 then "128k"
  else if original_bitrate <=? 196000 then "192k"
  else "256k".

(** [get_adaptive_quality(video_path, target_quality, audio_format, ...)],
    lines 112-171 *)
Definition get_adaptive_quality (w : World)
    (video_path target_quality audio_format : string) : Eff string :=
  (original_bitrate <- get_video_audio_bitrate w video_path ;;
   match original_bitrate with
   | None => eret target_quality
   | Some original_bitrate =>
       target_bps <- elift (parse_quality_to_bps target_quality) ;;
       match target_bps with
       | None => eret target_quality
       | Some target_bps =>
           if target_bps >? original_bitrate then
             if String.eqb audio_format "mp3" then eret (lossy_bucket original_bitrate)
             else if String.eqb audio_format "aac" then eret (lossy_bucket original_bitrate)
             else eret (PyStr.str_of_int (original_bitrate / 1000) +++ "k")
           else eret target_quality
       end
   end)%eff.

(* ================================================================= *)
(** ** Paths *)

Module PyPath.

(** Split at the last occurrence of [sep]: what is before, what is after. *)
Fixpoint rsplit (sep : ascii) (s : string) : option (string * string) :=
  match s with
  | EmptyString => None
  | String c r =>
      match rsplit sep r with
      | Some (before, after) => Some (String c before, after)
      | None => if Ascii.eqb c sep then Some (EmptyString, r) else None
      end
  end.

(** [os.path.basename(p)] *)
Definition basename (p : string) : string :=
  match rsplit "/" p with
  | Some (_, name) => name
  | None => p
  end.

(** [Path(p).stem] for a path whose last component is a file name: the
    name without its last suffix; a leading or a trailing dot starts no
    suffix. *)
Definition stem (p : string) : string :=
  let name := basename p in
  match rsplit "." name with
  | Some (before, after) =>
      if PyStr.is_empty before || PyStr.is_empty after then name else before
  | None => name
  end.

(** [os.path.join(a, b)] *)
Definition join (a b : string) : string :=
  if String.prefix "/" b then b
  else if PyStr.is_empty a || PyStr.endswith a "/" then a +++ b
  else a +++ "/" +++ b.

End PyPath.

(* ================================================================= *)
(** ** The conversion executor *)

Definition supported_formats : list string := ["mp3"; "aac"; "wav"; "flac"].

(** What a job returns next to its success flag: the triple
    [(video_name, quality, original_quality)] or an error message. *)
Inductive worker_data : Type :=
| Extracted (video_name quality original_quality : string)
| Message (msg : string).

(** Lines 306-328: the output file and the command line of a format. *)
Definition encode_command (audio_format output_dir video_name video_path quality : string)
  : option (string * list string) :=
  if String.eqb audio_format "mp3" then
    let output_file := PyPath.join output_dir (video_name +++ ".mp3") in
    Some (output_file,
          ["ffmpeg"; "-i"; video_path;
           "-vn"; "-acodec"; "libmp3lame"; "-ab"; quality; "-y"; output_file])
  else if String.eqb audio_format "aac" then
    let output_file := PyPath.join output_dir (video_name +++ ".aac") in
    Some (output_file,
          ["ffmpeg"; "-i"; video_path; "-vn"; "-acodec"; "aac"; "-b:a"; quality; "-y"; output_file])
  else if String.eqb audio_format "wav" then
    let output_file := PyPath.join output_dir (video_name +++ ".wav") in
    Some (output_file,
          ["ffmpeg"; "-i"; video_path; "-vn"; "-acodec"; "pcm_s16le"; "-ar"; "44100"; "-y"; output_file])
  else if String.eqb audio_format "flac" then
    let output_file := PyPath.join output_dir (video_name +++ ".flac") in
    Some (output_file,
          ["ffmpeg"; "-i"; video_path; "-vn"; "-acodec"; "flac"; "-y"; output_file])
  else None.

(** [extract_audio_from_video_worker(args)], lines 288-349 *)
Definition extract_audio_from_video_worker (w : World) (args : Task)
  : Eff (bool * worker_data) :=
  let video_path := t_video_path args in
  let audio_format := t_audio_format args in
  ecatch
    (let video_name := PyPath.stem video_path in
     let original_quality := t_quality args in
     quality <-
       (if t_use_adaptive args
        then get_adaptive_quality w video_path (t_quality args) audio_format
        else eret (t_quality args)) ;;
     match encode_command audio_format (t_output_dir args) video_name video_path quality with
     | None => eret (false, Message ("Unsupported audio format: " +++ audio_format))
     | Some (_, cmd) =>
         res <- run_subprocess w cmd ;;
         if returncode res =? 0 then
           eret (true, Extracted video_name quality original_quality)
         else
           let error_msg := "Extraction failed: " +++ video_name in
           let error_msg :=
             if PyStr.is_empty (stderr res) then error_msg
             else error_msg +++ " - " +++ stderr res in
           eret (false, Message error_msg)
     end)%eff
    (fun e =>
       eret (false, Message ("Error processing file " +++ video_path +++ ": " +++ exn_str e))).

(** [extract_audio_from_video(...)], lines 352-360: the single-process
    entry; it returns the success flag and the quality actually used. *)
Definition extract_audio_from_video (w : World)
    (video_path output_dir audio_format quality : string)
    (record_file : option string) (original_dir : string) (use_adaptive : bool)
  : Eff (bool * option string) :=
  (r <- extract_audio_from_video_worker w
          {| t_video_path := video_path; t_output_dir := output_dir;
             t_audio_format := audio_format; t_quality := quality;
             t_record_file := record_file; t_worker_id := 0;
             t_original_dir := original_dir; t_use_adaptive := use_adaptive |} ;;
   let '(success, data) := r in
   match data with
   | Extracted _ q _ => if success then eret (success, Some q) else eret (success, None)
   | Message _ => eret (success, None)
   end)%eff.

(* ================================================================= *)
(** ** The completion ledger *)

(** [load_extraction_record(record_file)], lines 190-198 *)
Definition load_extraction_record (w : World) (record_file : string) : result json :=
  match fs w record_file with
  | Some f =>
      catch (content <- read_text f ;; json_loads w content)%res
            (fun _ => Ok (JDict []))
  | None => Ok (JDict [])
  end.

(** [save_extraction_record(record_file, record)], lines 201-208: the
    snapshot handed to [json.dump] is appended to the history of writes; a
    failing write is logged and swallowed. *)
Definition save_extraction_record (saves : list json) (record : json) : list json :=
  saves ++ [record].

(** The record synthesized for an output file found on disk, lines 277-283 *)
Definition auto_entry (audio_file audio_format timestamp : string) : json :=
  JDict [("status", JStr "completed");
         ("output_file", JStr audio_file);
         ("audio_format", JStr audio_format);
         ("detected", JStr "auto");
         ("timestamp", JStr timestamp)].

(** Lines 265-274: the candidate output file of an input, if the format is
    one of the four. *)
Definition candidate_audio_file (output_dir audio_format video_file : string)
  : option string :=
  let video_name := PyPath.stem video_file in
  if String.eqb audio_format "mp3" then Some (PyPath.join output_dir (video_name +++ ".mp3"))
  else if String.eqb audio_format "aac" then Some (PyPath.join output_dir (video_name +++ ".aac"))
  else if String.eqb audio_format "wav" then Some (PyPath.join output_dir (video_name +++ ".wav"))
  else if String.eqb audio_format "flac" then Some (PyPath.join output_dir (video_name +++ ".flac"))
  else None.

(** One turn of the loop of [check_existing_audio_files]. *)
Definition check_one (w : World) (output_dir audio_format : string)
    (existing_files : Dict.t json) (video_file : string) : Dict.t json :=
  match candidate_audio_file output_dir audio_format video_file with
  | None => existing_files
  | Some audio_file =>
      match fs w audio_file with
      | Some f =>
          if st_size f >? 0
          then Dict.set (PyPath.basename video_file)
                        (auto_entry audio_file audio_format (st_mtime_str f))
                        existing_files
          else existing_files
      | None => existing_files
      end
  end.

(** [check_existing_audio_files(video_files, output_dir, audio_format)],
    lines 259-285 *)
Definition check_existing_audio_files (w : World) (video_files : list string)
    (output_dir audio_format : string) : Dict.t json :=
  fold_left (check_one w output_dir audio_format) video_files [].

(** The record the scan writes for one input file, if it writes one. *)
Definition detected_entry (w : World) (output_dir audio_format video_file : string)
  : option json :=
  match candidate_audio_file output_dir audio_format video_file with
  | None => None
  | Some audio_file =>
      match fs w audio_file with
      | Some f =>
          if st_size f >? 0
          then Some (auto_entry audio_file audio_format (st_mtime_str f))
          else None
      | None => None
      end
  end.

(** Every record of the ledger is an object with a [status] field, as the
    records this program writes are. *)
Definition ledger_well_formed (d : Dict.t json) : Prop :=
  forall k e, Dict.get k d = Some e ->
    exists fields s, e = JDict fields /\ Dict.get "status" fields = Some s.

(** Whether the ledger [d] lists [video_name] with status completed. *)
Definition completed_in (d : Dict.t json) (video_name : string) : bool :=
  match Dict.get video_name d with
  | Some (JDict fields) =>
      match Dict.get "status" fields with
      | Some status => py_eq_str status "completed"
      | None => false
      end
  | _ => false
  end.

(* ================================================================= *)
(** ** The scheduler *)

(** The parsed command line. *)
Record Args : Type := {
  a_directory : string;
  a_output : string;
  a_format : string;
  a_quality : string;
  a_adaptive : bool;
  a_no_resume : bool;
  a_jobs : Z;
  a_sequential : bool
}.

Definition record_file_name (audio_format : string) : string :=
  "extraction_record_" +++ audio_format +++ ".json".

(** Lines 468-471: merge the auto-detected records into [record] and into
    its copy [current_record]. *)
Fixpoint merge_auto_detected (items : list (string * json)) (record current_record : json)
  : result (json * json) :=
  match items with
  | [] => Ok (record, current_record)
  | (filename, info) :: rest =>
      (present <- py_contains filename record ;;
       if present then merge_auto_detected rest record current_record
       else
         record' <- py_setitem filename info record ;;
         current' <- py_setitem filename info current_record ;;
         merge_auto_detected rest record' current')%res
  end.

(** Line 477: [video_name in record and record[video_name]['status'] == 'completed'] *)
Definition is_completed (record : json) (video_name : string) : result bool :=
  (present <- py_contains video_name record ;;
   if present then
     (entry <- py_getitem video_name record ;;
      status <- py_getitem "status" entry ;;
      Ok (py_eq_str status "completed"))
   else Ok false)%res.

(** Lines 474-480: the completed and the pending input files. *)
Fixpoint partition_files (record : json) (video_files : list string)
  : result (list string * list string) :=
  match video_files with
  | [] => Ok ([], [])
  | video_file :: rest =>
      (done <- is_completed record (PyPath.basename video_file) ;;
       parts <- partition_files record rest ;;
       let '(completed_files, pending_files) := parts in
       if (done : bool) then Ok (video_file :: completed_files, pending_files)
       else Ok (completed_files, video_file :: pending_files))%res
  end.

(** What the resume block (lines 450-480) leaves behind. *)
Record Resume : Type := {
  rs_record_file : option string;
  rs_record : json;
  rs_current_record : json;
  rs_completed : list string;
  rs_pending : list string
}.

Definition resume (w : World) (args : Args) (video_files : list string) : result Resume :=
  if a_no_resume args then
    Ok {| rs_record_file := None; rs_record := JDict [];
          rs_current_record := JDict [];
          rs_completed := []; rs_pending := video_files |}
  else
    let record_file := record_file_name (a_format args) in
    (record <- load_extraction_record w record_file ;;
     current_record <- py_copy record ;;
     let auto_detected :=
       check_existing_audio_files w video_files (a_output args) (a_format args) in
     merged <- merge_auto_detected auto_detected record current_record ;;
     parts <- partition_files (fst merged) video_files ;;
     Ok {| rs_record_file := Some record_file; rs_record := fst merged;
           rs_current_record := snd merged;
           rs_completed := fst parts; rs_pending := snd parts |})%res.

(** Lines 517-526 *)
Definition max_workers_of (args : Args) (cpus n_pending : Z) : Z :=
  if a_sequential args then 1
  else if a_jobs args >? 0 then a_jobs args
  else Z.min cpus n_pending.

(** The record written after a successful conversion, lines 557-563 and
    591-597 *)
Definition completion_entry (output_file audio_format quality timestamp : string) : json :=
  JDict [("status", JStr "completed");
         ("output_file", JStr output_file);
         ("audio_format", JStr audio_format);
         ("quality", JStr quality);
         ("timestamp", JStr timestamp)].

(** What a handled job reported: success, failure, or no result at all. *)
Inductive report : Type := Succeeded | Failed | Broken.

(** The scheduler's state while it dispatches. *)
Record Sched : Type := {
  current_record : json;
  success_count : Z;
  saves : list json;
  submitted : list string;
  handled : list (string * report)
}.

Definition note_handled (st : Sched) (video_file : string) (r : report) : Sched :=
  {| current_record := current_record st; success_count := success_count st;
     saves := saves st; submitted := submitted st;
     handled := handled st ++ [(video_file, r)] |}.

Definition note_submitted (st : Sched) (video_files : list string) : Sched :=
  {| current_record := current_record st; success_count := success_count st;
     saves := saves st; submitted := submitted st ++ video_files;
     handled := handled st |}.

Definition count_success (st : Sched) : Sched :=
  {| current_record := current_record st; success_count := success_count st + 1;
     saves := saves st; submitted := submitted st; handled := handled st |}.

(** [current_record[video_name] = entry] followed by
    [save_extraction_record(record_file, current_record)] *)
Definition record_completion (st : Sched) (video_name : string) (entry : json)
  : result Sched :=
  (cr <- py_setitem video_name entry (current_record st) ;;
   Ok {| current_record := cr; success_count := success_count st;
         saves := save_extraction_record (saves st) cr;
         submitted := submitted st; handled := handled st |})%res.

Definition output_file_of (args : Args) (video_file : string) : string :=
  PyPath.join (a_output args) (PyPath.stem video_file +++ "." +++ a_format args).

(** Line 548: [logging.info(f"...", end="")].  [Logger._log] accepts no
    keyword [end]; the root logger is enabled for INFO, so the call raises. *)
Definition logging_info_end : result unit :=
  Raise (Exn "TypeError" "Logger._log() got an unexpected keyword argument 'end'").

(** Lines 547-564: the sequential loop.  An exception leaves the loop and
    [main]; it is returned with the state reached. *)
Fixpoint sequential_loop (w : World) (args : Args) (record_file : option string)
    (pending : list string) (st : Sched) : Sched * option exn :=
  match pending with
  | [] => (st, None)
  | video_file :: rest =>
      match logging_info_end with
      | Raise e => (st, Some e)
      | Ok _ =>
          let st := note_submitted st [video_file] in
          match fst (extract_audio_from_video w video_file (a_output args) (a_format args)
                       (a_quality args) record_file (a_directory args) (a_adaptive args) [])
          with
          | Raise e => (st, Some e)
          | Ok (success, actual_quality) =>
              if (success : bool) then
                let st := count_success (note_handled st video_file Succeeded) in
                match record_file with
                | Some _ =>
                    let quality_for_record :=
                      match actual_quality with
                      | Some q => if PyStr.is_empty q then a_quality args else q
                      | None => a_quality args
                      end in
                    match record_completion st (PyPath.basename video_file)
                            (completion_entry (output_file_of args video_file)
                               (a_format args) quality_for_record (time_str w video_file))
                    with
                    | Ok st' => sequential_loop w args record_file rest st'
                    | Raise e => (st, Some e)
                    end
                | None => sequential_loop w args record_file rest st
                end
              else sequential_loop w args record_file rest (note_handled st video_file Failed)
          end
      end
  end.

(** Lines 571-572: one task per pending file, worker ids from [first_id]. *)
Fixpoint make_tasks (args : Args) (record_file : option string)
    (pending : list string) (first_id : Z) : list Task :=
  match pending with
  | [] => []
  | video_file :: rest =>
      {| t_video_path := video_file; t_output_dir := a_output args;
         t_audio_format := a_format args; t_quality := a_quality args;
         t_record_file := record_file; t_worker_id := first_id;
         t_original_dir := a_directory args; t_use_adaptive := a_adaptive args |}
      :: make_tasks args record_file rest (first_id + 1)
  end.

(** [future.result()]: the job runs in a process of its own, so its
    subprocess history starts empty. *)
Definition future_result (w : World) (task : Task) : result (bool * worker_data) :=
  match pool_failure w task with
  | Some e => Raise e
  | None => fst (extract_audio_from_video_worker w task [])
  end.

(** Lines 578-600: the body of the loop over completed futures, with its
    [try/except Exception]. *)
Definition handle_future (w : World) (args : Args) (record_file : option string)
    (st : Sched) (task : Task) : Sched :=
  let video_file := t_video_path task in
  match future_result w task with
  | Raise _ => note_handled st video_file Broken
  | Ok (success, data) =>
      if (success : bool) then
        let st := count_success (note_handled st video_file Succeeded) in
        match record_file with
        | Some _ =>
            let actual_quality :=
              match data with
              | Extracted _ q _ => q
              | Message _ => a_quality args
              end in
            match record_completion st (PyPath.basename video_file)
                    (completion_entry (output_file_of args video_file)
                       (a_format args) actual_quality (time_str w video_file))
            with
            | Ok st' => st'
            | Raise _ => st
            end
        | None => st
        end
      else note_handled st video_file Failed
  end.

(** What handling a task's future notes for it. *)
Definition report_of (w : World) (task : Task) : report :=
  match future_result w task with
  | Raise _ => Broken
  | Ok (true, _) => Succeeded
  | Ok (false, _) => Failed
  end.

Definition is_succeeded (r : report) : bool :=
  match r with Succeeded => true | _ => false end.

(** Two ledgers agree on the key [k]: on its presence and on its record. *)
Definition same_entry (k : string) (j1 j2 : json) : Prop :=
  py_contains k j1 = py_contains k j2 /\ py_getitem k j1 = py_getitem k j2.

(** Lines 567-600: submit every task, then handle the futures in the order
    they complete. *)
Definition parallel_dispatch (w : World) (args : Args) (record_file : option string)
    (pending : list string) (st : Sched) : Sched :=
  let tasks := make_tasks args record_file pending 1 in
  fold_left (handle_future w args record_file) (as_completed w tasks)
            (note_submitted st (map t_video_path tasks)).

(** How [main] ends. *)
Inductive exit_status : Type :=
| SysExit (code : Z)            (** [sys.exit(code)] *)
| AllProcessed                  (** the early [return] of line 530 *)
| Finished (this_run total_count completed_total : Z)
                                (** the tally of lines 608-609 *)
| Crashed (e : exn).            (** an exception leaves [main] *)

(** What a run of [main] did. *)
Record Run : Type := {
  run_record : json;
  run_completed : list string;
  run_pending : list string;
  run_max_workers : Z;
  run_sched : Sched;
  run_exit : exit_status
}.

Definition initial_sched (current : json) : Sched :=
  {| current_record := current; success_count := 0; saves := [];
     submitted := []; handled := [] |}.

(** [main()], lines 439-609, from the list [video_files] that
    [get_video_files(args.directory)] returned. *)
Definition main (w : World) (args : Args) (video_files : list string) : Run :=
  match video_files with
  | [] =>
      {| run_record := JDict []; run_completed := []; run_pending := [];
         run_max_workers := 0; run_sched := initial_sched (JDict []);
         run_exit := SysExit 1 |}
  | _ :: _ =>
      match resume w args video_files with
      | Raise e =>
          {| run_record := JDict []; run_completed := []; run_pending := [];
             run_max_workers := 0; run_sched := initial_sched (JDict []);
             run_exit := Crashed e |}
      | Ok rs =>
          let pending_files := rs_pending rs in
          let completed_files := rs_completed rs in
          let max_workers :=
            max_workers_of args (cpu_count w) (Z.of_nat (List.length pending_files)) in
          let st0 := initial_sched (rs_current_record rs) in
          let finish (st : Sched) (status : exit_status) : Run :=
            {| run_record := rs_record rs; run_completed := completed_files;
               run_pending := pending_files; run_max_workers := max_workers;
               run_sched := st; run_exit := status |} in
          let tally (st : Sched) : exit_status :=
            Finished (success_count st) (Z.of_nat (List.length pending_files))
                     (Z.of_nat (List.length completed_files) + success_count st) in
          match pending_files with
          | [] => finish st0 AllProcessed
          | _ :: _ =>
              if max_workers =? 1 then
                match sequential_loop w args (rs_record_file rs) pending_files st0 with
                | (st, Some e) => finish st (Crashed e)
                | (st, None) => finish st (tally st)
                end
              else if max_workers <=? 0 then
                finish st0 (Crashed (Exn "ValueError" "max_workers must be greater than 0"))
              else
                let st := parallel_dispatch w args (rs_record_file rs) pending_files st0 in
                finish st (tally st)
          end
      end
  end.

(* ================================================================= *)
(** ** A concrete environment

    A small world on which the statements below are exercised: an input
    directory [in] with a few videos, an output directory [out] that already
    holds [a.mp3], ledger files for three formats (a readable one, a corrupt
    one, a missing one), an inspection tool that reports for [in/vN.mp4] the
    bitrate [N], and a conversion tool that fails on [in/b.mp4]. *)

Module Samples.

Definition stream_doc (bit_rate : string) : json :=
  JDict [("streams",
          JList [JDict [("index", JInt 0); ("codec_name", JStr "aac");
                        ("bit_rate", JStr bit_rate); ("channels", JInt 2)]])].

Definition tagged_doc : json :=
  JDict [("streams",
          JList [JDict [("index", JInt 0); ("codec_name", JStr "opus");
                        ("sample_rate", JStr "48000"); ("channels", JInt 2);
                        ("tags", JDict [("language", JStr "eng");
                                        ("BPS", JStr "125000")])]])].

Definition pcm_doc : json :=
  JDict [("streams",
          JList [JDict [("index", JInt 0); ("codec_name", JStr "pcm_s16le");
                        ("sample_rate", JStr "44100"); ("channels", JInt 2);
                        ("tags", JDict [("language", JStr "und")])]])].

Definition bare_doc : json :=
  JDict [("streams",
          JList [JDict [("index", JInt 0); ("codec_name", JStr "vorbis");
                        ("channels", JInt 2)]])].

Definition ledger_doc : json :=
  JDict [("c.mp4",
          completion_entry "out/c.mp3" "mp3" "192k" "1699999999.0")].

Definition run_tool (cmd : list string) : result CompletedProcess :=
  match cmd with
  | "ffprobe" :: rest =>
      Ok {| returncode := 0; stdout := last rest ""; stderr := "" |}
  | "ffmpeg" :: "-i" :: video_path :: _ =>
      if String.eqb video_path "in/b.mp4"
      then Ok {| returncode := 1; stdout := ""; stderr := "Invalid data found" |}
      else Ok {| returncode := 0; stdout := ""; stderr := "" |}
  | _ => Raise (Exn "FileNotFoundError" "No such file or directory")
  end.

Definition loads (text : string) : result json :=
  if String.eqb text "in/v50000.mp4" then Ok (stream_doc "50000")
  else if String.eqb text "in/v66000.mp4" then Ok (stream_doc "66000")
  else if String.eqb text "in/v67000.mp4" then Ok (stream_doc "67000")
  else if String.eqb text "in/v128500.mp4" then Ok (stream_doc "128500")
  else if String.eqb text "in/v320000.mp4" then Ok (stream_doc "320000")
  else if String.eqb text "in/tagged.mkv" then Ok tagged_doc
  else if String.eqb text "in/pcm.avi" then Ok pcm_doc
  else if String.eqb text "in/bare.webm" then Ok bare_doc
  else if String.eqb text "ledger text" then Ok ledger_doc
  else Raise (Exn "JSONDecodeError" "Expecting value").

Definition files (path : string) : option File :=
  if String.eqb path "out/a.mp3" then
    Some {| st_size := 4096; st_mtime_str := "1700000000.5";
            read_text := Raise (Exn "UnicodeDecodeError" "invalid start byte") |}
  else if String.eqb path "extraction_record_mp3.json" then
    Some {| st_size := 11; st_mtime_str := "1700000001.0"; read_text := Ok "ledger text" |}
  else if String.eqb path "extraction_record_aac.json" then
    Some {| st_size := 5; st_mtime_str := "1700000002.0"; read_text := Ok "{'c.m" |}
  else None.

Definition world : World :=
  {| subprocess_run := run_tool;
     json_loads := loads;
     fs := files;
     cpu_count := 4;
     time_str := fun _ => "1700000100.0";
     as_completed := @rev Task;
     pool_failure := fun _ => None |}.

Definition args_mp3 : Args :=
  {| a_directory := "in"; a_output := "out"; a_format := "mp3"; a_quality := "192k";
     a_adaptive := false; a_no_resume := false; a_jobs := 0; a_sequential := false |}.

Definition args_jobs8 : Args :=
  {| a_directory := "in"; a_output := "out"; a_format := "mp3"; a_quality := "192k";
     a_adaptive := false; a_no_resume := false; a_jobs := 8; a_sequential := false |}.

Definition videos : list string := ["in/a.mp4"; "in/b.mp4"; "in/c.mp4"; "in/d.mp4"].

Definition resumed : Resume :=
  Eval vm_compute in
    match resume world args_mp3 videos with
    | Ok rs => rs
    | Raise _ =>
        {| rs_record_file := None; rs_record := JNull; rs_current_record := JNull;
           rs_completed := []; rs_pending := [] |}
    end.


End Samples.

(* ================================================================= *)
(** ** Directory listing, housekeeping and the exit handlers *)

(** [Path(p).suffix] for a path whose last component is a file name: the
    last suffix of the name, with its dot; a leading or a trailing dot
    starts no suffix. *)
Definition path_suffix (p : string) : string :=
  let name := PyPath.basename p in
  match PyPath.rsplit "." name with
  | Some (before, after) =>
      if PyStr.is_empty before || PyStr.is_empty after
      then EmptyString else String "." after
  | None => EmptyString
  end.

Fixpoint all_slashes (s : string) : bool :=
  match s with
  | EmptyString => true
  | String c r => Ascii.eqb c "/" && all_slashes r
  end.

(** [s.rstrip('/')] *)
Fixpoint rstrip_slashes (s : string) : string :=
  match s with
  | EmptyString => EmptyString
  | String c r =>
      match rstrip_slashes r with
      | EmptyString => if Ascii.eqb c "/" then EmptyString else String c EmptyString
      | r' => String c r'
      end
  end.

(** [os.path.dirname(p)] *)
Definition path_dirname (p : string) : string :=
  match PyPath.rsplit "/" p with
  | None => EmptyString
  | Some (before, _) =>
      let head := before +++ "/" in
      if all_slashes head then head else rstrip_slashes head
  end.

(** An entry that [Path(directory).iterdir()] yields: [str(file_path)] and
    [file_path.is_file()]. *)
Record DirEntry : Type := {
  entry_path : string;
  entry_is_file : bool
}.

(** The directories of the file system: the entries of a directory, or
    [None] for a path that does not exist. *)
Definition Listing : Type := string -> option (list DirEntry).

Definition video_extensions : list string :=
  [".mp4"; ".avi"; ".mkv"; ".mov"; ".wmv"; ".flv"; ".webm"; ".m4v"].

(** [file_path.is_file() and file_path.suffix.lower() in video_extensions] *)
Definition is_video (e : DirEntry) : bool :=
  entry_is_file e
  && existsb (String.eqb (PyStr.lower (path_suffix (entry_path e)))) video_extensions.

(** The loop of lines 372-374. *)
Fixpoint collect_videos (entries : list DirEntry) : list string :=
  match entries with
  | [] => []
  | e :: rest =>
      if is_video e then entry_path e :: collect_videos rest
      else collect_videos rest
  end.

(** [get_video_files(directory)], lines 363-376 *)
Definition get_video_files (ls : Listing) (directory : string) : list string :=
  match ls directory with
  | None => []
  | Some entries => collect_videos entries
  end.

(** [move_video_files_to_original(video_files, original_dir)], lines
    211-237, with [os.getcwd()] given and [shutil.move] as an oracle. *)
Fixpoint move_video_files_to_original
    (shutil_move : string -> string -> result unit) (cwd : string)
    (video_files : list string) (original_dir : string) : list string :=
  match video_files with
  | [] => []
  | video_file :: rest =>
      let file_dir := path_dirname video_file in
      (if String.eqb file_dir cwd then
         let filename := PyPath.basename video_file in
         let new_path := PyPath.join original_dir filename in
         match shutil_move video_file new_path with
         | Ok _ => new_path
         | Raise _ => video_file
         end
       else video_file)
      :: move_video_files_to_original shutil_move cwd rest original_dir
  end.

(** The truth value of a JSON value in a condition. *)
Definition py_truthy (j : json) : bool :=
  match j with
  | JNull => false
  | JBool b => b
  | JInt z => negb (z =? 0)
  | JStr s => negb (PyStr.is_empty s)
  | JList l => match l with [] => false | _ :: _ => true end
  | JDict d => match d with [] => false | _ :: _ => true end
  end.

(** [atexit_handler()], lines 60-63, on the globals [current_record_file]
    and [current_record] and the history of writes. *)
Definition atexit_handler (current_record_file : option string) (current_record : json)
    (saves : list json) : list json :=
  match current_record_file with
  | Some file =>
      if negb (PyStr.is_empty file) && py_truthy current_record
      then save_extraction_record saves current_record
      else saves
  | None => saves
  end.

(* ================================================================= *)
(** ** Further environments *)

Module Cases.

(** No external tool can be started. *)
Definition world_no_tool : World :=
  {| subprocess_run := fun _ => Raise (Exn "FileNotFoundError" "ffmpeg");
     json_loads := Samples.loads;
     fs := Samples.files;
     cpu_count := 4;
     time_str := fun _ => "1700000100.0";
     as_completed := @rev Task;
     pool_failure := fun _ => None |}.

(** The inspection tool exits with status 1. *)
Definition world_probe_fails : World :=
  {| subprocess_run :=
       fun cmd =>
         match cmd with
         | "ffprobe" :: _ =>
             Ok {| returncode := 1; stdout := ""; stderr := "moov atom not found" |}
         | _ => Samples.run_tool cmd
         end;
     json_loads := Samples.loads;
     fs := Samples.files;
     cpu_count := 4;
     time_str := fun _ => "1700000100.0";
     as_completed := @rev Task;
     pool_failure := fun _ => None |}.

Definition args_sequential : Args :=
  {| a_directory := "in"; a_output := "out"; a_format := "mp3"; a_quality := "192k";
     a_adaptive := false; a_no_resume := false; a_jobs := 0; a_sequential := true |}.

Definition args_no_resume : Args :=
  {| a_directory := "in"; a_output := "out"; a_format := "mp3"; a_quality := "192k";
     a_adaptive := false; a_no_resume := true; a_jobs := 0; a_sequential := false |}.

Definition task_of (video_path audio_format quality : string) (use_adaptive : bool) : Task :=
  {| t_video_path := video_path; t_output_dir := "out"; t_audio_format := audio_format;
     t_quality := quality; t_record_file := None; t_worker_id := 1;
     t_original_dir := "in"; t_use_adaptive := use_adaptive |}.

(** A run with adaptive quality on, over two inputs probed at 66000 and
    320000 bps. *)
Definition args_adaptive : Args :=
  {| a_directory := "in"; a_output := "out"; a_format := "mp3"; a_quality := "192k";
     a_adaptive := true; a_no_resume := false; a_jobs := 0; a_sequential := false |}.

Definition videos_adaptive : list string := ["in/v66000.mp4"; "in/v320000.mp4"].

(** The ledger in memory at the end of the run of [Samples]. *)
Definition ledger_after : json :=
  Eval vm_compute in
    current_record (run_sched (main Samples.world Samples.args_mp3 Samples.videos)).

(** The world of a second run: the ledger file holds [ledger_after]. *)
Definition world_second : World :=
  {| subprocess_run := Samples.run_tool;
     json_loads := fun text =>
       if String.eqb text "ledger after" then Ok ledger_after else Samples.loads text;
     fs := fun path =>
       if String.eqb path "extraction_record_mp3.json" then
         Some {| st_size := 400; st_mtime_str := "1700000100.0";
                 read_text := Ok "ledger after" |}
       else Samples.files path;
     cpu_count := 4;
     time_str := fun _ => "1700000200.0";
     as_completed := @rev Task;
     pool_failure := fun _ => None |}.

(** The pool loses the job of [in/d.mp4]. *)
Definition world_broken_pool : World :=
  {| subprocess_run := Samples.run_tool;
     json_loads := Samples.loads;
     fs := Samples.files;
     cpu_count := 4;
     time_str := fun _ => "1700000100.0";
     as_completed := @rev Task;
     pool_failure := fun t =>
       if String.eqb (t_video_path t) "in/d.mp4"
       then Some (Exn "BrokenProcessPool" "A process in the process pool was terminated")
       else None |}.

Definition in_listing : Listing :=
  fun directory =>
    if String.eqb directory "in" then
      Some [ {| entry_path := "in/a.mp4"; entry_is_file := true |};
             {| entry_path := "in/notes.txt"; entry_is_file := true |};
             {| entry_path := "in/B.MKV"; entry_is_file := true |};
             {| entry_path := "in/done.mp4"; entry_is_file := false |};
             {| entry_path := "in/.mp4"; entry_is_file := true |};
             {| entry_path := "in/c.tar.webm"; entry_is_file := true |} ]
    else None.

Definition move_fails_for_b (src dst : string) : result unit :=
  if String.eqb src "/work/b.mp4" then Raise (Exn "PermissionError" "denied") else Ok tt.

(** The ledger file of the mp3 runs was cut in the middle of a character:
    it exists and does not decode as UTF-8. *)
Definition world_undecodable : World :=
  {| subprocess_run := subprocess_run Samples.world;
     json_loads := json_loads Samples.world;
     fs := fun path =>
             if String.eqb path "extraction_record_mp3.json" then
               Some {| st_size := 57; st_mtime_str := "1700000003.0";
                       read_text := Raise (Exn "UnicodeDecodeError"
                                             "unexpected end of data") |}
             else fs Samples.world path;
     cpu_count := cpu_count Samples.world;
     time_str := time_str Samples.world;
     as_completed := as_completed Samples.world;
     pool_failure := pool_failure Samples.world |}.

(** [c * n] for a one-character string *)
Fixpoint repeat_char (c : ascii) (n : nat) : string :=
  match n with
  | O => EmptyString
  | S n' => String c (repeat_char c n')
  end.

(** A quality of 4301 digits, one more than [int()] converts. *)
Definition long_quality : string := repeat_char "1" 4301 +++ "k".

End Cases.



(* ================================================================= *)
(** * Properties *)

Unset Implicit Arguments.

(** ** Characters and decimal notation *)

Ltac ascii_cases c :=
  destruct c as [[|] [|] [|] [|] [|] [|] [|] [|]]; vm_compute in *;
  try congruence; try reflexivity.

Module PyStrFacts.
Import PyStr.


Lemma digit_not_space c : is_digit c = true -> is_space c = false.
Proof. intros H. ascii_cases c. Qed.

Lemma lower_preserves_digit c : is_digit (lower_ascii c) = is_digit c.
Proof. ascii_cases c. Qed.




Lemma starts_with_digit_lower s : starts_with_digit (lower s) = starts_with_digit s.
Proof. destruct s as [|c r]; simpl; [reflexivity | apply lower_preserves_digit]. Qed.

Lemma span_digits_app ds rest :
  all_digits ds = true -> starts_with_digit rest = false ->
  span_digits (ds +++ rest) = (ds, rest).
Proof.
  intros Hds Hrest. induction ds as [|c r IH]; simpl in *.
  - destruct rest as [|c r]; simpl in *; [reflexivity | now rewrite Hrest].
  - apply andb_true_iff in Hds as [Hc Hr]. now rewrite Hc, IH.
Qed.

Lemma span_digits_no_digit s :
  starts_with_digit s = false -> fst (span_digits s) = EmptyString.
Proof. destruct s as [|c r]; simpl; intros H; [reflexivity | now rewrite H]. Qed.

Lemma lstrip_digits ds : all_digits ds = true -> lstrip ds = ds.
Proof.
  destruct ds as [|c r]; simpl; intros H; [reflexivity|].
  apply andb_true_iff in H as [Hc _]. now rewrite digit_not_space.
Qed.

Lemma rstrip_digits ds : all_digits ds = true -> rstrip ds = ds.
Proof.
  induction ds as [|c r IH]; simpl; intros H; [reflexivity|].
  apply andb_true_iff in H as [Hc Hr]. rewrite IH by assumption.
  destruct r; [now rewrite digit_not_space | reflexivity].
Qed.

(** On a run of digits [int_digits] is Horner's rule. *)
Lemma int_digits_all_digits ds :
  all_digits ds = true ->
  forall acc prev, (ds <> EmptyString \/ prev = true) ->
  int_digits ds acc prev
  = Some (acc * 10 ^ Z.of_nat (String.length ds) + decimal_value ds).
Proof.
  induction ds as [|c r IH]; intros Hds acc prev Hne.
  - destruct Hne as [Hne | ->]; [congruence|]. simpl. f_equal. lia.
  - simpl in Hds. apply andb_true_iff in Hds as [Hc Hr].
    cbn [int_digits]. rewrite Hc. rewrite IH by auto.
    f_equal. cbn [String.length decimal_value].
    rewrite Nat2Z.inj_succ, Z.pow_succ_r by lia. ring.
Qed.

Lemma sign_split_digit c r :
  is_digit c = true ->
  match String c r with
  | String "-" r' => (true, r')
  | String "+" r' => (false, r')
  | _ => (false, String c r)
  end = (false, String c r).
Proof. intros H. ascii_cases c. Qed.

Lemma scan_digits_all_digits ds :
  all_digits ds = true -> scan_digits ds = String.length ds.
Proof.
  induction ds as [|c r IH]; simpl; intros H; [reflexivity|].
  apply andb_true_iff in H as [Hc Hr]. now rewrite Hc, IH.
Qed.

(** [int()] of a run of digits: its decimal value, up to 4300 digits. *)
Lemma int_of_str_run ds :
  all_digits ds = true -> ds <> EmptyString ->
  int_of_str ds
  = if int_max_str_digits <? Z.of_nat (String.length ds)
    then Raise ValueError else Ok (decimal_value ds).
Proof.
  intros Hds Hne. unfold int_of_str, strip.
  rewrite lstrip_digits, rstrip_digits by assumption.
  destruct ds as [|c r]; [congruence|].
  assert (Hc : is_digit c = true) by (simpl in Hds; now apply andb_true_iff in Hds).
  rewrite (@sign_split_digit c r Hc).
  rewrite scan_digits_all_digits by assumption.
  destruct (int_max_str_digits <? _); [reflexivity|].
  rewrite int_digits_all_digits by (auto; left; congruence).
  f_equal.
Qed.











End PyStrFacts.

(* ================================================================= *)
(** ** The quality parser *)

(** What the parser returns on a string that starts with a run of digits. *)
Lemma parse_digit_run quality_str ds rest :
  PyStr.lower quality_str = ds +++ rest ->
  ds <> EmptyString -> PyStr.all_digits ds = true ->
  PyStr.starts_with_digit rest = false ->
  parse_quality_to_bps quality_str
  = Ok (if PyStr.int_max_str_digits <? Z.of_nat (String.length ds)
        then None else Some (PyStr.decimal_value ds * 1000)).
Proof.
  intros Hlow Hne Hds Hrest. unfold parse_quality_to_bps, re_match_quality.
  rewrite Hlow, PyStrFacts.span_digits_app by assumption.
  destruct ds as [|c r]; [congruence|]. cbn [PyStr.is_empty].
  rewrite PyStrFacts.int_of_str_run by (auto; congruence).
  destruct (PyStr.int_max_str_digits <? _); cbn [rbind catch]; [reflexivity|].
  now destruct (PyStr.endswith _ _).
Qed.

Lemma parse_leading_digits quality_str ds rest :
  PyStr.lower quality_str = ds +++ rest ->
  ds <> EmptyString -> PyStr.all_digits ds = true ->
  PyStr.starts_with_digit rest = false ->
  Z.of_nat (String.length ds) <= PyStr.int_max_str_digits ->
  parse_quality_to_bps quality_str = Ok (Some (PyStr.decimal_value ds * 1000)).
Proof.
  intros Hlow Hne Hds Hrest Hlen.
  rewrite (parse_digit_run _ _ _ Hlow Hne Hds Hrest).
  now apply Z.ltb_ge in Hlen as ->.
Qed.

Lemma parse_too_long quality_str ds rest :
  PyStr.lower quality_str = ds +++ rest ->
  PyStr.all_digits ds = true ->
  PyStr.starts_with_digit rest = false ->
  PyStr.int_max_str_digits < Z.of_nat (String.length ds) ->
  parse_quality_to_bps quality_str = Ok None.
Proof.
  intros Hlow Hds Hrest Hlen.
  rewrite (parse_digit_run _ _ _ Hlow) by
    (try assumption; intros ->; unfold PyStr.int_max_str_digits in Hlen; simpl in Hlen; lia).
  now apply Z.ltb_lt in Hlen as ->.
Qed.


Lemma parse_no_digit quality_str :
  PyStr.starts_with_digit quality_str = false ->
  parse_quality_to_bps quality_str = Ok None.
Proof.
  intros H. unfold parse_quality_to_bps, re_match_quality.
  rewrite <- PyStrFacts.starts_with_digit_lower in H.
  pose proof (PyStrFacts.span_digits_no_digit _ H) as Hs.
  destruct (PyStr.span_digits (PyStr.lower quality_str)) as [ds rest].
  simpl in Hs. subst ds. reflexivity.
Qed.

Lemma parse_total quality_str :
  exists r, parse_quality_to_bps quality_str = Ok r.
Proof.
  unfold parse_quality_to_bps.
  destruct (re_match_quality _) as [g|]; [|now eexists].
  destruct (PyStr.int_of_str g) as [v|e]; cbn [rbind catch].
  - destruct (PyStr.endswith _ _); now eexists.
  - now eexists.
Qed.


(** C10, as the code has it.  When the lowercased input starts with a run
    of decimal digits, the parser returns the value of that run times 1000,
    whatever follows the run, provided the run has at most 4300 digits; on
    a longer run [int()] raises and the parser returns [None]; when the
    input does not start with a digit it returns [None]; it returns a value
    (it does not raise) on every string. *)
Theorem parse_quality_to_bps_spec (quality_str : string) :
  (forall ds rest,
      PyStr.lower quality_str = ds +++ rest ->
      ds <> EmptyString -> PyStr.all_digits ds = true ->
      PyStr.starts_with_digit rest = false ->
      (Z.of_nat (String.length ds) <= 4300 ->
       parse_quality_to_bps quality_str = Ok (Some (PyStr.decimal_value ds * 1000)))
      /\ (4300 < Z.of_nat (String.length ds) ->
          parse_quality_to_bps quality_str = Ok None))
  /\ (PyStr.starts_with_digit quality_str = false ->
      parse_quality_to_bps quality_str = Ok None)
  /\ (exists r, parse_quality_to_bps quality_str = Ok r).
Proof.
  split; [|split].
  - intros ds rest Hlow Hne Hds Hrest. split; intros Hlen.
    + now apply parse_leading_digits with (rest := rest).
    + now apply parse_too_long with (ds := ds) (rest := rest).
  - apply parse_no_digit.
  - apply parse_total.
Qed.

Lemma parse_quality_to_bps_spec_witness :
  parse_quality_to_bps "192Kbps" = Ok (Some 192000)
  /\ parse_quality_to_bps "192x" = Ok (Some 192000)
  /\ parse_quality_to_bps "320" = Ok (Some 320000)
  /\ parse_quality_to_bps Cases.long_quality = Ok None
  /\ parse_quality_to_bps "high" = Ok None
  /\ parse_quality_to_bps "" = Ok None.
Proof.
  split; [|split; [|split; [|split; [|split]]]].
  - apply (proj1 (parse_quality_to_bps_spec "192Kbps") "192" "kbps"
             eq_refl ltac:(discriminate) eq_refl eq_refl).
    simpl. lia.
  - apply (proj1 (parse_quality_to_bps_spec "192x") "192" "x"
             eq_refl ltac:(discriminate) eq_refl eq_refl).
    simpl. lia.
  - apply (proj1 (parse_quality_to_bps_spec "320") "320" ""
             eq_refl ltac:(discriminate) eq_refl eq_refl).
    simpl. lia.
  - apply (proj1 (parse_quality_to_bps_spec Cases.long_quality)
             (Cases.repeat_char "1" 4301) "k").
    + vm_compute. reflexivity.
    + discriminate.
    + vm_compute. reflexivity.
    + reflexivity.
    + vm_compute. reflexivity.
  - exact (proj1 (proj2 (parse_quality_to_bps_spec "high")) eq_refl).
  - exact (proj1 (proj2 (parse_quality_to_bps_spec "")) eq_refl).
Defined.

(** C10 as stated fails past the limit of [int()]: a quality of 4301 digits
    followed by [k] starts with a run of decimal digits, and the parser
    returns [None], not the value of the run times 1000. *)
Lemma parse_quality_to_bps_counterexample :
  PyStr.lower Cases.long_quality = Cases.repeat_char "1" 4301 +++ "k"
  /\ PyStr.all_digits (Cases.repeat_char "1" 4301) = true
  /\ String.length (Cases.repeat_char "1" 4301) = 4301%nat
  /\ parse_quality_to_bps Cases.long_quality = Ok None
  /\ parse_quality_to_bps Cases.long_quality
     <> Ok (Some (PyStr.decimal_value (Cases.repeat_char "1" 4301) * 1000)).
Proof.
  assert (H : parse_quality_to_bps Cases.long_quality = Ok None)
    by (vm_compute; reflexivity).
  split; [vm_compute; reflexivity|].
  split; [vm_compute; reflexivity|].
  split; [vm_compute; reflexivity|].
  split; [exact H|]. rewrite H. discriminate.
Qed.

(* ================================================================= *)
(** ** The quality resolver *)

Lemma adaptive_quality_unfold w video_path target_quality audio_format p t tr tr' :
  get_video_audio_bitrate w video_path tr = (Ok (Some p), tr') ->
  parse_quality_to_bps target_quality = Ok (Some t) ->
  get_adaptive_quality w video_path target_quality audio_format tr
  = (Ok (if t >? p then
           if String.eqb audio_format "mp3" then lossy_bucket p
           else if String.eqb audio_format "aac" then lossy_bucket p
           else PyStr.str_of_int (p / 1000) +++ "k"
         else target_quality), tr').
Proof.
  intros Hprobe Hparse. unfold get_adaptive_quality, ebind, elift, eret.
  rewrite Hprobe, Hparse.
  destruct (t >? p); [|reflexivity].
  destruct (String.eqb audio_format "mp3"); [reflexivity|].
  destruct (String.eqb audio_format "aac"); reflexivity.
Qed.




(** C3. When the target's bits per second do not exceed the probed bitrate,
    the resolver returns the target string as it was given. *)
Theorem adaptive_quality_no_upscale
    (w : World) (video_path target_quality audio_format : string)
    (p t : Z) (tr tr' : trace) :
  get_video_audio_bitrate w video_path tr = (Ok (Some p), tr') ->
  parse_quality_to_bps target_quality = Ok (Some t) ->
  t <= p ->
  get_adaptive_quality w video_path target_quality audio_format tr
  = (Ok target_quality, tr').
Proof.
  intros Hprobe Hparse Hle.
  rewrite (adaptive_quality_unfold _ _ _ audio_format _ _ _ _ Hprobe Hparse).
  assert ((t >? p) = false) as -> by (rewrite Z.gtb_ltb; apply Z.ltb_ge; lia).
  reflexivity.
Qed.

Lemma adaptive_quality_no_upscale_witness :
  get_adaptive_quality Samples.world "in/v320000.mp4" "192Kbps" "mp3" []
  = (Ok "192Kbps", [ffprobe_cmd "in/v320000.mp4"]).
Proof.
  apply (adaptive_quality_no_upscale Samples.world "in/v320000.mp4" "192Kbps" "mp3"
           320000 192000 [] [ffprobe_cmd "in/v320000.mp4"] eq_refl eq_refl).
  discriminate.
Defined.

Lemma bucket_values :
  parse_quality_to_bps "64k" = Ok (Some 64000)
  /\ parse_quality_to_bps "96k" = Ok (Some 96000)
  /\ parse_quality_to_bps "128k" = Ok (Some 128000)
  /\ parse_quality_to_bps "192k" = Ok (Some 192000)
  /\ parse_quality_to_bps "256k" = Ok (Some 256000).
Proof. repeat split. Qed.





(* ================================================================= *)
(** ** The metadata prober *)

(** The prober returns a value on every input and spawns one process. *)
Lemma probe_value w video_path tr :
  get_video_audio_bitrate w video_path tr
  = (Ok match subprocess_run w (ffprobe_cmd video_path) with
        | Ok res => match bitrate_of_probe w res with
                    | Ok r => r
                    | Raise _ => None
                    end
        | Raise _ => None
        end,
     tr ++ [ffprobe_cmd video_path]).
Proof.
  unfold get_video_audio_bitrate, ecatch, ebind, run_subprocess, elift, eret.
  destruct (subprocess_run w (ffprobe_cmd video_path)) as [res|e]; [|reflexivity].
  destruct (bitrate_of_probe w res); reflexivity.
Qed.

Lemma has_tag_dict stream key :
  tags_well_formed stream ->
  has_tag key (JDict stream)
  = Ok match tag_of stream key with Some _ => true | None => false end.
Proof.
  unfold has_tag, tag_of, py_contains, py_getitem, Dict.mem.
  intros [Hnone | [tags Hsome]].
  - rewrite Hnone. reflexivity.
  - rewrite Hsome. reflexivity.
Qed.

Lemma int_of_tag_dict stream key v :
  tag_of stream key = Some v -> int_of_tag key (JDict stream) = py_int v.
Proof.
  unfold tag_of, int_of_tag, py_getitem.
  destruct (Dict.get "tags" stream) as [[| | | | |tags]|]; try discriminate.
  intros H. cbn [rbind]. now rewrite H.
Qed.

(** The value the prober keeps of one stream, the exceptions of [int()]
    turned into [None] by the enclosing [try]. *)
Lemma stream_bitrate_dict stream :
  tags_well_formed stream ->
  match stream_bitrate (JDict stream) with Ok r => r | Raise _ => None end
  = match Dict.get "bit_rate" stream with
    | Some v => int_or_none v
    | None =>
        match tag_of stream "BPS" with
        | Some v => int_or_none v
        | None =>
            match tag_of stream "bit_rate" with
            | Some v => int_or_none v
            | None =>
                match Dict.get "sample_rate" stream, Dict.get "channels" stream with
                | Some s, Some c =>
                    match int_or_none s, int_or_none c with
                    | Some a, Some b => Some (a * b * 16)
                    | _, _ => None
                    end
                | _, _ => None
                end
            end
        end
    end.
Proof.
  intros Hwf. unfold stream_bitrate.
  cbn [py_contains py_getitem rbind]. unfold Dict.mem.
  destruct (Dict.get "bit_rate" stream) as [v|] eqn:Hbr.
  { cbn [rbind]. unfold int_or_none. now destruct (py_int v). }
  cbn [rbind]. rewrite (has_tag_dict stream "BPS" Hwf). cbn [rbind].
  destruct (tag_of stream "BPS") as [v|] eqn:Hbps.
  { rewrite (int_of_tag_dict _ _ _ Hbps). unfold int_or_none. now destruct (py_int v). }
  rewrite (has_tag_dict stream "bit_rate" Hwf). cbn [rbind].
  destruct (tag_of stream "bit_rate") as [v|] eqn:Htbr.
  { rewrite (int_of_tag_dict _ _ _ Htbr). unfold int_or_none. now destruct (py_int v). }
  destruct (Dict.get "sample_rate" stream) as [sr|]; cbn [rbind]; [|reflexivity].
  destruct (Dict.get "channels" stream) as [ch|]; cbn [rbind]; [|reflexivity].
  unfold int_or_none.
  destruct (py_int sr); cbn [rbind]; [|reflexivity].
  destruct (py_int ch); reflexivity.
Qed.

Lemma probe_first_stream w res data stream rest :
  returncode res = 0 ->
  json_loads w (stdout res) = Ok (JDict data) ->
  Dict.get "streams" data = Some (JList (JDict stream :: rest)) ->
  bitrate_of_probe w res = stream_bitrate (JDict stream).
Proof.
  intros Hrc Hjson Hstreams. unfold bitrate_of_probe.
  rewrite Hrc, Hjson. cbn [Z.eqb rbind py_contains py_getitem]. unfold Dict.mem.
  rewrite Hstreams. cbn [rbind py_len List.length].
  destruct (Z.of_nat (S (List.length rest)) >? 0) eqn:Hlen.
  - reflexivity.
  - rewrite Z.gtb_ltb in Hlen. apply Z.ltb_ge in Hlen. lia.
Qed.

(** C8. When the inspection tool succeeds and describes a first audio
    stream, the bitrate returned is, in this order of precedence: the integer
    of the stream's [bit_rate] field if the field is present; otherwise the
    integer of the tag [BPS], then of the tag [bit_rate]; otherwise, with
    both [sample_rate] and [channels] present, [sample_rate * channels * 16];
    otherwise nothing.  A chosen field that is not an integer gives nothing. *)
Theorem probe_precedence
    (w : World) (video_path : string) (tr : trace)
    (res : CompletedProcess) (data stream : Dict.t json) (rest : list json) :
  subprocess_run w (ffprobe_cmd video_path) = Ok res ->
  returncode res = 0 ->
  json_loads w (stdout res) = Ok (JDict data) ->
  Dict.get "streams" data = Some (JList (JDict stream :: rest)) ->
  tags_well_formed stream ->
  exists r,
    get_video_audio_bitrate w video_path tr = (Ok r, tr ++ [ffprobe_cmd video_path])
    /\ (forall v, Dict.get "bit_rate" stream = Some v -> r = int_or_none v)
    /\ (Dict.get "bit_rate" stream = None ->
        forall v, tag_of stream "BPS" = Some v -> r = int_or_none v)
    /\ (Dict.get "bit_rate" stream = None -> tag_of stream "BPS" = None ->
        forall v, tag_of stream "bit_rate" = Some v -> r = int_or_none v)
    /\ (Dict.get "bit_rate" stream = None -> tag_of stream "BPS" = None ->
        tag_of stream "bit_rate" = None ->
        (forall s c,
            Dict.get "sample_rate" stream = Some s ->
            Dict.get "channels" stream = Some c ->
            r = match int_or_none s, int_or_none c with
                | Some a, Some b => Some (a * b * 16)
                | _, _ => None
                end)
        /\ (Dict.get "sample_rate" stream = None \/ Dict.get "channels" stream = None ->
            r = None)).
Proof.
  intros Hrun Hrc Hjson Hstreams Hwf.
  eexists. split.
  - rewrite probe_value, Hrun, (probe_first_stream w res data stream rest Hrc Hjson Hstreams).
    rewrite (stream_bitrate_dict stream Hwf). reflexivity.
  - split; [|split; [|split]].
    + intros v ->. reflexivity.
    + intros -> v ->. reflexivity.
    + intros -> -> v ->. reflexivity.
    + intros -> -> ->. split.
      * intros s c -> ->. reflexivity.
      * intros [-> | ->]; [reflexivity|].
        now destruct (Dict.get "sample_rate" stream).
Qed.

Lemma probe_precedence_witness :
  fst (get_video_audio_bitrate Samples.world "in/v66000.mp4" []) = Ok (Some 66000)
  /\ fst (get_video_audio_bitrate Samples.world "in/tagged.mkv" []) = Ok (Some 125000)
  /\ fst (get_video_audio_bitrate Samples.world "in/pcm.avi" []) = Ok (Some 1411200)
  /\ fst (get_video_audio_bitrate Samples.world "in/bare.webm" []) = Ok None.
Proof.
  split; [|split; [|split]].
  - destruct (probe_precedence Samples.world "in/v66000.mp4" [] _ _ _ _
                eq_refl eq_refl eq_refl eq_refl (or_introl eq_refl))
      as (r & Hr & Hdirect & _).
    rewrite Hr. cbn [fst]. now rewrite (Hdirect (JStr "66000") eq_refl).
  - destruct (probe_precedence Samples.world "in/tagged.mkv" [] _ _ _ _
                eq_refl eq_refl eq_refl eq_refl (or_intror (ex_intro _ _ eq_refl)))
      as (r & Hr & _ & Htag & _).
    rewrite Hr. cbn [fst]. now rewrite (Htag eq_refl (JStr "125000") eq_refl).
  - destruct (probe_precedence Samples.world "in/pcm.avi" [] _ _ _ _
                eq_refl eq_refl eq_refl eq_refl (or_intror (ex_intro _ _ eq_refl)))
      as (r & Hr & _ & _ & _ & Hest).
    rewrite Hr. cbn [fst].
    now rewrite (proj1 (Hest eq_refl eq_refl eq_refl) (JStr "44100") (JInt 2) eq_refl eq_refl).
  - destruct (probe_precedence Samples.world "in/bare.webm" [] _ _ _ _
                eq_refl eq_refl eq_refl eq_refl (or_introl eq_refl))
      as (r & Hr & _ & _ & _ & Hest).
    rewrite Hr. cbn [fst].
    now rewrite (proj2 (Hest eq_refl eq_refl eq_refl) (or_introl eq_refl)).
Defined.

(* ================================================================= *)
(** ** Loading the ledger *)

(** C9. Loading returns the parsed document when the file exists, reads and
    parses; it returns the empty mapping when the file is missing, when it
    exists and cannot be opened or read as text, and when its content does
    not parse; it returns a value (never raises) in every case. *)
Theorem load_extraction_record_spec (w : World) (record_file : string) :
  (forall f content j,
      fs w record_file = Some f -> read_text f = Ok content ->
      json_loads w content = Ok j ->
      load_extraction_record w record_file = Ok j)
  /\ (fs w record_file = None ->
      load_extraction_record w record_file = Ok (JDict []))
  /\ (forall f e,
      fs w record_file = Some f -> read_text f = Raise e ->
      load_extraction_record w record_file = Ok (JDict []))
  /\ (forall f content e,
      fs w record_file = Some f -> read_text f = Ok content ->
      json_loads w content = Raise e ->
      load_extraction_record w record_file = Ok (JDict []))
  /\ (exists j, load_extraction_record w record_file = Ok j).
Proof.
  unfold load_extraction_record. split; [|split; [|split; [|split]]].
  - intros f content j -> Hread Hjson. cbn [rbind]. rewrite Hread. cbn [rbind].
    now rewrite Hjson.
  - now intros ->.
  - intros f e -> Hread. now rewrite Hread.
  - intros f content e -> Hread Hjson. rewrite Hread. cbn [rbind].
    now rewrite Hjson.
  - destruct (fs w record_file) as [f|]; [|now eexists].
    destruct (read_text f) as [content|e]; cbn [rbind catch]; [|now eexists].
    destruct (json_loads w content); now eexists.
Qed.

Lemma load_extraction_record_spec_witness :
  load_extraction_record Samples.world "extraction_record_mp3.json"
  = Ok Samples.ledger_doc
  /\ load_extraction_record Samples.world "extraction_record_flac.json" = Ok (JDict [])
  /\ load_extraction_record Cases.world_undecodable "extraction_record_mp3.json"
     = Ok (JDict [])
  /\ load_extraction_record Samples.world "extraction_record_aac.json" = Ok (JDict []).
Proof.
  split; [|split; [|split]].
  - exact (proj1 (load_extraction_record_spec Samples.world "extraction_record_mp3.json")
             _ "ledger text" Samples.ledger_doc eq_refl eq_refl eq_refl).
  - exact (proj1 (proj2 (load_extraction_record_spec Samples.world
                           "extraction_record_flac.json")) eq_refl).
  - exact (proj1 (proj2 (proj2 (load_extraction_record_spec Cases.world_undecodable
                                  "extraction_record_mp3.json")))
             _ (Exn "UnicodeDecodeError" "unexpected end of data") eq_refl eq_refl).
  - exact (proj1 (proj2 (proj2 (proj2 (load_extraction_record_spec Samples.world
                                         "extraction_record_aac.json"))))
             _ "{'c.m" (Exn "JSONDecodeError" "Expecting value") eq_refl eq_refl eq_refl).
Defined.

(* ================================================================= *)
(** ** The conversion executor *)

Lemma adaptive_quality_total w video_path target_quality audio_format tr :
  exists q,
    get_adaptive_quality w video_path target_quality audio_format tr
    = (Ok q, tr ++ [ffprobe_cmd video_path]).
Proof.
  unfold get_adaptive_quality, ebind, elift, eret. rewrite probe_value.
  destruct (match subprocess_run w (ffprobe_cmd video_path) with
            | Ok res => _ | Raise _ => None end) as [p|]; [|now eexists].
  destruct (parse_total target_quality) as [[t|] ->]; [|now eexists].
  destruct (t >? p); [|now eexists].
  destruct (String.eqb audio_format "mp3"); [now eexists|].
  destruct (String.eqb audio_format "aac"); now eexists.
Qed.

Lemma encode_command_unsupported audio_format output_dir video_name video_path quality :
  ~ In audio_format supported_formats ->
  encode_command audio_format output_dir video_name video_path quality = None.
Proof.
  intros Hnot. unfold encode_command.
  assert (forall f, In f supported_formats -> String.eqb audio_format f = false) as Hne.
  { intros f Hf. apply String.eqb_neq. intros ->. contradiction. }
  rewrite !Hne by (simpl; auto 6). reflexivity.
Qed.




(* ================================================================= *)
(** ** The concurrency bound *)

(** C5, as the code has it.  Sequential mode sets the bound to 1.  Otherwise
    a positive requested parallelism is the bound as it is, whatever the
    number of pending items and of processing units; without one the bound
    is the minimum of the processing units and the pending items.  A run
    computes the bound once, from its arguments, the processing units and
    its pending list. *)
Theorem max_workers_spec (w : World) (args : Args) (video_files : list string) (rs : Resume) :
  video_files <> [] ->
  resume w args video_files = Ok rs ->
  let n_pending := Z.of_nat (List.length (run_pending (main w args video_files))) in
  let bound := run_max_workers (main w args video_files) in
  run_pending (main w args video_files) = rs_pending rs
  /\ (a_sequential args = true -> bound = 1)
  /\ (a_sequential args = false -> a_jobs args > 0 -> bound = a_jobs args)
  /\ (a_sequential args = false -> a_jobs args <= 0 ->
      bound = Z.min (cpu_count w) n_pending).
Proof.
  intros Hne Hres.
  assert (Hrun : run_pending (main w args video_files) = rs_pending rs
                 /\ run_max_workers (main w args video_files)
                    = max_workers_of args (cpu_count w)
                        (Z.of_nat (List.length (rs_pending rs)))).
  { unfold main. destruct video_files as [|v vs]; [congruence|].
    rewrite Hres. cbn zeta. destruct (rs_pending rs) as [|x xs]; [now split|].
    destruct (_ =? 1); [destruct (sequential_loop _ _ _ _ _) as [st [e|]]|
                        destruct (_ <=? 0)]; now split. }
  destruct Hrun as [Hpend Hbound]. cbn zeta. rewrite Hbound, Hpend.
  unfold max_workers_of. split; [reflexivity|]. split; [|split].
  - now intros ->.
  - intros -> Hj. now assert ((a_jobs args >? 0) = true) as ->
        by (rewrite Z.gtb_ltb; apply Z.ltb_lt; lia).
  - intros -> Hj. now assert ((a_jobs args >? 0) = false) as ->
        by (rewrite Z.gtb_ltb; apply Z.ltb_ge; lia).
Qed.

Lemma max_workers_spec_witness :
  run_max_workers (main Samples.world Samples.args_mp3 Samples.videos) = 2
  /\ run_max_workers (main Samples.world Samples.args_jobs8 Samples.videos) = 8.
Proof.
  assert (Hne : Samples.videos <> []) by discriminate.
  split.
  - destruct (max_workers_spec Samples.world Samples.args_mp3 Samples.videos
                Samples.resumed Hne eq_refl) as (Hp & _ & _ & Hauto).
    rewrite (Hauto eq_refl ltac:(discriminate)), Hp. reflexivity.
  - destruct (max_workers_spec Samples.world Samples.args_jobs8 Samples.videos
                Samples.resumed Hne eq_refl) as (_ & _ & Hjobs & _).
    exact (Hjobs eq_refl eq_refl).
Defined.

(** C5 as stated fails: with a requested parallelism of 8, 2 pending items
    and 4 processing units the bound is 8, not min(8, 2, 4) = 2. *)
Lemma max_workers_counterexample :
  a_sequential Samples.args_jobs8 = false
  /\ a_jobs Samples.args_jobs8 = 8
  /\ cpu_count Samples.world = 4
  /\ List.length (run_pending (main Samples.world Samples.args_jobs8 Samples.videos)) = 2%nat
  /\ run_max_workers (main Samples.world Samples.args_jobs8 Samples.videos) = 8
  /\ 8 <> Z.min 8 (Z.min 2 4).
Proof. repeat (split; [reflexivity|]). discriminate. Qed.

(* ================================================================= *)
(** ** Dictionaries *)

Lemma get_set_same {V} k (v : V) d : Dict.get k (Dict.set k v d) = Some v.
Proof.
  induction d as [|[k' v'] d IH]; simpl.
  - now rewrite String.eqb_refl.
  - destruct (String.eqb k k') eqn:E; simpl.
    + now rewrite String.eqb_refl.
    + now rewrite E.
Qed.

Lemma get_set_other {V} k k' (v : V) d :
  k <> k' -> Dict.get k' (Dict.set k v d) = Dict.get k' d.
Proof.
  intros Hne. induction d as [|[k0 v0] d IH]; simpl.
  - apply String.eqb_neq in Hne. rewrite String.eqb_sym in Hne. now rewrite Hne.
  - destruct (String.eqb k k0) eqn:E; simpl.
    + apply String.eqb_eq in E. subst k0.
      apply String.eqb_neq in Hne. rewrite String.eqb_sym in Hne. now rewrite Hne.
    + destruct (String.eqb k' k0); [reflexivity | exact IH].
Qed.

(* ================================================================= *)
(** ** Auto-detection and the merged ledger *)

Section Scan.

Variable w : World.
Variables output_dir audio_format : string.

Local Abbreviation scan := (fold_left (check_one w output_dir audio_format)).
Local Abbreviation found := (detected_entry w output_dir audio_format).

Lemma check_one_eq d v :
  check_one w output_dir audio_format d v
  = match found v with
    | Some e => Dict.set (PyPath.basename v) e d
    | None => d
    end.
Proof.
  unfold check_one, detected_entry.
  destruct (candidate_audio_file output_dir audio_format v) as [af|]; [|reflexivity].
  destruct (fs w af) as [f|]; [|reflexivity].
  now destruct (st_size f >? 0).
Qed.

(** The record written for an input depends on its name only. *)
Lemma found_basename v v' :
  PyPath.basename v = PyPath.basename v' -> found v = found v'.
Proof.
  intros H. unfold detected_entry, candidate_audio_file, PyPath.stem.
  now rewrite H.
Qed.

Lemma scan_keeps l : forall d k e,
  Dict.get k d = Some e ->
  (forall v e', In v l -> PyPath.basename v = k -> found v = Some e' -> e' = e) ->
  Dict.get k (scan l d) = Some e.
Proof.
  induction l as [|a l IH]; intros d k e Hget Hsame; [exact Hget|].
  cbn [fold_left]. apply IH.
  - rewrite check_one_eq. destruct (found a) as [ea|] eqn:Ha; [|exact Hget].
    destruct (string_dec (PyPath.basename a) k) as [Heq | Hne].
    + subst k. rewrite get_set_same. f_equal.
      apply (Hsame a ea); [now left | reflexivity | exact Ha].
    + now rewrite get_set_other.
  - intros v e' Hin. apply Hsame. now right.
Qed.

Lemma scan_finds l : forall d v e,
  In v l -> found v = Some e -> Dict.get (PyPath.basename v) (scan l d) = Some e.
Proof.
  induction l as [|a l IH]; intros d v e Hin Hv; [contradiction|].
  destruct Hin as [-> | Hin].
  - cbn [fold_left]. apply scan_keeps.
    + rewrite check_one_eq, Hv. apply get_set_same.
    + intros v' e' _ Hb Hv'. rewrite (found_basename v' v Hb) in Hv'. congruence.
  - cbn [fold_left]. now apply IH.
Qed.

Lemma scan_entries l : forall d k e,
  Dict.get k (scan l d) = Some e ->
  Dict.get k d = Some e \/ exists v, In v l /\ found v = Some e.
Proof.
  induction l as [|a l IH]; intros d k e Hget; [now left|].
  cbn [fold_left] in Hget. apply IH in Hget as [Hget | (v & Hin & Hv)].
  - rewrite check_one_eq in Hget. destruct (found a) as [ea|] eqn:Ha; [|now left].
    destruct (string_dec (PyPath.basename a) k) as [Heq | Hne].
    + subst k. rewrite get_set_same in Hget. injection Hget as <-.
      right. exists a. split; [now left | exact Ha].
    + rewrite get_set_other in Hget by assumption. now left.
  - right. exists v. split; [now right | exact Hv].
Qed.

Lemma found_is_auto_entry v e :
  found v = Some e ->
  exists audio_file timestamp, e = auto_entry audio_file audio_format timestamp.
Proof.
  unfold detected_entry.
  destruct (candidate_audio_file _ _ v) as [af|]; [|discriminate].
  destruct (fs w af) as [f|]; [|discriminate].
  destruct (st_size f >? 0); [|discriminate].
  intros H. injection H as <-. now eexists _, _.
Qed.

End Scan.

Lemma candidate_supported output_dir audio_format video_file :
  In audio_format supported_formats ->
  candidate_audio_file output_dir audio_format video_file
  = Some (PyPath.join output_dir (PyPath.stem video_file +++ "." +++ audio_format)).
Proof.
  unfold supported_formats. simpl.
  intros [<- | [<- | [<- | [<- | []]]]]; reflexivity.
Qed.

(** Merging into a ledger that is an object never raises; a key of the
    ledger keeps its record, a new key takes the detected one. *)
Lemma merge_dicts items : forall d,
  exists m,
    merge_auto_detected items (JDict d) (JDict d) = Ok (JDict m, JDict m)
    /\ forall k, Dict.get k m
                 = match Dict.get k d with
                   | Some e => Some e
                   | None => Dict.get k items
                   end.
Proof.
  induction items as [|[filename info] rest IH]; intros d.
  - exists d. split; [reflexivity|]. intros k. now destruct (Dict.get k d).
  - cbn [merge_auto_detected py_contains rbind]. unfold Dict.mem.
    destruct (Dict.get filename d) as [e0|] eqn:Hf.
    + destruct (IH d) as (m & Hm & Hget). exists m. split; [exact Hm|].
      intros k. rewrite Hget. destruct (Dict.get k d) eqn:Hk; [reflexivity|].
      cbn [Dict.get]. destruct (String.eqb k filename) eqn:E; [|reflexivity].
      apply String.eqb_eq in E. congruence.
    + cbn [py_setitem rbind].
      destruct (IH (Dict.set filename info d)) as (m & Hm & Hget).
      exists m. split; [exact Hm|].
      intros k. rewrite Hget. cbn [Dict.get].
      destruct (String.eqb k filename) eqn:E.
      * apply String.eqb_eq in E. subst k. now rewrite get_set_same, Hf.
      * apply String.eqb_neq in E.
        rewrite get_set_other by congruence. reflexivity.
Qed.

Lemma is_completed_wf m video_name :
  ledger_well_formed m ->
  is_completed (JDict m) video_name = Ok (completed_in m video_name).
Proof.
  intros Hwf. unfold is_completed, completed_in, py_contains, py_getitem, Dict.mem.
  destruct (Dict.get video_name m) as [e|] eqn:He; cbn [rbind]; [|reflexivity].
  destruct (Hwf _ _ He) as (fields & st & -> & Hst).
  now rewrite Hst.
Qed.

Lemma partition_wf m video_files :
  ledger_well_formed m ->
  partition_files (JDict m) video_files
  = Ok (filter (fun v => completed_in m (PyPath.basename v)) video_files,
        filter (fun v => negb (completed_in m (PyPath.basename v))) video_files).
Proof.
  intros Hwf. induction video_files as [|v vs IH]; [reflexivity|].
  cbn [partition_files filter]. rewrite is_completed_wf by assumption.
  cbn [rbind]. rewrite IH. cbn [rbind].
  now destruct (completed_in m (PyPath.basename v)).
Qed.

(* ================================================================= *)
(** ** What a run keeps of the resume block *)

Lemma make_tasks_paths args record_file pending : forall first_id,
  map t_video_path (make_tasks args record_file pending first_id) = pending.
Proof.
  induction pending as [|v vs IH]; intros i; [reflexivity|].
  cbn [make_tasks map t_video_path]. now rewrite IH.
Qed.

Lemma handle_future_submitted w args record_file st task :
  submitted (handle_future w args record_file st task) = submitted st.
Proof.
  unfold handle_future, record_completion.
  destruct (future_result w task) as [[[|] data]|e]; try reflexivity.
  destruct record_file; [|reflexivity].
  destruct (py_setitem _ _ _); reflexivity.
Qed.

Lemma fold_handle_submitted w args record_file l : forall st,
  submitted (fold_left (handle_future w args record_file) l st) = submitted st.
Proof.
  induction l as [|t l IH]; intros st; [reflexivity|].
  cbn [fold_left]. now rewrite IH, handle_future_submitted.
Qed.

(** The sequential loop stops at its first statement. *)
Lemma sequential_loop_raises w args record_file v rest st :
  exists e, sequential_loop w args record_file (v :: rest) st = (st, Some e).
Proof. eexists. reflexivity. Qed.

Lemma main_after_resume w args video_files rs :
  video_files <> [] ->
  resume w args video_files = Ok rs ->
  let run := main w args video_files in
  run_record run = rs_record rs
  /\ run_completed run = rs_completed rs
  /\ run_pending run = rs_pending rs
  /\ (forall v, In v (submitted (run_sched run)) -> In v (rs_pending rs)).
Proof.
  intros Hne Hres. unfold main. destruct video_files as [|v0 vs]; [congruence|].
  rewrite Hres. cbn zeta.
  destruct (rs_pending rs) as [|x xs] eqn:Hp.
  { repeat split; try assumption. intros v []. }
  destruct (_ =? 1).
  { repeat split. intros v []. }
  destruct (_ <=? 0).
  { repeat split. intros v []. }
  repeat split. intros v. cbn [run_sched]. unfold parallel_dispatch.
  rewrite fold_handle_submitted. cbn [note_submitted submitted initial_sched app].
  now rewrite make_tasks_paths.
Qed.

Lemma merged_well_formed w video_files output_dir audio_format d m :
  ledger_well_formed d ->
  (forall k, Dict.get k m
             = match Dict.get k d with
               | Some e => Some e
               | None => Dict.get k (check_existing_audio_files w video_files
                                       output_dir audio_format)
               end) ->
  ledger_well_formed m.
Proof.
  intros Hwf Hget k e Hk. rewrite Hget in Hk.
  destruct (Dict.get k d) as [e'|] eqn:Hd.
  - injection Hk as <-. exact (Hwf _ _ Hd).
  - apply scan_entries in Hk as [Hk | (v & _ & Hv)]; [discriminate|].
    apply found_is_auto_entry in Hv as (af & ts & ->).
    now eexists _, _.
Qed.

Lemma resume_well_formed w args video_files d m :
  a_no_resume args = false ->
  load_extraction_record w (record_file_name (a_format args)) = Ok (JDict d) ->
  merge_auto_detected
    (check_existing_audio_files w video_files (a_output args) (a_format args))
    (JDict d) (JDict d) = Ok (JDict m, JDict m) ->
  ledger_well_formed m ->
  resume w args video_files
  = Ok {| rs_record_file := Some (record_file_name (a_format args));
          rs_record := JDict m; rs_current_record := JDict m;
          rs_completed :=
            filter (fun v => completed_in m (PyPath.basename v)) video_files;
          rs_pending :=
            filter (fun v => negb (completed_in m (PyPath.basename v))) video_files |}.
Proof.
  intros Hres Hload Hmerge Hwf. unfold resume.
  rewrite Hres, Hload. cbn [rbind py_copy]. rewrite Hmerge. cbn [rbind fst snd].
  now rewrite partition_wf.
Qed.

(** C1. In a run with resume enabled whose ledger file loads as an object
    [d]: for an input [v] whose name is not a key of [d] and whose output
    file [<stem>.<format>] exists non-empty in the output directory, for
    one of the four formats, the merged ledger holds under that name a
    record with status completed and detected auto; every key of [d] keeps
    the record it had; and, the records of [d] being well formed, the run
    lists [v] as completed, not as pending, and submits no conversion
    for it. *)
Theorem auto_detection
    (w : World) (args : Args) (video_files : list string)
    (d : Dict.t json) (v : string) (f : File) :
  a_no_resume args = false ->
  load_extraction_record w (record_file_name (a_format args)) = Ok (JDict d) ->
  In (a_format args) supported_formats ->
  In v video_files ->
  Dict.get (PyPath.basename v) d = None ->
  fs w (PyPath.join (a_output args) (PyPath.stem v +++ "." +++ a_format args)) = Some f ->
  st_size f > 0 ->
  exists m info,
    merge_auto_detected
      (check_existing_audio_files w video_files (a_output args) (a_format args))
      (JDict d) (JDict d) = Ok (JDict m, JDict m)
    /\ Dict.get (PyPath.basename v) m = Some (JDict info)
    /\ Dict.get "status" info = Some (JStr "completed")
    /\ Dict.get "detected" info = Some (JStr "auto")
    /\ (forall k e, Dict.get k d = Some e -> Dict.get k m = Some e)
    /\ (ledger_well_formed d ->
        let run := main w args video_files in
        run_record run = JDict m
        /\ In v (run_completed run)
        /\ ~ In v (run_pending run)
        /\ ~ In v (submitted (run_sched run))).
Proof.
  intros Hres Hload Hfmt Hin Hnew Hfile Hsize.
  destruct (merge_dicts
              (check_existing_audio_files w video_files (a_output args) (a_format args)) d)
    as (m & Hmerge & Hget).
  set (audio_file := PyPath.join (a_output args) (PyPath.stem v +++ "." +++ a_format args))
    in *.
  assert (Hfound : detected_entry w (a_output args) (a_format args) v
                   = Some (auto_entry audio_file (a_format args) (st_mtime_str f))).
  { unfold detected_entry. rewrite candidate_supported by assumption.
    fold audio_file. rewrite Hfile.
    now assert ((st_size f >? 0) = true) as ->
        by (rewrite Z.gtb_ltb; apply Z.ltb_lt; lia). }
  assert (Hentry : Dict.get (PyPath.basename v) m
                   = Some (auto_entry audio_file (a_format args) (st_mtime_str f))).
  { rewrite Hget, Hnew. unfold check_existing_audio_files.
    now apply scan_finds. }
  eexists m, _. split; [exact Hmerge|]. split; [exact Hentry|].
  split; [reflexivity|]. split; [reflexivity|]. split.
  - intros k e Hk. now rewrite Hget, Hk.
  - intros Hwf.
    assert (Hwfm : ledger_well_formed m) by (eapply merged_well_formed; eauto).
    assert (Hne : video_files <> []) by (intros ->; contradiction).
    pose proof (resume_well_formed w args video_files d m Hres Hload Hmerge Hwfm) as Hrs.
    destruct (main_after_resume w args video_files _ Hne Hrs) as (Hrec & Hcomp & Hpend & Hsub).
    cbn [rs_record rs_completed rs_pending] in *.
    assert (Hdone : completed_in m (PyPath.basename v) = true).
    { unfold completed_in. rewrite Hentry. reflexivity. }
    cbn zeta. rewrite Hrec, Hcomp, Hpend.
    assert (Hnp : ~ In v (filter (fun v0 => negb (completed_in m (PyPath.basename v0)))
                            video_files)).
    { intros Hp. apply filter_In in Hp as [_ Hp]. now rewrite Hdone in Hp. }
    split; [reflexivity|]. split; [|split].
    + apply filter_In. split; assumption.
    + exact Hnp.
    + intros Hs. apply Hnp. now apply Hsub.
Qed.

Lemma sample_ledger_well_formed :
  ledger_well_formed
    [("c.mp4", completion_entry "out/c.mp3" "mp3" "192k" "1699999999.0")].
Proof.
  intros k e. cbn [Dict.get]. destruct (String.eqb k "c.mp4"); [|discriminate].
  intros H. injection H as <-. now eexists _, _.
Qed.

Lemma auto_detection_witness :
  In "in/a.mp4" (run_completed (main Samples.world Samples.args_mp3 Samples.videos))
  /\ ~ In "in/a.mp4" (run_pending (main Samples.world Samples.args_mp3 Samples.videos))
  /\ ~ In "in/a.mp4"
       (submitted (run_sched (main Samples.world Samples.args_mp3 Samples.videos))).
Proof.
  destruct (auto_detection Samples.world Samples.args_mp3 Samples.videos
              [("c.mp4", completion_entry "out/c.mp3" "mp3" "192k" "1699999999.0")]
              "in/a.mp4"
              {| st_size := 4096; st_mtime_str := "1700000000.5";
                 read_text := Raise (Exn "UnicodeDecodeError" "invalid start byte") |}
              eq_refl eq_refl (or_introl eq_refl) (or_introl eq_refl)
              eq_refl eq_refl eq_refl)
    as (m & info & _ & _ & _ & _ & _ & Hrun).
  destruct (Hrun sample_ledger_well_formed) as (_ & Hc & Hp & Hs).
  split; [exact Hc | split; [exact Hp | exact Hs]].
Defined.

(* ================================================================= *)
(** ** Handling the results of the jobs *)

Lemma same_entry_refl k j : same_entry k j j.
Proof. now split. Qed.

Lemma same_entry_trans k j1 j2 j3 :
  same_entry k j1 j2 -> same_entry k j2 j3 -> same_entry k j1 j3.
Proof. intros [A B] [C D]. split; congruence. Qed.

Lemma same_entry_completed k j1 j2 :
  same_entry k j1 j2 -> is_completed j1 k = is_completed j2 k.
Proof. intros [A B]. unfold is_completed. now rewrite A, B. Qed.

Lemma setitem_other_key k key entry j j' :
  py_setitem key entry j = Ok j' -> key <> k -> same_entry k j' j.
Proof.
  destruct j as [| | | | |d]; try discriminate. cbn [py_setitem].
  intros H Hne. injection H as <-.
  unfold same_entry, py_contains, py_getitem, Dict.mem.
  now rewrite get_set_other.
Qed.

Section Handling.

Variables (w : World) (args : Args) (record_file : option string).

Local Abbreviation handle := (handle_future w args record_file).
Local Abbreviation entry_of := (fun t : Task => (t_video_path t, report_of w t)).

Lemma handle_future_handled st t :
  handled (handle st t) = handled st ++ [entry_of t].
Proof.
  unfold handle_future, report_of, record_completion.
  destruct (future_result w t) as [[[|] data]|e]; try reflexivity.
  destruct record_file; [|reflexivity].
  destruct (py_setitem _ _ _); reflexivity.
Qed.

Lemma handle_future_count st t :
  success_count (handle st t)
  = success_count st + (if is_succeeded (report_of w t) then 1 else 0).
Proof.
  unfold handle_future, report_of, record_completion.
  destruct (future_result w t) as [[[|] data]|e]; cbn [is_succeeded];
    try (cbn; lia).
  destruct record_file; [|reflexivity].
  destruct (py_setitem _ _ _); reflexivity.
Qed.

(** A job that did not succeed leaves the ledger and its file as they were. *)
Lemma handle_future_not_succeeded st t :
  report_of w t <> Succeeded ->
  current_record (handle st t) = current_record st
  /\ saves (handle st t) = saves st
  /\ success_count (handle st t) = success_count st.
Proof.
  unfold handle_future, report_of.
  destruct (future_result w t) as [[[|] data]|e]; intros H;
    [congruence | now repeat split | now repeat split].
Qed.

Lemma handle_future_ledger st t k :
  (report_of w t = Succeeded -> PyPath.basename (t_video_path t) <> k) ->
  same_entry k (current_record (handle st t)) (current_record st)
  /\ (forall s, In s (saves (handle st t)) ->
                In s (saves st) \/ s = current_record (handle st t)).
Proof.
  unfold handle_future, report_of, record_completion, save_extraction_record.
  destruct (future_result w t) as [[[|] data]|e]; intros Hk;
    try (split; [apply same_entry_refl | now left]).
  destruct record_file; [|split; [apply same_entry_refl | now left]].
  cbn [count_success note_handled current_record].
  destruct (py_setitem _ _ (current_record st)) as [cr|e] eqn:Hset; cbn [rbind].
  - cbn [current_record saves]. split.
    + eapply setitem_other_key; [exact Hset | now apply Hk].
    + intros s0 Hs. apply in_app_or in Hs as [Hs | [<- | []]]; [now left | now right].
  - cbn [current_record saves]. split; [apply same_entry_refl | now left].
Qed.

Lemma fold_handled l : forall st,
  handled (fold_left handle l st) = handled st ++ map entry_of l.
Proof.
  induction l as [|t l IH]; intros st; cbn [fold_left map].
  - now rewrite app_nil_r.
  - rewrite IH, handle_future_handled, <- app_assoc. reflexivity.
Qed.

Lemma fold_count l : forall st,
  success_count (fold_left handle l st)
  = success_count st
    + Z.of_nat (List.length (filter (fun e => is_succeeded (snd e)) (map entry_of l))).
Proof.
  induction l as [|t l IH]; intros st; cbn [fold_left map filter snd].
  - cbn. lia.
  - rewrite IH, handle_future_count.
    destruct (is_succeeded (report_of w t)); cbn [List.length]; lia.
Qed.

Lemma fold_ledger k l : forall st,
  (forall t, In t l -> report_of w t = Succeeded ->
             PyPath.basename (t_video_path t) <> k) ->
  same_entry k (current_record (fold_left handle l st)) (current_record st)
  /\ (forall s, In s (saves (fold_left handle l st)) ->
                In s (saves st) \/ same_entry k s (current_record st)).
Proof.
  induction l as [|t l IH]; intros st Hk; cbn [fold_left].
  - split; [apply same_entry_refl | now left].
  - destruct (handle_future_ledger st t k) as [Hstep Hsaves].
    { apply Hk. now left. }
    destruct (IH (handle st t)) as [Hrest Hrs].
    { intros t' Hin. apply Hk. now right. }
    split.
    + eapply same_entry_trans; eassumption.
    + intros s0 Hs. apply Hrs in Hs as [Hs | Hs].
      * apply Hsaves in Hs as [Hs | ->]; [now left | now right].
      * right. eapply same_entry_trans; eassumption.
Qed.

End Handling.

(* ================================================================= *)
(** ** The resume block *)

Lemma merge_same items : forall r r' c',
  merge_auto_detected items r r = Ok (r', c') -> r' = c'.
Proof.
  induction items as [|[filename info] rest IH]; intros r r' c'; cbn [merge_auto_detected].
  - intros H. now injection H as <- <-.
  - destruct (py_contains filename r) as [[|]|e]; cbn [rbind]; [apply IH | | discriminate].
    destruct (py_setitem filename info r) as [r1|e]; cbn [rbind]; [apply IH | discriminate].
Qed.

Lemma partition_pending record video_files : forall completed pending,
  partition_files record video_files = Ok (completed, pending) ->
  (forall x, In x pending ->
             In x video_files /\ is_completed record (PyPath.basename x) = Ok false)
  /\ (forall g : string -> string,
         NoDup (map g video_files) -> NoDup (map g pending)).
Proof.
  induction video_files as [|v vs IH]; intros completed pending; cbn [partition_files].
  - intros H. injection H as <- <-. split; [intros x [] | auto].
  - destruct (is_completed record (PyPath.basename v)) as [done|e] eqn:Hd;
      cbn [rbind]; [|discriminate].
    destruct (partition_files record vs) as [[c p]|e]; cbn [rbind]; [|discriminate].
    destruct (IH c p eq_refl) as (Hin & Hnd).
    destruct done; intros H; injection H as <- <-.
    + split.
      * intros x Hx. destruct (Hin x Hx). split; [now right | assumption].
      * intros g Hg. cbn [map] in Hg. apply NoDup_cons_iff in Hg as [_ Hg]. auto.
    + split.
      * intros x [<- | Hx]; [split; [now left | assumption]|].
        destruct (Hin x Hx). split; [now right | assumption].
      * intros g Hg. cbn [map] in *. apply NoDup_cons_iff in Hg as [Hv Hg].
        apply NoDup_cons; [|auto].
        intros Hgv. apply Hv. apply in_map_iff in Hgv as (x & Hgx & Hx).
        apply in_map_iff. exists x. split; [assumption | now apply Hin].
Qed.

(** What a successful resume block guarantees. *)
Lemma resume_spec w args video_files rs :
  resume w args video_files = Ok rs ->
  rs_current_record rs = rs_record rs
  /\ (forall x, In x (rs_pending rs) ->
                In x video_files
                /\ is_completed (rs_record rs) (PyPath.basename x) = Ok false)
  /\ (forall g : string -> string,
         NoDup (map g video_files) -> NoDup (map g (rs_pending rs))).
Proof.
  unfold resume. destruct (a_no_resume args).
  - intros H. injection H as <-. cbn. repeat split; auto.
  - destruct (load_extraction_record w _) as [record|e]; cbn [rbind]; [|discriminate].
    destruct (py_copy record) as [cur|e] eqn:Hcopy; cbn [rbind]; [|discriminate].
    assert (cur = record) as ->.
    { destruct record; cbn in Hcopy; congruence. }
    destruct (merge_auto_detected _ record record) as [[r' c']|e] eqn:Hm;
      cbn [rbind fst snd]; [|discriminate].
    apply merge_same in Hm as <-.
    destruct (partition_files r' video_files) as [[c p]|e] eqn:Hp;
      cbn [rbind fst snd]; [|discriminate].
    intros H. injection H as <-. cbn [rs_current_record rs_record rs_pending].
    split; [reflexivity|]. exact (partition_pending r' video_files c p Hp).
Qed.

(** A run whose bound is 1 and that has pending files leaves [main] by the
    exception of the loop's first statement: no job is submitted and the
    ledger is as the resume block left it. *)
Lemma sequential_run_raises w args video_files rs :
  video_files <> [] ->
  resume w args video_files = Ok rs ->
  rs_pending rs <> [] ->
  max_workers_of args (cpu_count w) (Z.of_nat (List.length (rs_pending rs))) = 1 ->
  exists e,
    run_exit (main w args video_files) = Crashed e
    /\ run_sched (main w args video_files) = initial_sched (rs_current_record rs).
Proof.
  intros Hne Hres Hpend Hone. unfold main.
  destruct video_files as [|v0 vs]; [congruence|]. rewrite Hres. cbn zeta.
  rewrite Hone. destruct (rs_pending rs) as [|x xs]; [congruence|].
  cbn [Z.eqb Pos.eqb].
  destruct (sequential_loop_raises w args (rs_record_file rs) x xs
              (initial_sched (rs_current_record rs))) as [e ->].
  now exists e.
Qed.

(* ================================================================= *)
(** ** Failed jobs *)

(** A run that handled a result went through the process pool and ended
    with its tally. *)
Lemma main_dispatched w args video_files :
  handled (run_sched (main w args video_files)) <> [] ->
  exists rs,
    resume w args video_files = Ok rs
    /\ run_record (main w args video_files) = rs_record rs
    /\ run_completed (main w args video_files) = rs_completed rs
    /\ run_pending (main w args video_files) = rs_pending rs
    /\ run_sched (main w args video_files)
       = parallel_dispatch w args (rs_record_file rs) (rs_pending rs)
           (initial_sched (rs_current_record rs))
    /\ run_exit (main w args video_files)
       = Finished (success_count (run_sched (main w args video_files)))
           (Z.of_nat (List.length (rs_pending rs)))
           (Z.of_nat (List.length (rs_completed rs))
            + success_count (run_sched (main w args video_files))).
Proof.
  unfold main. destruct video_files as [|v0 vs]; [now intros []|].
  destruct (resume w args (v0 :: vs)) as [rs|e]; [|now intros []].
  cbn zeta. intros H. exists rs. split; [reflexivity|]. revert H.
  destruct (rs_pending rs) as [|x xs]; [now intros []|].
  destruct (_ =? 1).
  { destruct (sequential_loop_raises w args (rs_record_file rs) x xs
                (initial_sched (rs_current_record rs))) as [e ->].
    now intros []. }
  destruct (_ <=? 0); [now intros []|].
  intros _. repeat split.
Qed.

Lemma NoDup_map_inj {A B} (g : A -> B) (l : list A) x y :
  NoDup (map g l) -> In x l -> In y l -> g x = g y -> x = y.
Proof.
  induction l as [|a l IH]; cbn [map]; intros Hnd Hx Hy Hg; [contradiction|].
  apply NoDup_cons_iff in Hnd as [Ha Hnd].
  destruct Hx as [-> | Hx], Hy as [-> | Hy]; auto.
  - exfalso. apply Ha. rewrite Hg. now apply in_map.
  - exfalso. apply Ha. rewrite <- Hg. now apply in_map.
Qed.

(** C4. In every run, for every job that reports failure: the run ends
    with its tally (it is not aborted), and the tally's count for this run
    is the number of jobs that reported success; every pending file was
    submitted and its result handled; the in-memory ledger and every
    snapshot written to the ledger file hold for the failed item what the
    ledger held before dispatch, and the item is not listed as completed.
    The input files have distinct names, and the pool hands back each
    submitted job once. *)
Theorem failed_job_keeps_ledger
    (w : World) (args : Args) (video_files : list string) (v : string) :
  NoDup (map PyPath.basename video_files) ->
  (forall tasks, Permutation (as_completed w tasks) tasks) ->
  let run := main w args video_files in
  In (v, Failed) (handled (run_sched run)) ->
  run_exit run
  = Finished (success_count (run_sched run))
      (Z.of_nat (List.length (run_pending run)))
      (Z.of_nat (List.length (run_completed run)) + success_count (run_sched run))
  /\ success_count (run_sched run)
     = Z.of_nat (List.length (filter (fun e => is_succeeded (snd e))
                                (handled (run_sched run))))
  /\ submitted (run_sched run) = run_pending run
  /\ (forall p, In p (run_pending run) -> exists r, In (p, r) (handled (run_sched run)))
  /\ same_entry (PyPath.basename v) (current_record (run_sched run)) (run_record run)
  /\ (forall s, In s (saves (run_sched run)) ->
                same_entry (PyPath.basename v) s (run_record run))
  /\ is_completed (current_record (run_sched run)) (PyPath.basename v) = Ok false.
Proof.
  intros Hnd Hperm run Hfailed. subst run.
  destruct (main_dispatched w args video_files) as (rs & Hres & Hrec & Hcomp & Hpend & Hsched & Hexit).
  { intros Hnil. rewrite Hnil in Hfailed. contradiction. }
  destruct (resume_spec w args video_files rs Hres) as (Hcur & Hpending & Hndp).
  specialize (Hndp PyPath.basename Hnd).
  rewrite Hexit, Hrec, Hcomp, Hpend. rewrite Hsched in *. clear Hsched Hexit Hrec Hcomp Hpend.
  unfold parallel_dispatch in *.
  set (rf := rs_record_file rs) in *.
  set (tasks := make_tasks args rf (rs_pending rs) 1) in *.
  set (st0 := note_submitted (initial_sched (rs_current_record rs)) (map t_video_path tasks)) in *.
  assert (Hpaths : map t_video_path tasks = rs_pending rs) by apply make_tasks_paths.
  rewrite fold_handled in *. cbn [st0 note_submitted initial_sched handled app] in *.
  (* the task of the failed job *)
  apply in_map_iff in Hfailed as (t & Ht & Hin).
  injection Ht as Hv Hrep.
  assert (Hint : In t tasks) by (eapply Permutation_in; [apply Hperm | exact Hin]).
  assert (Hvp : In v (rs_pending rs)).
  { rewrite <- Hpaths, <- Hv. now apply in_map. }
  (* no job for the same name succeeded *)
  assert (Hkey : forall t', In t' (as_completed w tasks) -> report_of w t' = Succeeded ->
                            PyPath.basename (t_video_path t') <> PyPath.basename v).
  { intros t' Hin' Hs Heq.
    assert (Hint' : In t' tasks) by (eapply Permutation_in; [apply Hperm | exact Hin']).
    assert (t' = t).
    { apply (NoDup_map_inj (fun x => PyPath.basename (t_video_path x)) tasks);
        [|assumption|assumption|now rewrite Hv].
      rewrite <- (map_map t_video_path PyPath.basename), Hpaths. exact Hndp. }
    subst t'. congruence. }
  destruct (fold_ledger w args rf (PyPath.basename v) (as_completed w tasks) st0 Hkey)
    as [Hsame Hsaves].
  cbn [st0 note_submitted initial_sched current_record saves] in Hsame, Hsaves.
  rewrite Hcur in Hsame, Hsaves.
  split; [reflexivity|]. split; [|split; [|split; [|split; [|split]]]].
  - rewrite fold_count. cbn [st0 note_submitted initial_sched success_count]. lia.
  - rewrite fold_handle_submitted. cbn [st0 note_submitted initial_sched submitted app].
    exact Hpaths.
  - intros p Hp. rewrite <- Hpaths in Hp. apply in_map_iff in Hp as (tp & <- & Htp).
    exists (report_of w tp).
    apply (in_map (fun t0 => (t_video_path t0, report_of w t0))).
    eapply Permutation_in; [apply Permutation_sym, Hperm | exact Htp].
  - exact Hsame.
  - intros s0 Hs. destruct (Hsaves s0 Hs) as [[] | H]. exact H.
  - rewrite (same_entry_completed _ _ _ Hsame). now apply Hpending.
Qed.

Lemma failed_job_keeps_ledger_witness :
  let run := main Samples.world Samples.args_mp3 Samples.videos in
  run_exit run = Finished 1 2 3
  /\ submitted (run_sched run) = ["in/b.mp4"; "in/d.mp4"]
  /\ is_completed (current_record (run_sched run)) "b.mp4" = Ok false.
Proof.
  assert (Hnd : NoDup (map PyPath.basename Samples.videos)).
  { cbv [Samples.videos map].
    repeat (apply NoDup_cons; [cbn; intuition discriminate|]). apply NoDup_nil. }
  assert (Hperm : forall tasks, Permutation (as_completed Samples.world tasks) tasks).
  { intros tasks. apply Permutation_sym, Permutation_rev. }
  assert (Hfailed : In ("in/b.mp4", Failed)
                       (handled (run_sched (main Samples.world Samples.args_mp3
                                              Samples.videos)))).
  { vm_compute. right. left. reflexivity. }
  destruct (failed_job_keeps_ledger Samples.world Samples.args_mp3 Samples.videos
              "in/b.mp4" Hnd Hperm Hfailed)
    as (Hexit & _ & Hsub & _ & _ & _ & Hpending).
  cbn zeta. split; [|split].
  - rewrite Hexit. reflexivity.
  - rewrite Hsub. reflexivity.
  - exact Hpending.
Defined.

(* ================================================================= *)
(** * Further properties *)

(** ** Failure of the probe *)

(** When the inspection tool cannot be started, exits with a non-zero
    status, prints what is no JSON, or reports no stream, the prober
    returns [None] after its one process; it does not raise. *)
Theorem probe_failure_absent (w : World) (video_path : string) (tr : trace) :
  (exists e, subprocess_run w (ffprobe_cmd video_path) = Raise e)
  \/ (exists res,
        subprocess_run w (ffprobe_cmd video_path) = Ok res
        /\ (returncode res <> 0
            \/ (exists e, json_loads w (stdout res) = Raise e)
            \/ (exists data,
                  json_loads w (stdout res) = Ok (JDict data)
                  /\ (Dict.get "streams" data = None
                      \/ Dict.get "streams" data = Some (JList []))))) ->
  get_video_audio_bitrate w video_path tr = (Ok None, tr ++ [ffprobe_cmd video_path]).
Proof.
  intros H. rewrite probe_value.
  destruct H as [[e ->] | (res & -> & H)]; [reflexivity|].
  unfold bitrate_of_probe.
  destruct (returncode res =? 0) eqn:Hrc; [|reflexivity].
  destruct H as [Hne | [[e ->] | (data & -> & [Hs | Hs])]].
  - apply Z.eqb_eq in Hrc. contradiction.
  - reflexivity.
  - cbn [rbind py_contains]. unfold Dict.mem. now rewrite Hs.
  - cbn [rbind py_contains py_getitem]. unfold Dict.mem. now rewrite Hs.
Qed.

Lemma probe_failure_absent_witness :
  get_video_audio_bitrate Cases.world_no_tool "in/a.mp4" []
  = (Ok None, [ffprobe_cmd "in/a.mp4"])
  /\ get_video_audio_bitrate Cases.world_probe_fails "in/a.mp4" []
     = (Ok None, [ffprobe_cmd "in/a.mp4"])
  /\ get_video_audio_bitrate Samples.world "in/unknown.mp4" []
     = (Ok None, [ffprobe_cmd "in/unknown.mp4"]).
Proof.
  split; [|split].
  - apply (probe_failure_absent Cases.world_no_tool "in/a.mp4" []).
    left. now eexists.
  - apply (probe_failure_absent Cases.world_probe_fails "in/a.mp4" []).
    right. eexists. split; [reflexivity|]. left. discriminate.
  - apply (probe_failure_absent Samples.world "in/unknown.mp4" []).
    right. eexists. split; [reflexivity|]. right. left. now eexists.
Defined.

(** ** Fallbacks of the resolver *)

(** When the probe gives no bitrate, or the target does not start with a
    digit, the resolver returns the target as it was given, after the one
    process of the probe. *)
Theorem adaptive_quality_fallback
    (w : World) (video_path target_quality audio_format : string) (tr : trace) :
  fst (get_video_audio_bitrate w video_path tr) = Ok None
  \/ PyStr.starts_with_digit target_quality = false ->
  get_adaptive_quality w video_path target_quality audio_format tr
  = (Ok target_quality, tr ++ [ffprobe_cmd video_path]).
Proof.
  intros H. unfold get_adaptive_quality, ebind, elift, eret.
  rewrite probe_value in *. cbn [fst] in H.
  destruct (match subprocess_run w (ffprobe_cmd video_path) with
            | Ok res => _ | Raise _ => None end) as [p|]; [|reflexivity].
  destruct H as [H | H]; [discriminate|].
  now rewrite (parse_no_digit _ H).
Qed.

Lemma adaptive_quality_fallback_witness :
  get_adaptive_quality Samples.world "in/unknown.mp4" "192k" "mp3" []
  = (Ok "192k", [ffprobe_cmd "in/unknown.mp4"])
  /\ get_adaptive_quality Samples.world "in/v66000.mp4" "best" "mp3" []
     = (Ok "best", [ffprobe_cmd "in/v66000.mp4"]).
Proof.
  split.
  - apply (adaptive_quality_fallback Samples.world "in/unknown.mp4" "192k" "mp3" []).
    left. reflexivity.
  - apply (adaptive_quality_fallback Samples.world "in/v66000.mp4" "best" "mp3" []).
    right. reflexivity.
Defined.

(** ** The buckets *)




(** ** The conversion job *)

Lemma encode_command_supported audio_format output_dir video_name video_path quality :
  In audio_format supported_formats ->
  exists cmd,
    encode_command audio_format output_dir video_name video_path quality
    = Some (PyPath.join output_dir (video_name +++ "." +++ audio_format), cmd)
    /\ last cmd EmptyString = PyPath.join output_dir (video_name +++ "." +++ audio_format)
    /\ firstn 3 cmd = ["ffmpeg"; "-i"; video_path].
Proof.
  unfold supported_formats. cbn [In].
  intros [<- | [<- | [<- | [<- | []]]]]; eexists; (split; [reflexivity|]); split; reflexivity.
Qed.

Lemma worker_outcome (w : World) (args : Task) (tr : trace) :
  In (t_audio_format args) supported_formats ->
  let video_path := t_video_path args in
  let video_name := PyPath.stem video_path in
  exists q cmd,
    (t_use_adaptive args = false -> q = t_quality args)
    /\ (t_use_adaptive args = true ->
        get_adaptive_quality w video_path (t_quality args) (t_audio_format args) tr
        = (Ok q, tr ++ [ffprobe_cmd video_path]))
    /\ encode_command (t_audio_format args) (t_output_dir args) video_name video_path q
       = Some (PyPath.join (t_output_dir args)
                 (video_name +++ "." +++ t_audio_format args), cmd)
    /\ snd (extract_audio_from_video_worker w args tr)
       = tr ++ (if t_use_adaptive args then [ffprobe_cmd video_path] else []) ++ [cmd]
    /\ fst (extract_audio_from_video_worker w args tr)
       = Ok match subprocess_run w cmd with
            | Ok res =>
                if returncode res =? 0
                then (true, Extracted video_name q (t_quality args))
                else if PyStr.is_empty (stderr res)
                     then (false, Message ("Extraction failed: " +++ video_name))
                     else (false, Message (("Extraction failed: " +++ video_name)
                                           +++ " - " +++ stderr res))
            | Raise e =>
                (false, Message ("Error processing file " +++ video_path +++ ": "
                                 +++ exn_str e))
            end.
Proof.
  intros Hfmt video_path video_name.
  assert (Hq : exists q tr',
             (if t_use_adaptive args
              then get_adaptive_quality w video_path (t_quality args) (t_audio_format args)
              else eret (t_quality args)) tr = (Ok q, tr')
             /\ tr' = tr ++ (if t_use_adaptive args then [ffprobe_cmd video_path] else [])
             /\ (t_use_adaptive args = false -> q = t_quality args)).
  { destruct (t_use_adaptive args).
    - destruct (adaptive_quality_total w video_path (t_quality args)
                  (t_audio_format args) tr) as [q Hq].
      exists q, (tr ++ [ffprobe_cmd video_path]). now repeat split.
    - exists (t_quality args), tr. unfold eret. rewrite app_nil_r. now repeat split. }
  destruct Hq as (q & tr' & Hrun & Htr' & Hfixed).
  destruct (encode_command_supported (t_audio_format args) (t_output_dir args)
              video_name video_path q Hfmt) as (cmd & Hcmd & _).
  exists q, cmd. split; [exact Hfixed|]. split.
  { intros Had. rewrite Had in Hrun, Htr'. now rewrite Hrun, Htr'. }
  split; [exact Hcmd|].
  unfold extract_audio_from_video_worker, ecatch, ebind.
  fold video_path video_name. rewrite Hrun, Hcmd.
  unfold run_subprocess, eret. rewrite Htr', <- app_assoc.
  destruct (subprocess_run w cmd) as [res|e]; [|now split].
  destruct (returncode res =? 0); [now split|].
  destruct (PyStr.is_empty (stderr res)); now split.
Qed.



Lemma worker_unsupported_fails w args tr :
  ~ In (t_audio_format args) supported_formats ->
  exists msg, fst (extract_audio_from_video_worker w args tr) = Ok (false, Message msg).
Proof.
  intros Hnot. unfold extract_audio_from_video_worker, ecatch, ebind.
  destruct (t_use_adaptive args).
  - destruct (adaptive_quality_total w (t_video_path args) (t_quality args)
                (t_audio_format args) tr) as [q ->].
    rewrite encode_command_unsupported by assumption. now eexists.
  - unfold eret at 1. rewrite encode_command_unsupported by assumption. now eexists.
Qed.

(** A job reports success only when its format is one of the four and the
    encode process it spawned exited with status 0; what it reports then is
    the stem of the input and the quality it passed to the encoder. *)
Theorem worker_success_means_exit_zero
    (w : World) (args : Task) (tr : trace) (data : worker_data) :
  fst (extract_audio_from_video_worker w args tr) = Ok (true, data) ->
  In (t_audio_format args) supported_formats
  /\ exists q cmd res,
       encode_command (t_audio_format args) (t_output_dir args)
         (PyPath.stem (t_video_path args)) (t_video_path args) q
       = Some (PyPath.join (t_output_dir args)
                 (PyPath.stem (t_video_path args) +++ "." +++ t_audio_format args), cmd)
       /\ last (snd (extract_audio_from_video_worker w args tr)) [] = cmd
       /\ subprocess_run w cmd = Ok res
       /\ returncode res = 0
       /\ data = Extracted (PyPath.stem (t_video_path args)) q (t_quality args).
Proof.
  intros Hok.
  destruct (in_dec string_dec (t_audio_format args) supported_formats) as [Hin | Hnot].
  - split; [exact Hin|].
    destruct (worker_outcome w args tr Hin) as (q & cmd & _ & _ & Hcmd & Htr & Hres).
    rewrite Hres in Hok.
    destruct (subprocess_run w cmd) as [res|e] eqn:Hrun; [|discriminate].
    destruct (returncode res =? 0) eqn:Hrc.
    + injection Hok as <-. exists q, cmd, res.
      split; [exact Hcmd|]. split; [|split; [exact Hrun | split; [now apply Z.eqb_eq | reflexivity]]].
      rewrite Htr, app_assoc. apply last_last.
    + destruct (PyStr.is_empty (stderr res)); discriminate.
  - destruct (worker_unsupported_fails w args tr Hnot) as [msg Hmsg].
    rewrite Hmsg in Hok. discriminate.
Qed.

Lemma worker_success_means_exit_zero_witness :
  exists q cmd res,
    last (snd (extract_audio_from_video_worker Samples.world
                 (Cases.task_of "in/d.mp4" "mp3" "192k" true) [])) [] = cmd
    /\ subprocess_run Samples.world cmd = Ok res
    /\ returncode res = 0
    /\ Extracted "d" "192k" "192k" = Extracted "d" q "192k".
Proof.
  destruct (worker_success_means_exit_zero Samples.world
              (Cases.task_of "in/d.mp4" "mp3" "192k" true) []
              (Extracted "d" "192k" "192k") eq_refl)
    as (_ & q & cmd & res & _ & Hlast & Hrun & Hrc & Hdata).
  exists q, cmd, res. repeat split; assumption.
Defined.



(** ** Paths *)

Lemma rsplit_sep_app sep a b :
  PyPath.rsplit sep b = None ->
  PyPath.rsplit sep (a +++ String sep b) = Some (a, b).
Proof.
  intros Hb. induction a as [|c a IH]; cbn [String.append PyPath.rsplit].
  - now rewrite Hb, Ascii.eqb_refl.
  - now rewrite IH.
Qed.

Lemma rsplit_after_none sep s : forall x y,
  PyPath.rsplit sep s = Some (x, y) -> PyPath.rsplit sep y = None.
Proof.
  induction s as [|c r IH]; intros x y; cbn [PyPath.rsplit]; [discriminate|].
  destruct (PyPath.rsplit sep r) as [[b a]|] eqn:Hr.
  - intros H. injection H as <- <-. eapply IH. reflexivity.
  - destruct (Ascii.eqb c sep); [|discriminate].
    intros H. now injection H as <- <-.
Qed.

Lemma rsplit_some_eq sep s : forall x y,
  PyPath.rsplit sep s = Some (x, y) -> s = x +++ String sep y.
Proof.
  induction s as [|c r IH]; intros x y; cbn [PyPath.rsplit]; [discriminate|].
  destruct (PyPath.rsplit sep r) as [[b a]|] eqn:Hr.
  - intros H. injection H as <- <-. cbn [String.append]. f_equal. now apply IH.
  - destruct (Ascii.eqb c sep) eqn:E; [|discriminate].
    apply Ascii.eqb_eq in E. subst c.
    intros H. now injection H as <- <-.
Qed.

Lemma rsplit_none_app_l sep a b :
  PyPath.rsplit sep (a +++ b) = None -> PyPath.rsplit sep a = None.
Proof.
  induction a as [|c a IH]; cbn [String.append PyPath.rsplit]; [reflexivity|].
  destruct (PyPath.rsplit sep (a +++ b)) as [[x y]|]; [discriminate|].
  rewrite IH by reflexivity. now destruct (Ascii.eqb c sep).
Qed.

Lemma rsplit_none_app sep a b :
  PyPath.rsplit sep a = None -> PyPath.rsplit sep b = None ->
  PyPath.rsplit sep (a +++ b) = None.
Proof.
  intros Ha Hb. induction a as [|c a IH]; cbn [String.append PyPath.rsplit] in *;
    [exact Hb|].
  destruct (PyPath.rsplit sep a) as [[x y]|]; [discriminate|].
  rewrite IH by reflexivity. now destruct (Ascii.eqb c sep).
Qed.

Lemma basename_no_sep p : PyPath.rsplit "/" (PyPath.basename p) = None.
Proof.
  unfold PyPath.basename. destruct (PyPath.rsplit "/" p) as [[x y]|] eqn:H.
  - eapply rsplit_after_none. exact H.
  - exact H.
Qed.

Lemma stem_no_sep p : PyPath.rsplit "/" (PyPath.stem p) = None.
Proof.
  unfold PyPath.stem. pose proof (basename_no_sep p) as Hb.
  destruct (PyPath.rsplit "." (PyPath.basename p)) as [[x y]|] eqn:H; [|exact Hb].
  destruct (PyStr.is_empty x || PyStr.is_empty y); [exact Hb|].
  apply rsplit_some_eq in H. rewrite H in Hb. eapply rsplit_none_app_l. exact Hb.
Qed.

Lemma append_assoc_str a b c : (a +++ b) +++ c = a +++ (b +++ c).
Proof. induction a as [|x a IH]; cbn [String.append]; [reflexivity | now rewrite IH]. Qed.

Lemma endswith_slash s :
  PyStr.endswith s "/" = true -> exists s', s = s' +++ "/".
Proof.
  induction s as [|c r IH]; cbn [PyStr.endswith].
  - cbn. discriminate.
  - intros H. apply orb_true_iff in H as [H | H].
    + apply String.eqb_eq in H. exists EmptyString. exact H.
    + destruct (IH H) as [r' ->]. now exists (String c r').
Qed.

(** A name without a slash joined to a directory is the last component of
    the result. *)
Lemma basename_join dir name :
  PyPath.rsplit "/" name = None -> PyPath.basename (PyPath.join dir name) = name.
Proof.
  intros Hn. unfold PyPath.join.
  assert (Hself : PyPath.basename name = name).
  { unfold PyPath.basename. now rewrite Hn. }
  destruct (String.prefix "/" name); [exact Hself|].
  destruct dir as [|c d]; [exact Hself|]. cbn [PyStr.is_empty orb].
  destruct (PyStr.endswith (String c d) "/") eqn:He.
  - destruct (endswith_slash _ He) as [d' ->].
    rewrite append_assoc_str. cbn [String.append].
    unfold PyPath.basename. now rewrite rsplit_sep_app.
  - change (String c d +++ "/" +++ name) with (String c d +++ String "/" name).
    unfold PyPath.basename. now rewrite rsplit_sep_app.
Qed.

(** The encoder, the scan for existing outputs and the ledger record name
    the same output file for an input, and it lies directly in the output
    directory under the name [<stem>.<format>]. *)
Theorem output_file_agreement (args : Args) (video_file quality : string) :
  In (a_format args) supported_formats ->
  exists cmd,
    encode_command (a_format args) (a_output args) (PyPath.stem video_file)
      video_file quality
    = Some (output_file_of args video_file, cmd)
    /\ last cmd EmptyString = output_file_of args video_file
    /\ candidate_audio_file (a_output args) (a_format args) video_file
       = Some (output_file_of args video_file)
    /\ PyPath.basename (output_file_of args video_file)
       = PyPath.stem video_file +++ "." +++ a_format args.
Proof.
  intros Hfmt.
  destruct (encode_command_supported (a_format args) (a_output args)
              (PyPath.stem video_file) video_file quality Hfmt) as (cmd & Hcmd & Hlast & _).
  exists cmd. split; [exact Hcmd|]. split; [exact Hlast|].
  split; [now apply candidate_supported|].
  unfold output_file_of. apply basename_join.
  apply rsplit_none_app; [apply stem_no_sep|].
  unfold supported_formats in Hfmt. cbn [In] in Hfmt.
  destruct Hfmt as [<- | [<- | [<- | [<- | []]]]]; reflexivity.
Qed.

Lemma output_file_agreement_witness :
  PyPath.basename (output_file_of Samples.args_mp3 "in/d.x.MP4") = "d.x.mp3"
  /\ candidate_audio_file "out" "mp3" "in/d.x.MP4" = Some "out/d.x.mp3".
Proof.
  destruct (output_file_agreement Samples.args_mp3 "in/d.x.MP4" "192k" (or_introl eq_refl))
    as (cmd & _ & _ & Hcand & Hbase).
  split; [exact Hbase | exact Hcand].
Defined.

(** ** The scan for existing outputs *)

Lemma candidate_some output_dir audio_format video_file audio_file :
  candidate_audio_file output_dir audio_format video_file = Some audio_file ->
  In audio_format supported_formats
  /\ audio_file
     = PyPath.join output_dir (PyPath.stem video_file +++ "." +++ audio_format).
Proof.
  unfold candidate_audio_file, supported_formats. cbn [In].
  destruct (String.eqb audio_format "mp3") eqn:E1;
    [apply String.eqb_eq in E1; subst; intros H; injection H as <-; auto|].
  destruct (String.eqb audio_format "aac") eqn:E2;
    [apply String.eqb_eq in E2; subst; intros H; injection H as <-; auto|].
  destruct (String.eqb audio_format "wav") eqn:E3;
    [apply String.eqb_eq in E3; subst; intros H; injection H as <-; auto|].
  destruct (String.eqb audio_format "flac") eqn:E4;
    [apply String.eqb_eq in E4; subst; intros H; injection H as <-; auto 6|].
  discriminate.
Qed.

Lemma detected_entry_some w output_dir audio_format video_file e :
  detected_entry w output_dir audio_format video_file = Some e ->
  In audio_format supported_formats
  /\ exists f,
       fs w (PyPath.join output_dir (PyPath.stem video_file +++ "." +++ audio_format))
       = Some f
       /\ st_size f > 0
       /\ e = auto_entry
                (PyPath.join output_dir (PyPath.stem video_file +++ "." +++ audio_format))
                audio_format (st_mtime_str f).
Proof.
  unfold detected_entry.
  destruct (candidate_audio_file output_dir audio_format video_file) as [af|] eqn:Hc;
    [|discriminate].
  apply candidate_some in Hc as [Hin ->].
  destruct (fs w _) as [f|]; [|discriminate].
  destruct (st_size f >? 0) eqn:Hs; [|discriminate].
  intros H. injection H as <-. split; [exact Hin|].
  exists f. split; [reflexivity|]. split; [|reflexivity].
  rewrite Z.gtb_ltb in Hs. apply Z.ltb_lt in Hs. lia.
Qed.

Lemma scan_entries_key w output_dir audio_format l : forall d k e,
  Dict.get k (fold_left (check_one w output_dir audio_format) l d) = Some e ->
  Dict.get k d = Some e
  \/ exists v, In v l /\ PyPath.basename v = k
               /\ detected_entry w output_dir audio_format v = Some e.
Proof.
  induction l as [|a l IH]; intros d k e Hget; [now left|].
  cbn [fold_left] in Hget. apply IH in Hget as [Hget | (v & Hin & Hk & Hv)].
  - rewrite check_one_eq in Hget.
    destruct (detected_entry w output_dir audio_format a) as [ea|] eqn:Ha; [|now left].
    destruct (string_dec (PyPath.basename a) k) as [Heq | Hne].
    + subst k. rewrite get_set_same in Hget. injection Hget as <-.
      right. exists a. split; [now left | split; [reflexivity | exact Ha]].
    + rewrite get_set_other in Hget by assumption. now left.
  - right. exists v. split; [now right | split; assumption].
Qed.

Lemma scan_sound
    (w : World) (video_files : list string) (output_dir audio_format k : string)
    (e : json) :
  Dict.get k (check_existing_audio_files w video_files output_dir audio_format) = Some e ->
  In audio_format supported_formats
  /\ exists v f,
       In v video_files /\ PyPath.basename v = k
       /\ fs w (PyPath.join output_dir (PyPath.stem v +++ "." +++ audio_format)) = Some f
       /\ st_size f > 0
       /\ e = auto_entry (PyPath.join output_dir (PyPath.stem v +++ "." +++ audio_format))
                audio_format (st_mtime_str f).
Proof.
  unfold check_existing_audio_files. intros H.
  apply scan_entries_key in H as [H | (v & Hin & Hk & Hv)]; [discriminate|].
  apply detected_entry_some in Hv as (Hfmt & f & Hf & Hs & He).
  split; [exact Hfmt|]. exists v, f. repeat split; assumption.
Qed.

(** The scan reports a record only for the name of an input whose output
    file [<output_dir>/<stem>.<format>] exists and is not empty, for one of
    the four formats; the record is the auto-detected one of that file. *)
Theorem scan_reports_existing_outputs
    (w : World) (video_files : list string) (output_dir audio_format k : string)
    (e : json) :
  Dict.get k (check_existing_audio_files w video_files output_dir audio_format) = Some e ->
  In audio_format supported_formats
  /\ exists v f,
       In v video_files /\ PyPath.basename v = k
       /\ fs w (PyPath.join output_dir (PyPath.stem v +++ "." +++ audio_format)) = Some f
       /\ st_size f > 0
       /\ e = auto_entry (PyPath.join output_dir (PyPath.stem v +++ "." +++ audio_format))
                audio_format (st_mtime_str f).
Proof. exact (scan_sound w video_files output_dir audio_format k e). Qed.

Lemma scan_reports_existing_outputs_witness :
  exists v f,
    In v Samples.videos /\ PyPath.basename v = "a.mp4"
    /\ fs Samples.world "out/a.mp3" = Some f /\ st_size f > 0.
Proof.
  destruct (scan_reports_existing_outputs Samples.world Samples.videos "out" "mp3" "a.mp4"
              (auto_entry "out/a.mp3" "mp3" "1700000000.5") eq_refl)
    as (_ & v & f & Hin & Hk & Hf & Hs & _).
  exists v, f. split; [exact Hin|]. split; [exact Hk|].
  split; [|exact Hs].
  assert (Hstem : PyPath.stem v = "a").
  { unfold PyPath.stem. rewrite Hk. reflexivity. }
  rewrite Hstem in Hf. exact Hf.
Defined.

Lemma stem_of_basename v v' :
  PyPath.basename v = PyPath.basename v' -> PyPath.stem v = PyPath.stem v'.
Proof. intros H. unfold PyPath.stem. now rewrite H. Qed.

(** An input with no ledger record whose output file is missing or empty
    is pending, not completed. *)
Theorem no_output_stays_pending
    (w : World) (args : Args) (video_files : list string) (d : Dict.t json) (v : string) :
  a_no_resume args = false ->
  load_extraction_record w (record_file_name (a_format args)) = Ok (JDict d) ->
  ledger_well_formed d ->
  In v video_files ->
  Dict.get (PyPath.basename v) d = None ->
  (forall f, fs w (output_file_of args v) = Some f -> st_size f <= 0) ->
  In v (run_pending (main w args video_files))
  /\ ~ In v (run_completed (main w args video_files)).
Proof.
  intros Hres Hload Hwf Hin Hnew Hnone.
  destruct (merge_dicts
              (check_existing_audio_files w video_files (a_output args) (a_format args)) d)
    as (m & Hmerge & Hget).
  assert (Hwfm : ledger_well_formed m) by (eapply merged_well_formed; eauto).
  assert (Hne : video_files <> []) by (intros ->; contradiction).
  pose proof (resume_well_formed w args video_files d m Hres Hload Hmerge Hwfm) as Hrs.
  destruct (main_after_resume w args video_files _ Hne Hrs) as (_ & Hcomp & Hpend & _).
  cbn [rs_completed rs_pending] in *. rewrite Hcomp, Hpend.
  assert (Hk : Dict.get (PyPath.basename v) m = None).
  { rewrite Hget, Hnew.
    destruct (Dict.get (PyPath.basename v) (check_existing_audio_files _ _ _ _))
      as [e|] eqn:He; [|reflexivity].
    apply scan_sound in He as (_ & v' & f & _ & Hb & Hf & Hs & _).
    rewrite (stem_of_basename _ _ Hb) in Hf.
    specialize (Hnone f Hf). lia. }
  assert (Hdone : completed_in m (PyPath.basename v) = false).
  { unfold completed_in. now rewrite Hk. }
  split.
  - apply filter_In. split; [exact Hin | now rewrite Hdone].
  - intros Hc. apply filter_In in Hc as [_ Hc]. congruence.
Qed.

Lemma no_output_stays_pending_witness :
  In "in/d.mp4" (run_pending (main Samples.world Samples.args_mp3 Samples.videos))
  /\ ~ In "in/d.mp4" (run_completed (main Samples.world Samples.args_mp3 Samples.videos)).
Proof.
  apply (no_output_stays_pending Samples.world Samples.args_mp3 Samples.videos
           [("c.mp4", completion_entry "out/c.mp3" "mp3" "192k" "1699999999.0")]
           "in/d.mp4" eq_refl eq_refl sample_ledger_well_formed).
  - cbn. auto.
  - reflexivity.
  - intros f Hf. discriminate Hf.
Defined.

(** ** Listing the input directory *)

Lemma append_empty_r s : s +++ EmptyString = s.
Proof. induction s as [|c r IH]; cbn [String.append]; [reflexivity | now rewrite IH]. Qed.

Lemma length_append_str a b :
  String.length (a +++ b) = (String.length a + String.length b)%nat.
Proof.
  induction a as [|c r IH]; cbn [String.append String.length Nat.add];
    [reflexivity | now rewrite IH].
Qed.

(** A file name is its stem followed by its suffix. *)
Lemma stem_suffix p : PyPath.stem p +++ path_suffix p = PyPath.basename p.
Proof.
  unfold PyPath.stem, path_suffix.
  destruct (PyPath.rsplit "." (PyPath.basename p)) as [[before after]|] eqn:H;
    [|apply append_empty_r].
  destruct (PyStr.is_empty before || PyStr.is_empty after); [apply append_empty_r|].
  symmetry. now apply rsplit_some_eq.
Qed.

Lemma suffix_gives_stem p :
  path_suffix p <> EmptyString ->
  PyPath.stem p <> EmptyString /\ PyPath.stem p <> PyPath.basename p.
Proof.
  unfold PyPath.stem, path_suffix.
  destruct (PyPath.rsplit "." (PyPath.basename p)) as [[before after]|] eqn:H;
    [|congruence].
  destruct before as [|c b]; [cbn; congruence|].
  destruct after as [|c' a]; [cbn; congruence|]. cbn [PyStr.is_empty orb].
  intros _. split; [discriminate|].
  apply rsplit_some_eq in H. rewrite H. intros Heq.
  apply (f_equal String.length) in Heq.
  rewrite length_append_str in Heq. cbn [String.length] in Heq. lia.
Qed.

Lemma collect_videos_in entries p :
  In p (collect_videos entries)
  <-> exists e, In e entries /\ entry_path e = p /\ is_video e = true.
Proof.
  induction entries as [|e es IH]; cbn [collect_videos].
  - split; [intros [] | intros (e & [] & _)].
  - destruct (is_video e) eqn:He.
    + cbn [In]. rewrite IH. split.
      * intros [<- | (e' & Hin & Hp & Hv)]; [exists e; auto | exists e'; cbn; auto].
      * intros (e' & [<- | Hin] & Hp & Hv); [now left | right; exists e'; auto].
    + rewrite IH. split.
      * intros (e' & Hin & Hp & Hv). exists e'. cbn. auto.
      * intros (e' & [<- | Hin] & Hp & Hv); [congruence | exists e'; auto].
Qed.

Lemma collect_videos_nodup (g : string -> string) entries :
  NoDup (map g (map entry_path entries)) -> NoDup (map g (collect_videos entries)).
Proof.
  induction entries as [|e es IH]; cbn [collect_videos map]; [auto|].
  intros Hnd. apply NoDup_cons_iff in Hnd as [Hnot Hnd].
  destruct (is_video e); [|auto]. cbn [map]. apply NoDup_cons; [|auto].
  intros Hin. apply Hnot. apply in_map_iff in Hin as (p & Hg & Hp).
  apply collect_videos_in in Hp as (e' & He' & <- & _).
  apply in_map_iff. exists (entry_path e'). split; [exact Hg | now apply in_map].
Qed.

(** A directory that does not exist has no video files.  Otherwise the
    files listed are exactly the regular files of the directory whose
    suffix, in lower case, is one of the eight video extensions; each has a
    non-empty stem, which with the suffix makes up its name; and entries
    with distinct names give inputs with distinct names. *)
Theorem get_video_files_spec (ls : Listing) (directory : string) :
  (ls directory = None -> get_video_files ls directory = [])
  /\ (forall entries,
        ls directory = Some entries ->
        (forall p,
            In p (get_video_files ls directory)
            <-> exists e, In e entries /\ entry_path e = p /\ entry_is_file e = true
                          /\ In (PyStr.lower (path_suffix p)) video_extensions)
        /\ (forall p,
              In p (get_video_files ls directory) ->
              PyPath.basename p = PyPath.stem p +++ path_suffix p
              /\ PyPath.stem p <> EmptyString
              /\ PyPath.stem p <> PyPath.basename p)
        /\ (NoDup (map PyPath.basename (map entry_path entries)) ->
            NoDup (map PyPath.basename (get_video_files ls directory)))).
Proof.
  unfold get_video_files. split; [now intros ->|].
  intros entries ->.
  assert (Hvideo : forall e,
             is_video e = true
             <-> entry_is_file e = true
                 /\ In (PyStr.lower (path_suffix (entry_path e))) video_extensions).
  { intros e. unfold is_video. rewrite andb_true_iff, existsb_exists.
    split; intros [Hf Hx]; (split; [exact Hf|]).
    - destruct Hx as (x & Hin & Heq). apply String.eqb_eq in Heq. now subst x.
    - eexists. split; [exact Hx | apply String.eqb_refl]. }
  split; [|split].
  - intros p. rewrite collect_videos_in. split.
    + intros (e & Hin & Hp & Hv). exists e. apply Hvideo in Hv as [Hf Hx].
      subst p. auto.
    + intros (e & Hin & Hp & Hf & Hx). exists e. subst p.
      split; [exact Hin | split; [reflexivity | now apply Hvideo]].
  - intros p Hp. apply collect_videos_in in Hp as (e & _ & <- & Hv).
    apply Hvideo in Hv as [_ Hx]. split; [symmetry; apply stem_suffix|].
    apply suffix_gives_stem. intros Hempty. rewrite Hempty in Hx.
    cbn in Hx. intuition discriminate.
  - apply collect_videos_nodup.
Qed.

Lemma get_video_files_spec_witness :
  get_video_files Cases.in_listing "missing" = []
  /\ (In "in/B.MKV" (get_video_files Cases.in_listing "in")
      /\ ~ In "in/notes.txt" (get_video_files Cases.in_listing "in")
      /\ ~ In "in/done.mp4" (get_video_files Cases.in_listing "in")
      /\ ~ In "in/.mp4" (get_video_files Cases.in_listing "in"))
  /\ PyPath.stem "in/c.tar.webm" <> EmptyString.
Proof.
  destruct (get_video_files_spec Cases.in_listing "missing") as [Hnone _].
  destruct (get_video_files_spec Cases.in_listing "in") as [_ Hsome].
  destruct (Hsome _ eq_refl) as (Hin & Hstem & _).
  split; [exact (Hnone eq_refl)|]. split.
  - split; [|split; [|split]].
    + apply Hin. exists {| entry_path := "in/B.MKV"; entry_is_file := true |}.
      cbn. intuition.
    + intros H. apply Hin in H as (e & _ & _ & _ & Hx). cbn in Hx. intuition discriminate.
    + intros H. apply Hin in H as (e & He & Hp & Hf & _).
      cbn in He. intuition (subst; discriminate).
    + intros H. apply Hin in H as (e & _ & _ & _ & Hx). cbn in Hx. intuition discriminate.
  - apply (Hstem "in/c.tar.webm"). apply Hin.
    exists {| entry_path := "in/c.tar.webm"; entry_is_file := true |}.
    cbn. intuition.
Defined.

(** ** Moving the inputs *)

(** Moving keeps the number, the order and the names of the files: every
    path returned is the path given, or, for a file of the working
    directory that was moved, its name under the target directory. *)
Theorem move_keeps_names
    (shutil_move : string -> string -> result unit) (cwd original_dir : string)
    (video_files : list string) :
  let moved := move_video_files_to_original shutil_move cwd video_files original_dir in
  map PyPath.basename moved = map PyPath.basename video_files
  /\ Forall2 (fun v r =>
                r = v
                \/ (path_dirname v = cwd
                    /\ shutil_move v (PyPath.join original_dir (PyPath.basename v)) = Ok tt
                    /\ r = PyPath.join original_dir (PyPath.basename v)))
       video_files moved.
Proof.
  cbn zeta. induction video_files as [|v vs [IHn IHf]];
    cbn [move_video_files_to_original map]; [split; constructor|].
  split.
  - f_equal; [|exact IHn].
    destruct (String.eqb (path_dirname v) cwd); [|reflexivity].
    destruct (shutil_move v _); [|reflexivity].
    apply basename_join, basename_no_sep.
  - constructor; [|exact IHf].
    destruct (String.eqb (path_dirname v) cwd) eqn:Hd; [|now left].
    destruct (shutil_move v _) as [[]|e] eqn:Hm; [|now left].
    right. apply String.eqb_eq in Hd. auto.
Qed.

Example move_video_files_example :
  move_video_files_to_original Cases.move_fails_for_b "/work"
    ["/work/a.mp4"; "/work/b.mp4"; "/data/c.mp4"; "d.mp4"] "./original"
  = ["./original/a.mp4"; "/work/b.mp4"; "/data/c.mp4"; "d.mp4"].
Proof. reflexivity. Qed.

(** ** The shape of a run *)

Lemma resume_dict w args video_files d rs :
  a_no_resume args = false ->
  load_extraction_record w (record_file_name (a_format args)) = Ok (JDict d) ->
  resume w args video_files = Ok rs ->
  exists m,
    rs_record rs = JDict m /\ rs_current_record rs = JDict m
    /\ rs_record_file rs = Some (record_file_name (a_format args))
    /\ (forall k, Dict.get k m
                  = match Dict.get k d with
                    | Some e => Some e
                    | None => Dict.get k (check_existing_audio_files w video_files
                                            (a_output args) (a_format args))
                    end).
Proof.
  intros Hres Hload. unfold resume. rewrite Hres, Hload. cbn [rbind py_copy].
  destruct (merge_dicts
              (check_existing_audio_files w video_files (a_output args) (a_format args)) d)
    as (m & -> & Hget).
  cbn [rbind fst snd].
  destruct (partition_files (JDict m) video_files) as [[c p']|e]; cbn [rbind];
    [|discriminate].
  intros H. injection H as <-. exists m. now repeat split.
Qed.

Lemma main_sched_cases w args video_files rs :
  video_files <> [] ->
  resume w args video_files = Ok rs ->
  run_record (main w args video_files) = rs_record rs
  /\ run_completed (main w args video_files) = rs_completed rs
  /\ run_pending (main w args video_files) = rs_pending rs
  /\ ((run_sched (main w args video_files) = initial_sched (rs_current_record rs)
       /\ (run_exit (main w args video_files) = AllProcessed
           \/ exists e, run_exit (main w args video_files) = Crashed e))
      \/ (run_sched (main w args video_files)
          = parallel_dispatch w args (rs_record_file rs) (rs_pending rs)
              (initial_sched (rs_current_record rs))
          /\ rs_pending rs <> []
          /\ run_exit (main w args video_files)
             = Finished (success_count (run_sched (main w args video_files)))
                 (Z.of_nat (List.length (rs_pending rs)))
                 (Z.of_nat (List.length (rs_completed rs))
                  + success_count (run_sched (main w args video_files))))).
Proof.
  intros Hne Hres. unfold main. destruct video_files as [|v0 vs]; [congruence|].
  rewrite Hres. cbn zeta.
  destruct (rs_pending rs) as [|x xs].
  { repeat split. left. split; [reflexivity | now left]. }
  destruct (_ =? 1).
  { destruct (sequential_loop_raises w args (rs_record_file rs) x xs
                (initial_sched (rs_current_record rs))) as [e ->].
    repeat split. left. split; [reflexivity | right; now exists e]. }
  destruct (_ <=? 0).
  { repeat split. left. split; [reflexivity | right; now eexists]. }
  repeat split. right. repeat split. discriminate.
Qed.

Lemma is_completed_after_set k entry d fields :
  entry = JDict fields ->
  Dict.get "status" fields = Some (JStr "completed") ->
  is_completed (JDict (Dict.set k entry d)) k = Ok true.
Proof.
  intros -> Hst. unfold is_completed, py_contains, py_getitem, Dict.mem.
  rewrite get_set_same. cbn [rbind]. now rewrite Hst.
Qed.

Section Progress.

Variables (w : World) (args : Args) (record_file : option string).

Local Abbreviation handle := (handle_future w args record_file).
Local Abbreviation entry_of := (fun t : Task => (t_video_path t, report_of w t)).
Local Abbreviation successes :=
  (fun l : list Task => filter (fun e => is_succeeded (snd e)) (map entry_of l)).

(** What handling one future does to the ledger: nothing, or one record
    set and one snapshot written. *)
Lemma handle_future_cases st t :
  (current_record (handle st t) = current_record st /\ saves (handle st t) = saves st)
  \/ (report_of w t = Succeeded /\ record_file <> None
      /\ exists q,
           py_setitem (PyPath.basename (t_video_path t))
             (completion_entry (output_file_of args (t_video_path t))
                (a_format args) q (time_str w (t_video_path t)))
             (current_record st) = Ok (current_record (handle st t))
           /\ saves (handle st t) = saves st ++ [current_record (handle st t)]
           /\ (forall data, future_result w t = Ok (true, data) ->
                            q = match data with
                                | Extracted _ q' _ => q'
                                | Message _ => a_quality args
                                end)).
Proof.
  unfold handle_future, report_of, record_completion, save_extraction_record.
  destruct (future_result w t) as [[[|] data]|e]; try (left; now split).
  destruct record_file as [rf|]; [|left; now split].
  cbn [count_success note_handled current_record].
  destruct (py_setitem _ _ (current_record st)) as [cr|e] eqn:Hset; cbn [rbind].
  - right. split; [reflexivity|]. split; [discriminate|].
    eexists. cbn [current_record saves]. split; [exact Hset|]. split; [reflexivity|].
    intros data' H. now injection H as <-.
  - left. now split.
Qed.

(** On a ledger that is an object, with a ledger file, a success sets the
    record of the job's input and writes the ledger. *)
Lemma handle_future_dict st t m :
  record_file <> None ->
  current_record st = JDict m ->
  report_of w t = Succeeded ->
  exists q,
    current_record (handle st t)
    = JDict (Dict.set (PyPath.basename (t_video_path t))
               (completion_entry (output_file_of args (t_video_path t))
                  (a_format args) q (time_str w (t_video_path t))) m)
    /\ saves (handle st t) = saves st ++ [current_record (handle st t)]
    /\ (forall data, future_result w t = Ok (true, data) ->
                     q = match data with
                         | Extracted _ q' _ => q'
                         | Message _ => a_quality args
                         end).
Proof.
  intros Hrf Hm. unfold handle_future, report_of, record_completion, save_extraction_record.
  destruct (future_result w t) as [[[|] data]|e]; try discriminate.
  destruct record_file as [rf|]; [|congruence]. intros _.
  cbn [count_success note_handled current_record]. rewrite Hm.
  cbn [py_setitem rbind current_record saves].
  eexists. split; [reflexivity|]. split; [reflexivity|].
  intros data' H. now injection H as <-.
Qed.

(** The ledger keeps what it lists as completed. *)
Lemma fold_completed k l : forall st,
  is_completed (current_record st) k = Ok true ->
  (forall s, In s (saves st) -> is_completed s k = Ok true) ->
  is_completed (current_record (fold_left handle l st)) k = Ok true
  /\ (forall s, In s (saves (fold_left handle l st)) -> is_completed s k = Ok true).
Proof.
  induction l as [|t l IH]; intros st Hcur Hsaves; cbn [fold_left]; [now split|].
  apply IH.
  - destruct (handle_future_cases st t) as [(-> & _) | (_ & _ & q & Hset & _ & _)];
      [exact Hcur|].
    destruct (string_dec (PyPath.basename (t_video_path t)) k) as [<- | Hne].
    + destruct (current_record st) as [| | | | |d]; try discriminate.
      cbn [py_setitem] in Hset. injection Hset as <-.
      now eapply is_completed_after_set.
    + rewrite (same_entry_completed _ _ _ (setitem_other_key _ _ _ _ _ Hset Hne)).
      exact Hcur.
  - destruct (handle_future_cases st t) as [(_ & ->) | (_ & _ & q & Hset & -> & _)];
      [exact Hsaves|].
    intros s0 Hs. apply in_app_or in Hs as [Hs | [<- | []]]; [now apply Hsaves|].
    destruct (string_dec (PyPath.basename (t_video_path t)) k) as [<- | Hne].
    + destruct (current_record st) as [| | | | |d]; try discriminate.
      cbn [py_setitem] in Hset. injection Hset as <-.
      now eapply is_completed_after_set.
    + rewrite (same_entry_completed _ _ _ (setitem_other_key _ _ _ _ _ Hset Hne)).
      exact Hcur.
Qed.

End Progress.

Lemma completed_in_set key entry fields m k :
  entry = JDict fields ->
  Dict.get "status" fields = Some (JStr "completed") ->
  (completed_in m k = true \/ k = key) ->
  completed_in (Dict.set key entry m) k = true.
Proof.
  intros -> Hst Hk. unfold completed_in.
  destruct (string_dec key k) as [-> | Hne].
  - rewrite get_set_same. now rewrite Hst.
  - rewrite get_set_other by assumption.
    destruct Hk as [Hk | ->]; [exact Hk | congruence].
Qed.

Lemma well_formed_set key entry fields s m :
  entry = JDict fields -> Dict.get "status" fields = Some s ->
  ledger_well_formed m -> ledger_well_formed (Dict.set key entry m).
Proof.
  intros -> Hst Hwf k e Hk.
  destruct (string_dec key k) as [-> | Hne].
  - rewrite get_set_same in Hk. injection Hk as <-.
    eexists _, _. split; [reflexivity | exact Hst].
  - rewrite get_set_other in Hk by assumption. exact (Hwf _ _ Hk).
Qed.

Lemma report_dec (r : report) : r = Succeeded \/ r <> Succeeded.
Proof. destruct r; [now left | right; discriminate | right; discriminate]. Qed.

Section Ledger.

Variables (w : World) (args : Args) (record_file : option string).

Local Abbreviation handle := (handle_future w args record_file).
Local Abbreviation entry_of := (fun t : Task => (t_video_path t, report_of w t)).
Local Abbreviation successes :=
  (fun l : list Task => filter (fun e => is_succeeded (snd e)) (map entry_of l)).

Lemma successes_cons t l :
  successes (t :: l)
  = if is_succeeded (report_of w t) then entry_of t :: successes l else successes l.
Proof. reflexivity. Qed.

Lemma not_succeeded_false t : report_of w t <> Succeeded -> is_succeeded (report_of w t) = false.
Proof. destruct (report_of w t); [congruence | reflexivity | reflexivity]. Qed.

(** One snapshot is written per success, and the last one is the ledger in
    memory. *)
Lemma fold_saves l : forall st m,
  record_file <> None ->
  current_record st = JDict m ->
  exists m',
    current_record (fold_left handle l st) = JDict m'
    /\ List.length (saves (fold_left handle l st))
       = (List.length (saves st) + List.length (successes l))%nat
    /\ (successes l <> [] ->
        last (saves (fold_left handle l st)) JNull
        = current_record (fold_left handle l st))
    /\ (successes l = [] ->
        saves (fold_left handle l st) = saves st
        /\ current_record (fold_left handle l st) = current_record st).
Proof.
  induction l as [|t l IH]; intros st m Hrf Hm; cbn [fold_left].
  - exists m. cbn. repeat split; auto; try lia. congruence.
  - rewrite successes_cons.
    destruct (report_dec (report_of w t)) as [Hs | Hs].
    + destruct (handle_future_dict w args record_file st t m Hrf Hm Hs)
        as (q & Hcur & Hsv & _).
      destruct (IH (handle st t) _ Hrf Hcur) as (m' & Hm' & Hlen & Hlast & Hnone).
      exists m'. rewrite Hs. cbn [is_succeeded].
      split; [exact Hm'|]. split; [|split; [|discriminate]].
      * rewrite Hlen, Hsv, length_app. cbn [List.length]. lia.
      * intros _. destruct (successes l) as [|x xs] eqn:Hsl.
        -- destruct (Hnone eq_refl) as [-> ->]. rewrite Hsv. apply last_last.
        -- apply Hlast. discriminate.
    + destruct (handle_future_not_succeeded w args record_file st t Hs) as (Hc & Hsv & _).
      rewrite <- Hc in Hm.
      destruct (IH (handle st t) _ Hrf Hm) as (m' & Hm' & Hlen & Hlast & Hnone).
      exists m'. rewrite (not_succeeded_false t Hs), Hsv, Hc in *.
      split; [exact Hm'|]. split; [exact Hlen|]. split; [exact Hlast|].
      exact Hnone.
Qed.

(** The ledger stays an object of well-formed records, keeps what it lists
    as completed and lists every success as completed. *)
Lemma fold_well_formed l : forall st m,
  record_file <> None ->
  current_record st = JDict m ->
  ledger_well_formed m ->
  exists m',
    current_record (fold_left handle l st) = JDict m'
    /\ ledger_well_formed m'
    /\ (forall k, completed_in m k = true -> completed_in m' k = true)
    /\ (forall t, In t l -> report_of w t = Succeeded ->
                  completed_in m' (PyPath.basename (t_video_path t)) = true).
Proof.
  induction l as [|t l IH]; intros st m Hrf Hm Hwf; cbn [fold_left].
  - exists m. split; [exact Hm|]. split; [exact Hwf|]. split; [auto | intros t []].
  - destruct (report_dec (report_of w t)) as [Hs | Hs].
    + destruct (handle_future_dict w args record_file st t m Hrf Hm Hs)
        as (q & Hcur & _ & _).
      destruct (IH (handle st t) _ Hrf Hcur) as (m' & Hm' & Hwf' & Hmono & Hsucc).
      { eapply well_formed_set; [reflexivity | reflexivity | exact Hwf]. }
      exists m'. split; [exact Hm'|]. split; [exact Hwf'|]. split.
      * intros k Hk. apply Hmono.
        eapply completed_in_set; [reflexivity | reflexivity | now left].
      * intros t' [<- | Hin] Hs'; [|now apply Hsucc].
        apply Hmono. eapply completed_in_set; [reflexivity | reflexivity | now right].
    + destruct (handle_future_not_succeeded w args record_file st t Hs) as (Hc & _ & _).
      rewrite <- Hc in Hm.
      destruct (IH (handle st t) _ Hrf Hm Hwf) as (m' & Hm' & Hwf' & Hmono & Hsucc).
      exists m'. repeat split; auto.
      intros t' [<- | Hin] Hs'; [congruence | now apply Hsucc].
Qed.

Lemma fold_no_record l : forall st,
  record_file = None ->
  current_record (fold_left handle l st) = current_record st
  /\ saves (fold_left handle l st) = saves st.
Proof.
  induction l as [|t l IH]; intros st Hrf; cbn [fold_left]; [now split|].
  destruct (IH (handle st t) Hrf) as [-> ->].
  destruct (handle_future_cases w args record_file st t) as [[-> ->] | (_ & Hn & _)];
    [now split | congruence].
Qed.

End Ledger.

(** ** The ledger during a run *)

Lemma parallel_dispatch_start w args record_file pending current :
  let st0 := note_submitted (initial_sched current)
               (map t_video_path (make_tasks args record_file pending 1)) in
  parallel_dispatch w args record_file pending (initial_sched current)
  = fold_left (handle_future w args record_file)
      (as_completed w (make_tasks args record_file pending 1)) st0
  /\ current_record st0 = current /\ saves st0 = [] /\ handled st0 = []
  /\ success_count st0 = 0.
Proof. cbn zeta. now repeat split. Qed.

(** Once the ledger lists a name as completed it keeps doing so: in the
    ledger in memory at the end of the run and in every snapshot written. *)
Theorem completed_stays_completed
    (w : World) (args : Args) (video_files : list string) (k : string) :
  is_completed (run_record (main w args video_files)) k = Ok true ->
  is_completed (current_record (run_sched (main w args video_files))) k = Ok true
  /\ (forall s, In s (saves (run_sched (main w args video_files))) ->
                is_completed s k = Ok true).
Proof.
  intros H. destruct video_files as [|v0 vs]; [discriminate H|].
  destruct (resume w args (v0 :: vs)) as [rs|e] eqn:Hres.
  2:{ unfold main in H. rewrite Hres in H. discriminate H. }
  destruct (main_sched_cases w args (v0 :: vs) rs ltac:(discriminate) Hres)
    as (Hrec & _ & _ & Hsched).
  destruct (resume_spec w args (v0 :: vs) rs Hres) as (Hcur & _ & _).
  rewrite Hrec in H.
  destruct Hsched as [[-> _] | (-> & _ & _)].
  - cbn [initial_sched current_record saves]. rewrite Hcur.
    split; [exact H | intros s []].
  - destruct (parallel_dispatch_start w args (rs_record_file rs) (rs_pending rs)
                (rs_current_record rs)) as (-> & Hc0 & Hs0 & _).
    apply fold_completed.
    + now rewrite Hc0, Hcur.
    + rewrite Hs0. intros s [].
Qed.

Lemma completed_stays_completed_witness :
  is_completed
    (current_record (run_sched (main Samples.world Samples.args_mp3 Samples.videos)))
    "a.mp4" = Ok true
  /\ is_completed
       (current_record (run_sched (main Samples.world Samples.args_mp3 Samples.videos)))
       "c.mp4" = Ok true.
Proof.
  split.
  - exact (proj1 (completed_stays_completed Samples.world Samples.args_mp3
                    Samples.videos "a.mp4" eq_refl)).
  - exact (proj1 (completed_stays_completed Samples.world Samples.args_mp3
                    Samples.videos "c.mp4" eq_refl)).
Defined.

Lemma saved_after_each_success w args video_files d :
  a_no_resume args = false ->
  load_extraction_record w (record_file_name (a_format args)) = Ok (JDict d) ->
  let st := run_sched (main w args video_files) in
  List.length (saves st)
  = List.length (filter (fun e => is_succeeded (snd e)) (handled st))
  /\ (saves st <> [] -> last (saves st) JNull = current_record st).
Proof.
  intros Hnr Hload. cbn zeta.
  destruct video_files as [|v0 vs];
    [split; [reflexivity | intros Hx; exfalso; apply Hx; reflexivity]|].
  destruct (resume w args (v0 :: vs)) as [rs|e] eqn:Hres.
  2:{ unfold main. rewrite Hres.
      split; [reflexivity | intros Hx; exfalso; apply Hx; reflexivity]. }
  destruct (main_sched_cases w args (v0 :: vs) rs ltac:(discriminate) Hres)
    as (_ & _ & _ & Hsched).
  destruct (resume_dict w args (v0 :: vs) d rs Hnr Hload Hres) as (m & _ & Hcur & Hrf & _).
  destruct Hsched as [[-> _] | (-> & _ & _)];
    [split; [reflexivity | intros Hx; exfalso; apply Hx; reflexivity]|].
  destruct (parallel_dispatch_start w args (rs_record_file rs) (rs_pending rs)
              (rs_current_record rs)) as (-> & Hc0 & Hs0 & Hh0 & _).
  destruct (fold_saves w args (rs_record_file rs)
              (as_completed w (make_tasks args (rs_record_file rs) (rs_pending rs) 1))
              _ m ltac:(rewrite Hrf; discriminate) (eq_trans Hc0 Hcur))
    as (m' & _ & Hlen & Hlast & Hnone).
  rewrite fold_handled, Hh0. cbn [app]. rewrite Hs0 in Hlen, Hnone. cbn in Hlen.
  split; [exact Hlen|].
  intros Hsaves. apply Hlast. intros Hnil. apply Hsaves. now apply Hnone.
Qed.

(** With resume enabled and a ledger that loads as an object, one snapshot
    of the ledger is written per job that reports success, and the last one
    written is the ledger in memory at the end of the run. *)
Theorem every_success_is_saved
    (w : World) (args : Args) (video_files : list string) (d : Dict.t json) :
  a_no_resume args = false ->
  load_extraction_record w (record_file_name (a_format args)) = Ok (JDict d) ->
  let st := run_sched (main w args video_files) in
  List.length (saves st)
  = List.length (filter (fun e => is_succeeded (snd e)) (handled st))
  /\ (saves st <> [] -> last (saves st) JNull = current_record st).
Proof. exact (saved_after_each_success w args video_files d). Qed.

Lemma every_success_is_saved_witness :
  List.length (saves (run_sched (main Samples.world Samples.args_mp3 Samples.videos)))
  = 1%nat
  /\ last (saves (run_sched (main Samples.world Samples.args_mp3 Samples.videos))) JNull
     = Cases.ledger_after.
Proof.
  destruct (every_success_is_saved Samples.world Samples.args_mp3 Samples.videos
              [("c.mp4", completion_entry "out/c.mp3" "mp3" "192k" "1699999999.0")]
              eq_refl eq_refl) as [Hlen Hlast].
  split.
  - rewrite Hlen. reflexivity.
  - rewrite Hlast; [reflexivity | discriminate].
Defined.

Lemma no_resume_run w args video_files :
  a_no_resume args = true ->
  video_files <> [] ->
  resume w args video_files
  = Ok {| rs_record_file := None; rs_record := JDict [];
          rs_current_record := JDict [];
          rs_completed := []; rs_pending := video_files |}
  /\ run_pending (main w args video_files) = video_files
  /\ run_completed (main w args video_files) = []
  /\ saves (run_sched (main w args video_files)) = []
  /\ current_record (run_sched (main w args video_files)) = JDict [].
Proof.
  intros Hnr Hne.
  assert (Hres : resume w args video_files
                 = Ok {| rs_record_file := None; rs_record := JDict [];
                         rs_current_record := JDict [];
                         rs_completed := []; rs_pending := video_files |}).
  { unfold resume. now rewrite Hnr. }
  split; [exact Hres|].
  destruct (main_sched_cases w args video_files _ Hne Hres) as (_ & -> & -> & Hsched).
  cbn [rs_pending rs_completed rs_record_file rs_current_record] in *.
  split; [reflexivity|]. split; [reflexivity|].
  destruct Hsched as [[-> _] | (-> & _ & _)]; [now split|].
  destruct (parallel_dispatch_start w args None video_files (JDict []))
    as (-> & Hc0 & Hs0 & _).
  destruct (fold_no_record w args None
              (as_completed w (make_tasks args None video_files 1))
              (note_submitted (initial_sched (JDict []))
                 (map t_video_path (make_tasks args None video_files 1))) eq_refl)
    as [-> ->].
  now split.
Qed.

(** With resume disabled every input is pending, whatever the ledger file
    and the output directory hold, and the run writes no snapshot and keeps
    its ledger empty. *)
Theorem no_resume_touches_no_ledger
    (w : World) (args : Args) (video_files : list string) :
  a_no_resume args = true ->
  video_files <> [] ->
  run_pending (main w args video_files) = video_files
  /\ run_completed (main w args video_files) = []
  /\ saves (run_sched (main w args video_files)) = []
  /\ current_record (run_sched (main w args video_files)) = JDict [].
Proof.
  intros Hnr Hne. exact (proj2 (no_resume_run w args video_files Hnr Hne)).
Qed.

Lemma no_resume_touches_no_ledger_witness :
  run_pending (main Samples.world Cases.args_no_resume Samples.videos) = Samples.videos
  /\ saves (run_sched (main Samples.world Cases.args_no_resume Samples.videos)) = [].
Proof.
  destruct (no_resume_touches_no_ledger Samples.world Cases.args_no_resume Samples.videos
              eq_refl ltac:(discriminate)) as (Hp & _ & Hs & _).
  split; assumption.
Defined.

(** A run whose concurrency bound is 1 and that has pending files ends by
    the [TypeError] of the first statement of the sequential loop: nothing
    is submitted, handled or written, and the ledger in memory is the
    merged one. *)
Theorem bound_one_raises
    (w : World) (args : Args) (video_files : list string) (rs : Resume) :
  video_files <> [] ->
  resume w args video_files = Ok rs ->
  rs_pending rs <> [] ->
  max_workers_of args (cpu_count w) (Z.of_nat (List.length (rs_pending rs))) = 1 ->
  run_exit (main w args video_files)
  = Crashed (Exn "TypeError" "Logger._log() got an unexpected keyword argument 'end'")
  /\ run_sched (main w args video_files) = initial_sched (rs_current_record rs).
Proof.
  intros Hne Hres Hpend Hone. unfold main.
  destruct video_files as [|v0 vs]; [congruence|]. rewrite Hres. cbn zeta.
  rewrite Hone. destruct (rs_pending rs) as [|x xs]; [congruence|].
  split; reflexivity.
Qed.

Lemma bound_one_raises_witness :
  run_exit (main Samples.world Cases.args_sequential Samples.videos)
  = Crashed (Exn "TypeError" "Logger._log() got an unexpected keyword argument 'end'")
  /\ submitted (run_sched (main Samples.world Cases.args_sequential Samples.videos)) = []
  /\ run_exit (main Samples.world Samples.args_mp3 ["in/a.mp4"; "in/b.mp4"])
     = Crashed (Exn "TypeError" "Logger._log() got an unexpected keyword argument 'end'").
Proof.
  destruct (bound_one_raises Samples.world Cases.args_sequential Samples.videos
              Samples.resumed ltac:(discriminate) eq_refl ltac:(discriminate) eq_refl)
    as [Hexit Hsched].
  split; [exact Hexit|]. split; [now rewrite Hsched|].
  refine (proj1 (bound_one_raises Samples.world Samples.args_mp3 ["in/a.mp4"; "in/b.mp4"]
                   {| rs_record_file := Some "extraction_record_mp3.json";
                      rs_record := rs_record Samples.resumed;
                      rs_current_record := rs_current_record Samples.resumed;
                      rs_completed := ["in/a.mp4"]; rs_pending := ["in/b.mp4"] |}
                   ltac:(discriminate) eq_refl ltac:(discriminate) eq_refl)).
Defined.

Lemma resume_record_file w args video_files rs :
  resume w args video_files = Ok rs ->
  rs_record_file rs
  = if a_no_resume args then None else Some (record_file_name (a_format args)).
Proof.
  unfold resume. destruct (a_no_resume args).
  - intros H. now injection H as <-.
  - destruct (load_extraction_record w _) as [r|e]; cbn [rbind]; [|discriminate].
    destruct (py_copy r) as [c|e]; cbn [rbind]; [|discriminate].
    destruct (merge_auto_detected _ r c) as [mg|e]; cbn [rbind]; [|discriminate].
    destruct (partition_files (fst mg) video_files) as [pt|e]; cbn [rbind]; [|discriminate].
    intros H. now injection H as <-.
Qed.

(** At exit after a run that passed the resume block: with resume disabled
    the handler writes nothing; with resume enabled and a ledger that is
    not empty, the last snapshot written is the ledger in memory; an empty
    ledger is not written. *)
Theorem exit_flush (w : World) (args : Args) (video_files : list string) (rs : Resume) :
  video_files <> [] ->
  resume w args video_files = Ok rs ->
  let st := run_sched (main w args video_files) in
  let final := atexit_handler (rs_record_file rs) (current_record st) (saves st) in
  (a_no_resume args = true -> final = [])
  /\ (a_no_resume args = false -> py_truthy (current_record st) = true ->
      final = saves st ++ [current_record st]
      /\ last final JNull = current_record st)
  /\ (py_truthy (current_record st) = false -> final = saves st).
Proof.
  intros Hne Hres. cbn zeta. rewrite (resume_record_file w args video_files rs Hres).
  split; [|split].
  - intros Hnr. rewrite Hnr. cbn [atexit_handler].
    now destruct (no_resume_run w args video_files Hnr Hne) as (_ & _ & _ & -> & _).
  - intros Hnr Ht. rewrite Hnr. unfold atexit_handler, save_extraction_record.
    rewrite Ht. cbn. split; [reflexivity | apply last_last].
  - intros Ht. unfold atexit_handler. destruct (a_no_resume args); [reflexivity|].
    now rewrite Ht, andb_false_r.
Qed.

Lemma exit_flush_witness :
  last (atexit_handler (rs_record_file Samples.resumed)
          (current_record (run_sched (main Samples.world Cases.args_sequential
                                        Samples.videos)))
          (saves (run_sched (main Samples.world Cases.args_sequential Samples.videos))))
       JNull
  = rs_record Samples.resumed.
Proof.
  destruct (exit_flush Samples.world Cases.args_sequential Samples.videos Samples.resumed
              ltac:(discriminate) eq_refl) as (_ & Hflush & _).
  destruct (Hflush eq_refl eq_refl) as [_ Hlast].
  rewrite Hlast. reflexivity.
Defined.

(** ** What a success leaves in the ledger *)

Lemma make_tasks_fields args record_file pending : forall first_id t,
  In t (make_tasks args record_file pending first_id) ->
  t_quality t = a_quality args /\ t_use_adaptive t = a_adaptive args
  /\ t_audio_format t = a_format args /\ t_output_dir t = a_output args.
Proof.
  induction pending as [|v vs IH]; intros i t; cbn [make_tasks]; [intros []|].
  intros [<- | Hin]; [now repeat split | now apply (IH (i + 1))].
Qed.

Lemma succeeded_data w t :
  report_of w t = Succeeded -> exists data, future_result w t = Ok (true, data).
Proof.
  unfold report_of. destruct (future_result w t) as [[[|] data]|e]; try discriminate.
  intros _. now exists data.
Qed.

(** What a job that reports success did: the quality it reports is the one
    it resolved and passed to the encoder, and the encoder exited with
    status 0. *)
Lemma future_success_quality w t data :
  future_result w t = Ok (true, data) ->
  exists q cmd res,
    data = Extracted (PyPath.stem (t_video_path t)) q (t_quality t)
    /\ (t_use_adaptive t = false -> q = t_quality t)
    /\ (t_use_adaptive t = true ->
        fst (get_adaptive_quality w (t_video_path t) (t_quality t) (t_audio_format t) [])
        = Ok q)
    /\ encode_command (t_audio_format t) (t_output_dir t)
         (PyPath.stem (t_video_path t)) (t_video_path t) q
       = Some (PyPath.join (t_output_dir t)
                 (PyPath.stem (t_video_path t) +++ "." +++ t_audio_format t), cmd)
    /\ subprocess_run w cmd = Ok res
    /\ returncode res = 0.
Proof.
  unfold future_result. destruct (pool_failure w t); [discriminate|].
  intros Hok.
  destruct (in_dec string_dec (t_audio_format t) supported_formats) as [Hin | Hnot].
  - destruct (worker_outcome w t [] Hin) as (q & cmd & Hq & Had & Hcmd & _ & Hres).
    rewrite Hres in Hok.
    destruct (subprocess_run w cmd) as [res|e] eqn:Hrun; [|discriminate].
    destruct (returncode res =? 0) eqn:Hrc.
    + injection Hok as <-. exists q, cmd, res.
      split; [reflexivity|]. split; [exact Hq|]. split.
      { intros Hon. now rewrite (Had Hon). }
      split; [exact Hcmd|]. split; [exact Hrun|]. now apply Z.eqb_eq.
    + destruct (PyStr.is_empty (stderr res)); discriminate.
  - destruct (worker_unsupported_fails w t [] Hnot) as [msg Hmsg].
    rewrite Hmsg in Hok. discriminate.
Qed.

Lemma success_recorded w args video_files d v :
  a_no_resume args = false ->
  load_extraction_record w (record_file_name (a_format args)) = Ok (JDict d) ->
  NoDup (map PyPath.basename video_files) ->
  (forall tasks, Permutation (as_completed w tasks) tasks) ->
  In (v, Succeeded) (handled (run_sched (main w args video_files))) ->
  exists q cmd res,
    py_getitem (PyPath.basename v) (current_record (run_sched (main w args video_files)))
    = Ok (completion_entry (output_file_of args v) (a_format args) q (time_str w v))
    /\ (a_adaptive args = false -> q = a_quality args)
    /\ (a_adaptive args = true ->
        fst (get_adaptive_quality w v (a_quality args) (a_format args) []) = Ok q)
    /\ encode_command (a_format args) (a_output args) (PyPath.stem v) v q
       = Some (output_file_of args v, cmd)
    /\ subprocess_run w cmd = Ok res
    /\ returncode res = 0
    /\ is_completed (current_record (run_sched (main w args video_files)))
         (PyPath.basename v) = Ok true.
Proof.
  intros Hnr Hload Hnd Hperm Hsucc.
  destruct (main_dispatched w args video_files)
    as (rs & Hres & _ & _ & _ & Hsched & _).
  { intros Hnil. rewrite Hnil in Hsucc. contradiction. }
  destruct (resume_dict w args video_files d rs Hnr Hload Hres) as (m & _ & Hcur & Hrf & _).
  destruct (resume_spec w args video_files rs Hres) as (_ & _ & Hndp).
  specialize (Hndp PyPath.basename Hnd).
  rewrite Hsched in *. clear Hsched.
  destruct (parallel_dispatch_start w args (rs_record_file rs) (rs_pending rs)
              (rs_current_record rs)) as (Hpd & Hc0 & Hs0 & Hh0 & _).
  rewrite Hpd in *. clear Hpd.
  set (rf := rs_record_file rs) in *.
  set (tasks := make_tasks args rf (rs_pending rs) 1) in *.
  set (st0 := note_submitted _ _) in *.
  assert (Hrfne : rf <> None) by (subst rf; rewrite Hrf; discriminate).
  assert (Hpaths : map t_video_path tasks = rs_pending rs) by apply make_tasks_paths.
  rewrite fold_handled, Hh0 in Hsucc. cbn [app] in Hsucc.
  apply in_map_iff in Hsucc as (t & Ht & Hin). injection Ht as Hv Hrep.
  assert (Hint : In t tasks) by (eapply Permutation_in; [apply Hperm | exact Hin]).
  assert (Hndk : NoDup (map (fun x => PyPath.basename (t_video_path x)) tasks)).
  { rewrite <- (map_map t_video_path PyPath.basename), Hpaths. exact Hndp. }
  assert (Hndl : NoDup (as_completed w tasks)).
  { eapply Permutation_NoDup; [apply Permutation_sym, Hperm|].
    eapply NoDup_map_inv. exact Hndk. }
  destruct (in_split _ _ Hin) as (l1 & l2 & Hl).
  rewrite Hl in *. rewrite fold_left_app. cbn [fold_left].
  destruct (fold_saves w args rf l1 st0 m Hrfne (eq_trans Hc0 Hcur)) as (m1 & Hm1 & _).
  destruct (handle_future_dict w args rf _ t m1 Hrfne Hm1 Hrep) as (q & Hset & _ & Hq).
  destruct (fold_ledger w args rf (PyPath.basename v) l2
              (handle_future w args rf (fold_left (handle_future w args rf) l1 st0) t))
    as [Hsame _].
  { intros t' Hin' _ Heq.
    assert (Hint' : In t' tasks).
    { eapply Permutation_in; [apply Hperm|]. rewrite Hl. apply in_or_app. right. now right. }
    assert (t' = t).
    { apply (NoDup_map_inj (fun x => PyPath.basename (t_video_path x)) tasks);
        [assumption | assumption | assumption | now rewrite Hv]. }
    subst t'. apply NoDup_remove_2 in Hndl. apply Hndl. apply in_or_app. now right. }
  destruct (succeeded_data w t Hrep) as [data Hdata].
  destruct (future_success_quality w t data Hdata)
    as (q' & cmd & res & Hdat & Hfix & Had & Hcmd & Hrun & Hrc).
  assert (Hqq : q = q') by (rewrite (Hq data Hdata), Hdat; reflexivity).
  subst q'.
  destruct (make_tasks_fields args rf (rs_pending rs) 1 t Hint)
    as (Hqual & Hadp & Hfmt & Hout).
  rewrite Hqual, Hadp in Hfix. rewrite Hqual, Hadp, Hfmt, Hv in Had.
  rewrite Hfmt, Hout, Hv in Hcmd.
  rewrite Hv in Hset. exists q, cmd, res.
  split; [|split; [exact Hfix|split; [exact Had|split; [exact Hcmd|split;
    [exact Hrun|split; [exact Hrc|]]]]]].
  - rewrite (proj2 Hsame), Hset. cbn [py_getitem]. now rewrite get_set_same.
  - rewrite (same_entry_completed _ _ _ Hsame), Hset.
    now eapply is_completed_after_set.
Qed.

(** With resume enabled and a ledger that loads as an object, a job that
    reports success leaves, in the ledger in memory at the end of the run,
    the record of its input: status completed, the output file, the format,
    the quality used and the time of recording.  The quality used is the
    quality asked for when adaptive quality is off and the quality the
    resolver returns for the input when it is on; it is the quality of the
    encode command the job ran, which exited with status 0.  The input
    files have distinct names, and the pool hands back each submitted job
    once. *)
Theorem success_is_recorded
    (w : World) (args : Args) (video_files : list string) (d : Dict.t json) (v : string) :
  a_no_resume args = false ->
  load_extraction_record w (record_file_name (a_format args)) = Ok (JDict d) ->
  NoDup (map PyPath.basename video_files) ->
  (forall tasks, Permutation (as_completed w tasks) tasks) ->
  In (v, Succeeded) (handled (run_sched (main w args video_files))) ->
  exists q cmd res,
    py_getitem (PyPath.basename v) (current_record (run_sched (main w args video_files)))
    = Ok (completion_entry (output_file_of args v) (a_format args) q (time_str w v))
    /\ (a_adaptive args = false -> q = a_quality args)
    /\ (a_adaptive args = true ->
        fst (get_adaptive_quality w v (a_quality args) (a_format args) []) = Ok q)
    /\ encode_command (a_format args) (a_output args) (PyPath.stem v) v q
       = Some (output_file_of args v, cmd)
    /\ subprocess_run w cmd = Ok res
    /\ returncode res = 0
    /\ is_completed (current_record (run_sched (main w args video_files)))
         (PyPath.basename v) = Ok true.
Proof. exact (success_recorded w args video_files d v). Qed.

Lemma success_is_recorded_witness :
  py_getitem "d.mp4"
    (current_record (run_sched (main Samples.world Samples.args_mp3 Samples.videos)))
  = Ok (completion_entry "out/d.mp3" "mp3" "192k" "1700000100.0")
  /\ py_getitem "v66000.mp4"
       (current_record (run_sched (main Samples.world Cases.args_adaptive
                                     Cases.videos_adaptive)))
     = Ok (completion_entry "out/v66000.mp3" "mp3" "64k" "1700000100.0").
Proof.
  assert (Hperm : forall tasks, Permutation (as_completed Samples.world tasks) tasks).
  { intros tasks. apply Permutation_sym, Permutation_rev. }
  split.
  - assert (Hnd : NoDup (map PyPath.basename Samples.videos)).
    { cbv [Samples.videos map].
      repeat (apply NoDup_cons; [cbn; intuition discriminate|]). apply NoDup_nil. }
    assert (Hsucc : In ("in/d.mp4", Succeeded)
                       (handled (run_sched (main Samples.world Samples.args_mp3
                                              Samples.videos)))).
    { vm_compute. left. reflexivity. }
    destruct (success_is_recorded Samples.world Samples.args_mp3 Samples.videos
                [("c.mp4", completion_entry "out/c.mp3" "mp3" "192k" "1699999999.0")]
                "in/d.mp4" eq_refl eq_refl Hnd Hperm Hsucc)
      as (q & cmd & res & Hget & Hq & _).
    rewrite (Hq eq_refl) in Hget. exact Hget.
  - assert (Hnd : NoDup (map PyPath.basename Cases.videos_adaptive)).
    { cbv [Cases.videos_adaptive map].
      repeat (apply NoDup_cons; [cbn; intuition discriminate|]). apply NoDup_nil. }
    assert (Hsucc : In ("in/v66000.mp4", Succeeded)
                       (handled (run_sched (main Samples.world Cases.args_adaptive
                                              Cases.videos_adaptive)))).
    { vm_compute. right. left. reflexivity. }
    destruct (success_is_recorded Samples.world Cases.args_adaptive Cases.videos_adaptive
                [("c.mp4", completion_entry "out/c.mp3" "mp3" "192k" "1699999999.0")]
                "in/v66000.mp4" eq_refl eq_refl Hnd Hperm Hsucc)
      as (q & cmd & res & Hget & _ & Hq & _).
    pose proof (Hq eq_refl) as Hres. vm_compute in Hres. injection Hres as <-.
    exact Hget.
Defined.

(** ** Resuming *)

Lemma completed_in_merged d m items k :
  (forall k', Dict.get k' m
              = match Dict.get k' d with
                | Some e => Some e
                | None => Dict.get k' items
                end) ->
  completed_in d k = true -> completed_in m k = true.
Proof.
  intros Hget. unfold completed_in. rewrite Hget.
  destruct (Dict.get k d); [auto | discriminate].
Qed.

Lemma resumed_run w args video_files d :
  a_no_resume args = false ->
  load_extraction_record w (record_file_name (a_format args)) = Ok (JDict d) ->
  ledger_well_formed d ->
  video_files <> [] ->
  exists m,
    ledger_well_formed m
    /\ (forall k, completed_in d k = true -> completed_in m k = true)
    /\ resume w args video_files
       = Ok {| rs_record_file := Some (record_file_name (a_format args));
               rs_record := JDict m; rs_current_record := JDict m;
               rs_completed :=
                 filter (fun v => completed_in m (PyPath.basename v)) video_files;
               rs_pending :=
                 filter (fun v => negb (completed_in m (PyPath.basename v)))
                   video_files |}.
Proof.
  intros Hnr Hload Hwf Hne.
  destruct (merge_dicts
              (check_existing_audio_files w video_files (a_output args) (a_format args)) d)
    as (m & Hmerge & Hget).
  assert (Hwfm : ledger_well_formed m) by (eapply merged_well_formed; eauto).
  exists m. split; [exact Hwfm|]. split.
  - intros k. eapply completed_in_merged. exact Hget.
  - now apply resume_well_formed with (d := d).
Qed.

Lemma completed_record_skipped w args video_files d v :
  a_no_resume args = false ->
  load_extraction_record w (record_file_name (a_format args)) = Ok (JDict d) ->
  ledger_well_formed d ->
  In v video_files ->
  completed_in d (PyPath.basename v) = true ->
  In v (run_completed (main w args video_files))
  /\ ~ In v (run_pending (main w args video_files))
  /\ ~ In v (submitted (run_sched (main w args video_files))).
Proof.
  intros Hnr Hload Hwf Hin Hdone.
  assert (Hne : video_files <> []) by (intros ->; contradiction).
  destruct (resumed_run w args video_files d Hnr Hload Hwf Hne) as (m & _ & Hmono & Hrs).
  destruct (main_after_resume w args video_files _ Hne Hrs) as (_ & Hcomp & Hpend & Hsub).
  cbn [rs_completed rs_pending] in *. rewrite Hcomp, Hpend.
  assert (Hnp : ~ In v (filter (fun v0 => negb (completed_in m (PyPath.basename v0)))
                          video_files)).
  { intros Hp. apply filter_In in Hp as [_ Hp]. now rewrite (Hmono _ Hdone) in Hp. }
  split; [|split].
  - apply filter_In. split; [exact Hin | now apply Hmono].
  - exact Hnp.
  - intros Hs. apply Hnp. now apply Hsub.
Qed.

(** With resume enabled, an input whose name the ledger file lists with
    status completed is listed as completed by the run, is not pending, and
    no conversion is submitted for it, whether or not its output file still
    exists. *)
Theorem ledger_completed_is_skipped
    (w : World) (args : Args) (video_files : list string) (d : Dict.t json) (v : string) :
  a_no_resume args = false ->
  load_extraction_record w (record_file_name (a_format args)) = Ok (JDict d) ->
  ledger_well_formed d ->
  In v video_files ->
  completed_in d (PyPath.basename v) = true ->
  In v (run_completed (main w args video_files))
  /\ ~ In v (run_pending (main w args video_files))
  /\ ~ In v (submitted (run_sched (main w args video_files))).
Proof. exact (completed_record_skipped w args video_files d v). Qed.

Lemma ledger_completed_is_skipped_witness :
  fs Samples.world "out/c.mp3" = None
  /\ In "in/c.mp4" (run_completed (main Samples.world Samples.args_mp3 Samples.videos))
  /\ ~ In "in/c.mp4"
       (submitted (run_sched (main Samples.world Samples.args_mp3 Samples.videos))).
Proof.
  destruct (ledger_completed_is_skipped Samples.world Samples.args_mp3 Samples.videos
              [("c.mp4", completion_entry "out/c.mp3" "mp3" "192k" "1699999999.0")]
              "in/c.mp4" eq_refl eq_refl sample_ledger_well_formed
              ltac:(cbn; auto) eq_refl) as (Hc & _ & Hs).
  split; [reflexivity | split; assumption].
Defined.

Lemma main_all_processed w args video_files rs :
  video_files <> [] ->
  resume w args video_files = Ok rs ->
  rs_pending rs = [] ->
  run_exit (main w args video_files) = AllProcessed
  /\ run_sched (main w args video_files) = initial_sched (rs_current_record rs).
Proof.
  intros Hne Hres Hp. unfold main. destruct video_files as [|v0 vs]; [congruence|].
  rewrite Hres. cbn zeta. rewrite Hp. now split.
Qed.

Lemma filter_none {A} (g : A -> bool) (l : list A) :
  (forall x, In x l -> g x = false) -> filter g l = [].
Proof.
  induction l as [|a l IH]; intros H; cbn [filter]; [reflexivity|].
  rewrite (H a (or_introl eq_refl)). apply IH. intros x Hx. apply H. now right.
Qed.

(** The ledger a run leaves in memory: an object of well-formed records
    that lists as completed what the merged ledger listed and every job
    that reported success. *)
Lemma run_final_ledger w args video_files d :
  a_no_resume args = false ->
  load_extraction_record w (record_file_name (a_format args)) = Ok (JDict d) ->
  ledger_well_formed d ->
  video_files <> [] ->
  exists m m',
    current_record (run_sched (main w args video_files)) = JDict m'
    /\ ledger_well_formed m'
    /\ run_completed (main w args video_files)
       = filter (fun v => completed_in m (PyPath.basename v)) video_files
    /\ run_pending (main w args video_files)
       = filter (fun v => negb (completed_in m (PyPath.basename v))) video_files
    /\ (forall k, completed_in m k = true -> completed_in m' k = true)
    /\ (forall v, In (v, Succeeded) (handled (run_sched (main w args video_files))) ->
                  completed_in m' (PyPath.basename v) = true).
Proof.
  intros Hnr Hload Hwf Hne.
  destruct (resumed_run w args video_files d Hnr Hload Hwf Hne) as (m & Hwfm & _ & Hrs).
  destruct (main_sched_cases w args video_files _ Hne Hrs) as (_ & -> & -> & Hsched).
  cbn [rs_completed rs_pending rs_record_file rs_current_record] in *.
  exists m. destruct Hsched as [[-> _] | (-> & _ & _)].
  - exists m. cbn [initial_sched current_record handled].
    split; [reflexivity|]. split; [exact Hwfm|]. split; [reflexivity|].
    split; [reflexivity|]. split; [auto | intros v []].
  - destruct (parallel_dispatch_start w args (Some (record_file_name (a_format args)))
                (filter (fun v => negb (completed_in m (PyPath.basename v))) video_files)
                (JDict m)) as (-> & Hc0 & _ & Hh0 & _).
    destruct (fold_well_formed w args (Some (record_file_name (a_format args)))
                (as_completed w
                   (make_tasks args (Some (record_file_name (a_format args)))
                      (filter (fun v => negb (completed_in m (PyPath.basename v)))
                         video_files) 1))
                _ m ltac:(discriminate) Hc0 Hwfm) as (m' & Hm' & Hwf' & Hmono & Hsucc).
    exists m'. split; [exact Hm'|]. split; [exact Hwf'|].
    split; [reflexivity|]. split; [reflexivity|]. split; [exact Hmono|].
    intros v Hv. rewrite fold_handled, Hh0 in Hv. cbn [app] in Hv.
    apply in_map_iff in Hv as (t & Ht & Hin). injection Ht as <- Hrep.
    now apply Hsucc.
Qed.

(** A second run that finds in the ledger file the ledger the first run
    left in memory skips every input the first run listed as completed or
    converted with success; when all the pending jobs of the first run
    succeeded, the second run ends at once, with nothing submitted and
    nothing written. *)
Theorem second_run_skips_done
    (w w' : World) (args : Args) (video_files : list string) (d : Dict.t json) :
  a_no_resume args = false ->
  load_extraction_record w (record_file_name (a_format args)) = Ok (JDict d) ->
  ledger_well_formed d ->
  video_files <> [] ->
  load_extraction_record w' (record_file_name (a_format args))
  = Ok (current_record (run_sched (main w args video_files))) ->
  (forall v,
      In v video_files ->
      In v (run_completed (main w args video_files))
      \/ In (v, Succeeded) (handled (run_sched (main w args video_files))) ->
      In v (run_completed (main w' args video_files))
      /\ ~ In v (run_pending (main w' args video_files))
      /\ ~ In v (submitted (run_sched (main w' args video_files))))
  /\ ((forall v, In v (run_pending (main w args video_files)) ->
                 In (v, Succeeded) (handled (run_sched (main w args video_files)))) ->
      run_exit (main w' args video_files) = AllProcessed
      /\ submitted (run_sched (main w' args video_files)) = []
      /\ saves (run_sched (main w' args video_files)) = []).
Proof.
  intros Hnr Hload Hwf Hne Hload'.
  destruct (run_final_ledger w args video_files d Hnr Hload Hwf Hne)
    as (m & m' & Hm' & Hwf' & Hcomp & Hpend & Hmono & Hsucc).
  rewrite Hm' in Hload'.
  assert (Hdone : forall v,
             In v video_files ->
             In v (run_completed (main w args video_files))
             \/ In (v, Succeeded) (handled (run_sched (main w args video_files))) ->
             completed_in m' (PyPath.basename v) = true).
  { intros v Hin [Hc | Hs]; [|now apply Hsucc].
    rewrite Hcomp in Hc. apply filter_In in Hc as [_ Hc]. now apply Hmono. }
  split.
  - intros v Hin Hv.
    apply (completed_record_skipped w' args video_files m' v Hnr Hload' Hwf' Hin).
    now apply Hdone.
  - intros Hall.
    destruct (resumed_run w' args video_files m' Hnr Hload' Hwf' Hne)
      as (m2 & _ & Hmono2 & Hrs2).
    assert (Hnone : filter (fun v => negb (completed_in m2 (PyPath.basename v)))
                      video_files = []).
    { apply filter_none. intros x Hx.
      assert (Hx' : completed_in m' (PyPath.basename x) = true).
      { apply Hdone; [exact Hx|].
        destruct (completed_in m (PyPath.basename x)) eqn:Hcx.
        - left. rewrite Hcomp. apply filter_In. now split.
        - right. apply Hall. rewrite Hpend. apply filter_In. split; [exact Hx|].
          now rewrite Hcx. }
      now rewrite (Hmono2 _ Hx'). }
    rewrite Hnone in Hrs2.
    destruct (main_all_processed w' args video_files _ Hne Hrs2 eq_refl) as [-> ->].
    now repeat split.
Qed.

Lemma second_run_skips_done_witness :
  In "in/d.mp4" (run_completed (main Cases.world_second Samples.args_mp3 Samples.videos))
  /\ ~ In "in/d.mp4"
       (submitted (run_sched (main Cases.world_second Samples.args_mp3 Samples.videos)))
  /\ In "in/b.mp4" (run_pending (main Cases.world_second Samples.args_mp3 Samples.videos)).
Proof.
  destruct (second_run_skips_done Samples.world Cases.world_second Samples.args_mp3
              Samples.videos
              [("c.mp4", completion_entry "out/c.mp3" "mp3" "192k" "1699999999.0")]
              eq_refl eq_refl sample_ledger_well_formed ltac:(discriminate) eq_refl)
    as [Hskip _].
  destruct (Hskip "in/d.mp4" ltac:(cbn; auto)
              ltac:(right; vm_compute; left; reflexivity)) as (Hc & _ & Hs).
  split; [exact Hc | split; [exact Hs|]].
  vm_compute. left. reflexivity.
Defined.

(** ** The partition of the inputs *)

Lemma partition_exact record video_files : forall completed pending,
  partition_files record video_files = Ok (completed, pending) ->
  (forall v, In v video_files <-> In v completed \/ In v pending)
  /\ (forall v, In v completed -> is_completed record (PyPath.basename v) = Ok true)
  /\ (forall v, In v pending -> is_completed record (PyPath.basename v) = Ok false)
  /\ (List.length completed + List.length pending)%nat = List.length video_files.
Proof.
  induction video_files as [|x xs IH]; intros completed pending; cbn [partition_files].
  - intros H. injection H as <- <-.
    split; [intros v; cbn; tauto|]. split; [intros v []|].
    split; [intros v [] | reflexivity].
  - destruct (is_completed record (PyPath.basename x)) as [done|e] eqn:Hd;
      cbn [rbind]; [|discriminate].
    destruct (partition_files record xs) as [[c p']|e]; cbn [rbind]; [|discriminate].
    destruct (IH c p' eq_refl) as (Hin & Hc & Hp & Hlen).
    destruct done; intros H; injection H as <- <-; cbn [In List.length].
    + split; [|split; [|split]].
      * intros v. rewrite Hin. intuition.
      * intros v [<- | Hv]; [exact Hd | now apply Hc].
      * exact Hp.
      * lia.
    + split; [|split; [|split]].
      * intros v. rewrite Hin. intuition.
      * exact Hc.
      * intros v [<- | Hv]; [exact Hd | now apply Hp].
      * lia.
Qed.

(** A run that passes the resume block puts every input in exactly one of
    its two lists: an input is completed or pending, never both, and the
    lists together are as long as the input list. *)
Theorem partition_is_exact
    (w : World) (args : Args) (video_files : list string) (rs : Resume) :
  video_files <> [] ->
  resume w args video_files = Ok rs ->
  let run := main w args video_files in
  (forall v, In v video_files <-> In v (run_completed run) \/ In v (run_pending run))
  /\ (forall v, In v (run_completed run) -> ~ In v (run_pending run))
  /\ (List.length (run_completed run) + List.length (run_pending run))%nat
     = List.length video_files.
Proof.
  intros Hne Hres. cbn zeta.
  destruct (main_sched_cases w args video_files rs Hne Hres) as (_ & -> & -> & _).
  revert Hres. unfold resume. destruct (a_no_resume args).
  - intros H. injection H as <-. cbn [rs_completed rs_pending List.length].
    split; [intros v; cbn; tauto|]. split; [intros v [] | reflexivity].
  - destruct (load_extraction_record w _) as [r|e]; cbn [rbind]; [|discriminate].
    destruct (py_copy r) as [c|e]; cbn [rbind]; [|discriminate].
    destruct (merge_auto_detected _ r c) as [mg|e]; cbn [rbind]; [|discriminate].
    destruct (partition_files (fst mg) video_files) as [[cp pd]|e] eqn:Hp;
      cbn [rbind]; [|discriminate].
    intros H. injection H as <-. cbn [rs_completed rs_pending fst snd].
    destruct (partition_exact _ _ _ _ Hp) as (Hin & Hc & Hpd & Hlen).
    split; [exact Hin|]. split; [|exact Hlen].
    intros v Hv Hv'. specialize (Hc v Hv). specialize (Hpd v Hv'). congruence.
Qed.

Lemma partition_is_exact_witness :
  (List.length (run_completed (main Samples.world Samples.args_mp3 Samples.videos))
   + List.length (run_pending (main Samples.world Samples.args_mp3 Samples.videos)))%nat
  = 4%nat.
Proof.
  destruct (partition_is_exact Samples.world Samples.args_mp3 Samples.videos
              Samples.resumed ltac:(discriminate) eq_refl) as (_ & _ & Hlen).
  exact Hlen.
Defined.

(** ** A future that raises *)

(** A job whose future raises is noted and passed over: the run ends with
    its tally and the ledger in memory and its snapshots hold for the
    job's input what the ledger held before dispatch.  The input files have
    distinct names, and the pool hands back each submitted job once. *)
Theorem broken_future_is_passed_over
    (w : World) (args : Args) (video_files : list string) (v : string) :
  NoDup (map PyPath.basename video_files) ->
  (forall tasks, Permutation (as_completed w tasks) tasks) ->
  let run := main w args video_files in
  In (v, Broken) (handled (run_sched run)) ->
  run_exit run
  = Finished (success_count (run_sched run))
      (Z.of_nat (List.length (run_pending run)))
      (Z.of_nat (List.length (run_completed run)) + success_count (run_sched run))
  /\ same_entry (PyPath.basename v) (current_record (run_sched run)) (run_record run)
  /\ (forall s, In s (saves (run_sched run)) ->
                same_entry (PyPath.basename v) s (run_record run)).
Proof.
  intros Hnd Hperm run Hbroken. subst run.
  destruct (main_dispatched w args video_files)
    as (rs & Hres & Hrec & Hcomp & Hpend & Hsched & Hexit).
  { intros Hnil. rewrite Hnil in Hbroken. contradiction. }
  destruct (resume_spec w args video_files rs Hres) as (Hcur & _ & Hndp).
  specialize (Hndp PyPath.basename Hnd).
  rewrite Hexit, Hrec, Hcomp, Hpend. split; [reflexivity|].
  rewrite Hsched in *. clear Hsched Hexit.
  destruct (parallel_dispatch_start w args (rs_record_file rs) (rs_pending rs)
              (rs_current_record rs)) as (Hpd & Hc0 & Hs0 & Hh0 & _).
  rewrite Hpd in *. clear Hpd.
  set (rf := rs_record_file rs) in *.
  set (tasks := make_tasks args rf (rs_pending rs) 1) in *.
  set (st0 := note_submitted _ _) in *.
  assert (Hpaths : map t_video_path tasks = rs_pending rs) by apply make_tasks_paths.
  rewrite fold_handled, Hh0 in Hbroken. cbn [app] in Hbroken.
  apply in_map_iff in Hbroken as (t & Ht & Hin). injection Ht as Hv Hrep.
  assert (Hint : In t tasks) by (eapply Permutation_in; [apply Hperm | exact Hin]).
  assert (Hkey : forall t', In t' (as_completed w tasks) -> report_of w t' = Succeeded ->
                            PyPath.basename (t_video_path t') <> PyPath.basename v).
  { intros t' Hin' Hs Heq.
    assert (Hint' : In t' tasks) by (eapply Permutation_in; [apply Hperm | exact Hin']).
    assert (t' = t).
    { apply (NoDup_map_inj (fun x => PyPath.basename (t_video_path x)) tasks);
        [|assumption|assumption|now rewrite Hv].
      rewrite <- (map_map t_video_path PyPath.basename), Hpaths. exact Hndp. }
    subst t'. congruence. }
  destruct (fold_ledger w args rf (PyPath.basename v) (as_completed w tasks) st0 Hkey)
    as [Hsame Hsaves].
  rewrite Hc0, Hcur in Hsame, Hsaves. rewrite Hs0 in Hsaves.
  split; [exact Hsame|].
  intros s0 Hs. destruct (Hsaves s0 Hs) as [[] | H]. exact H.
Qed.

Lemma broken_future_is_passed_over_witness :
  run_exit (main Cases.world_broken_pool Samples.args_mp3 Samples.videos) = Finished 0 2 2
  /\ py_contains "d.mp4"
       (current_record (run_sched (main Cases.world_broken_pool Samples.args_mp3
                                     Samples.videos))) = Ok false.
Proof.
  assert (Hnd : NoDup (map PyPath.basename Samples.videos)).
  { cbv [Samples.videos map].
    repeat (apply NoDup_cons; [cbn; intuition discriminate|]). apply NoDup_nil. }
  assert (Hperm : forall tasks, Permutation (as_completed Cases.world_broken_pool tasks) tasks).
  { intros tasks. apply Permutation_sym, Permutation_rev. }
  assert (Hbroken : In ("in/d.mp4", Broken)
                       (handled (run_sched (main Cases.world_broken_pool Samples.args_mp3
                                              Samples.videos)))).
  { vm_compute. left. reflexivity. }
  destruct (broken_future_is_passed_over Cases.world_broken_pool Samples.args_mp3
              Samples.videos "in/d.mp4" Hnd Hperm Hbroken) as (Hexit & [Hsame _] & _).
  split.
  - rewrite Hexit. reflexivity.
  - change (PyPath.basename "in/d.mp4") with "d.mp4" in Hsame. rewrite Hsame. reflexivity.
Defined.
